(** * Klassy window decoration: title-bar buttons and the title-bar opacity dialog

    A shallow embedding of [kdecoration/breezebutton.cpp] (class
    [Breeze::Button]) and of [kdecoration/config/titlebaropacity.cpp] (class
    [Breeze::TitleBarOpacity]).

    - [qreal] values are rationals ([Q]); the constants the code compares
      against (0.05, 0.2, 1.2, 1.3) are the nearest doubles to those decimals,
      so a double lies below the constant exactly when it lies below the
      decimal. Arithmetic on [Q] is exact where the code's doubles round:
      the statements below therefore name the operations the code performs,
      compare with constants or state inequalities, and none relies on two
      different computations cancelling exactly.
    - [int] values are [Z]; a conversion to [int] is modelled for values
      within the range of [int].
    - A [QColor] is [option rgba]: [None] is the default-constructed, invalid
      colour [QColor()].
    - A [QPainter] is its device transform, its stack of saved states and the
      list of the commands it has received.
    - Fields of a C++ object are record fields with the member's name. *)

From Stdlib Require Import ZArith QArith Qround Bool List Lia Lqa.
Import ListNotations.

Local Open Scope Z_scope.

(** ** Numbers *)

Definition qreal : Type := Q.
Bind Scope Q_scope with qreal.

Definition Qltb (x y : Q) : bool := negb (Qle_bool y x).
Definition Qgeb (x y : Q) : bool := Qle_bool y x.
Definition Qgtb (x y : Q) : bool := Qltb y x.
Definition Qmax (x y : Q) : Q := if Qle_bool x y then y else x.

(** [qRound]: the nearest integer, halves upwards ([int(d + 0.5)] for
    [d >= 0]); exact on integer-valued arguments within the range of [int],
    which is where the statements below use its value. *)
Definition qRound (d : qreal) : Z := Qfloor (d + (1 # 2))%Q.

(** ** Geometry values of Qt *)

Record QPointF : Type := mkPointF { px : qreal; py : qreal }.
Record QSize : Type := mkSize { width : Z; height : Z }.
Record QSizeF : Type := mkSizeF { widthF : qreal; heightF : qreal }.
Record QRectF : Type := mkRectF { rx : qreal; ry : qreal; rw : qreal; rh : qreal }.
Record QRect : Type := mkRect { ix : Z; iy : Z; iw : Z; ih : Z }.

(** [QSize::isValid]: both dimensions are at least 0. *)
Definition QSize_isValid (s : QSize) : bool := (0 <=? width s) && (0 <=? height s).

Definition QSize_toF (s : QSize) : QSizeF := mkSizeF (inject_Z (width s)) (inject_Z (height s)).
Definition QSizeF_toSize (s : QSizeF) : QSize := mkSize (qRound (widthF s)) (qRound (heightF s)).
Definition QRect_toF (r : QRect) : QRectF :=
  mkRectF (inject_Z (ix r)) (inject_Z (iy r)) (inject_Z (iw r)) (inject_Z (ih r)).
Definition QRectF_topLeft (r : QRectF) : QPointF := mkPointF (rx r) (ry r).
Definition QRectF_size (r : QRectF) : QSizeF := mkSizeF (rw r) (rh r).
Definition QRectF_of (p : QPointF) (s : QSizeF) : QRectF := mkRectF (px p) (py p) (widthF s) (heightF s).

(** [QRectF::toRect]: the corners are rounded. *)
Definition QRectF_toRect (r : QRectF) : QRect :=
  let x1 := qRound (rx r) in
  let y1 := qRound (ry r) in
  let x2 := qRound (rx r + rw r)%Q in
  let y2 := qRound (ry r + rh r)%Q in
  mkRect x1 y1 (x2 - x1) (y2 - y1).

(** [QRectF::adjusted (dx1, dy1, dx2, dy2)]. *)
Definition adjusted (r : QRectF) (dx1 dy1 dx2 dy2 : qreal) : QRectF :=
  mkRectF (rx r + dx1)%Q (ry r + dy1)%Q (rw r + dx2 - dx1)%Q (rh r + dy2 - dy1)%Q.

Definition QPointF_sub (a b : QPointF) : QPointF := mkPointF (px a - px b)%Q (py a - py b)%Q.
Definition QPointF_add (a b : QPointF) : QPointF := mkPointF (px a + px b)%Q (py a + py b)%Q.
Definition QPointF_scale (a : QPointF) (k : qreal) : QPointF := mkPointF (px a * k)%Q (py a * k)%Q.

(** An affine [QTransform]: [map (x, y) = (m11 x + m21 y + dx, m12 x + m22 y + dy)]. *)
Record QTransform : Type := mkTransform
  { m11 : qreal; m12 : qreal; m21 : qreal; m22 : qreal; tdx : qreal; tdy : qreal }.

Definition QTransform_map (t : QTransform) (p : QPointF) : QPointF :=
  mkPointF (m11 t * px p + m21 t * py p + tdx t)%Q (m12 t * px p + m22 t * py p + tdy t)%Q.

Definition QTransform_translate (t : QTransform) (x y : qreal) : QTransform :=
  mkTransform (m11 t) (m12 t) (m21 t) (m22 t)
              (tdx t + x * m11 t + y * m21 t)%Q (tdy t + y * m22 t + x * m12 t)%Q.

Definition QTransform_scale (t : QTransform) (sx sy : qreal) : QTransform :=
  mkTransform (m11 t * sx)%Q (m12 t * sx)%Q (m21 t * sy)%Q (m22 t * sy)%Q (tdx t) (tdy t).

(** ** Colours *)

Record rgba : Type := mkRgba { red : Z; green : Z; blue : Z; alpha : Z }.

Definition QColor : Type := option rgba.

(** [QColor()]. *)
Definition invalidColor : QColor := None.

Definition isValid (c : QColor) : bool :=
  match c with Some _ => true | None => false end.

(** [Qt::GlobalColor::white]. *)
Definition white : QColor := Some (mkRgba 255 255 255 255).

(** The colours of [g_decorationColors] that the button reads. *)
Record DecorationColors : Type := mkDecorationColors
  { buttonFocus : QColor;
    buttonHover : QColor;
    buttonReducedOpacityBackground : QColor;
    buttonReducedOpacityOutline : QColor;
    negative : QColor;
    negativeLessSaturated : QColor;
    negativeSaturated : QColor;
    fullySaturatedNegative : QColor;
    negativeReducedOpacityBackground : QColor;
    negativeReducedOpacityOutline : QColor;
    negativeReducedOpacityLessSaturatedBackground : QColor;
    neutral : QColor;
    neutralLessSaturated : QColor;
    neutralSaturated : QColor;
    neutralReducedOpacityBackground : QColor;
    neutralReducedOpacityOutline : QColor;
    positive : QColor;
    positiveLessSaturated : QColor;
    positiveSaturated : QColor;
    positiveReducedOpacityBackground : QColor;
    positiveReducedOpacityOutline : QColor }.

(** What the button code reads from outside its own class and its
    decoration: the colour functions of KColorUtils and of [ColorTools]
    ([colortools.h]), the global palette [g_decorationColors], the constant
    [PenWidth::Symbol] ([breeze.h]) and [KWindowSystem::isPlatformX11()].
    None of them is defined in the two source files, so they are parameters
    of the development.

    [getHigherContrastForegroundColor fg bg threshold] is the colour the
    function leaves in its output argument when that argument is passed in
    default-constructed, as [Button::foregroundColor] does. *)
Class Environment : Type := mkEnvironment
  { KColorUtils_mix : QColor -> QColor -> qreal -> QColor;
    KColorUtils_contrastRatio : QColor -> QColor -> qreal;
    ColorTools_alphaMix : QColor -> qreal -> QColor;
    ColorTools_getHigherContrastForegroundColor : QColor -> QColor -> qreal -> QColor;
    g_decorationColors : DecorationColors;
    PenWidth_Symbol : qreal;
    isPlatformX11 : bool }.

(** ** Settings *)

Inductive DecorationButtonType : Type :=
| Menu | ApplicationMenu | OnAllDesktops | Minimize | Maximize | Close
| ContextHelp | Shade | KeepBelow | KeepAbove | Custom.

Inductive EnumBackgroundColors : Type :=
| ColorsTitlebarText | ColorsAccent | ColorsAccentWithTrafficLights.

Inductive EnumButtonShape : Type :=
| ShapeSmallCircle
| ShapeSmallSquare
| ShapeSmallRoundedSquare
| ShapeFullHeightRectangle
| ShapeFullHeightRoundedRectangle
| ShapeIntegratedRoundedRectangle.

(** Only [StyleSystemIconTheme] is told apart by the button; [StyleBuiltIn n]
    stands for the n-th built-in icon style. *)
Inductive EnumButtonIconStyle : Type :=
| StyleSystemIconTheme
| StyleBuiltIn (n : Z).

Inductive EnumBoldButtonIcons : Type :=
| BoldIconsHiDpiOnly | BoldIconsBold | BoldIconsFine.

Inductive ButtonBackgroundType : Type := Small | FullHeight.

Definition DecorationButtonType_eqb (a b : DecorationButtonType) : bool :=
  match a, b with
  | Menu, Menu | ApplicationMenu, ApplicationMenu | OnAllDesktops, OnAllDesktops
  | Minimize, Minimize | Maximize, Maximize | Close, Close
  | ContextHelp, ContextHelp | Shade, Shade | KeepBelow, KeepBelow
  | KeepAbove, KeepAbove | Custom, Custom => true
  | _, _ => false
  end.

Definition EnumBackgroundColors_eqb (a b : EnumBackgroundColors) : bool :=
  match a, b with
  | ColorsTitlebarText, ColorsTitlebarText
  | ColorsAccent, ColorsAccent
  | ColorsAccentWithTrafficLights, ColorsAccentWithTrafficLights => true
  | _, _ => false
  end.

Definition EnumButtonShape_eqb (a b : EnumButtonShape) : bool :=
  match a, b with
  | ShapeSmallCircle, ShapeSmallCircle
  | ShapeSmallSquare, ShapeSmallSquare
  | ShapeSmallRoundedSquare, ShapeSmallRoundedSquare
  | ShapeFullHeightRectangle, ShapeFullHeightRectangle
  | ShapeFullHeightRoundedRectangle, ShapeFullHeightRoundedRectangle
  | ShapeIntegratedRoundedRectangle, ShapeIntegratedRoundedRectangle => true
  | _, _ => false
  end.

Definition ButtonBackgroundType_eqb (a b : ButtonBackgroundType) : bool :=
  match a, b with
  | Small, Small | FullHeight, FullHeight => true
  | _, _ => false
  end.

Definition isSystemIconTheme (s : EnumButtonIconStyle) : bool :=
  match s with StyleSystemIconTheme => true | StyleBuiltIn _ => false end.

Declare Scope enum_scope.
Delimit Scope enum_scope with enum.
Notation "a =T= b" := (DecorationButtonType_eqb a b) (at level 70, no associativity) : enum_scope.
Notation "a =C= b" := (EnumBackgroundColors_eqb a b) (at level 70, no associativity) : enum_scope.
Notation "a =S= b" := (EnumButtonShape_eqb a b) (at level 70, no associativity) : enum_scope.
Local Open Scope enum_scope.

(** The entries of [InternalSettings] (generated from the kcfg file) that the
    two source files read or write. *)
Record InternalSettings : Type := mkInternalSettings
  { backgroundColors : EnumBackgroundColors;
    translucentButtonBackgrounds : bool;
    redAlwaysShownClose : bool;
    buttonShape : EnumButtonShape;
    cornerRadius : qreal;
    buttonIconStyle : EnumButtonIconStyle;
    boldButtonIcons : EnumBoldButtonIcons;
    integratedRoundedRectangleBottomPadding : qreal;
    titlebarLeftMargin : Z;
    titlebarRightMargin : Z;
    colorizeThinWindowOutlineWithButton : bool;
    overrideActiveTitleBarOpacity : bool;
    overrideInactiveTitleBarOpacity : bool;
    activeTitlebarOpacity : Z;
    inactiveTitlebarOpacity : Z;
    opaqueMaximizedTitlebars : bool;
    blurTransparentTitlebars : bool;
    applyOpacityToHeader : bool }.

(** [Decoration::m_buttonBehaviouralParameters]. *)
Record ButtonBehaviouralParameters : Type := mkButtonBehaviouralParameters
  { drawBackgroundAlways : bool;
    drawBackgroundOnHover : bool;
    drawBackgroundOnFocus : bool;
    drawCloseBackgroundAlways : bool;
    drawCloseBackgroundOnHover : bool;
    drawCloseBackgroundOnFocus : bool;
    drawOutlineAlways : bool;
    drawOutlineOnHover : bool;
    drawOutlineOnFocus : bool;
    drawCloseOutlineAlways : bool;
    drawCloseOutlineOnHover : bool;
    drawCloseOutlineOnFocus : bool;
    drawIconAlways : bool;
    drawIconOnHover : bool;
    drawIconOnFocus : bool }.

(** ** The decoration and its client, as the button sees them *)

(** [QPalette]: the palette it was copied from and the [WindowText] colour
    set on it, if any. [defaultPalette] is [QPalette()]. *)
Record QPalette : Type := mkPalette { paletteId : Z; windowText : option QColor }.

Definition defaultPalette : QPalette := mkPalette 0 None.

Definition QPalette_setWindowText (p : QPalette) (c : QColor) : QPalette :=
  mkPalette (paletteId p) (Some c).

Definition rgba_eqb (a b : rgba) : bool :=
  (red a =? red b) && (green a =? green b) && (blue a =? blue b) && (alpha a =? alpha b).

Definition QColor_eqb (a b : QColor) : bool :=
  match a, b with
  | Some x, Some y => rgba_eqb x y
  | None, None => true
  | _, _ => false
  end.

Definition QPalette_eqb (p q : QPalette) : bool :=
  (paletteId p =? paletteId q)
  && match windowText p, windowText q with
     | Some a, Some b => QColor_eqb a b
     | None, None => true
     | _, _ => false
     end.

(** [KDecoration2::DecoratedClient]. *)
Record DecoratedClient : Type := mkDecoratedClient
  { isCloseable : bool;
    isMaximizeable : bool;
    isMinimizeable : bool;
    providesContextHelp : bool;
    isShadeable : bool;
    palette : QPalette;
    icon : Z }.

(** A [QPainterPath], as the sequence of calls that built it. *)
Inductive QPainterPath : Type :=
| emptyPath
| windowOutline (id : Z)
| addRoundedRect (p : QPainterPath) (r : QRectF) (xRadius yRadius : qreal)
| addRect (p : QPainterPath) (r : QRectF)
| subtracted (p q : QPainterPath)
| intersected (p q : QPainterPath).

(** [Breeze::Decoration] ([breezedecoration.h]): the values its accessors
    return to the button. [client] is [client().toStrongRef()]: [None] when
    the client is gone. *)
Record Decoration : Type := mkDecoration
  { client : option DecoratedClient;
    internalSettings : InternalSettings;
    m_buttonBehaviouralParameters : ButtonBehaviouralParameters;
    titleBarColor : QColor;
    fontColor : QColor;
    animationsDuration : Z;
    buttonBackgroundType : ButtonBackgroundType;
    titleBar : QRect;
    smallSpacing : Z;
    scaledCornerRadius : qreal;
    isMaximized : bool;
    windowPath : QPainterPath;
    systemScaleFactor : qreal;
    smallButtonPaddedHeight : Z;
    iconHeight : Z;
    smallButtonBackgroundHeight : Z }.

(** A [KDecoration2::Decoration *] handed to [Button::create]. *)
Inductive KDecoration : Type :=
| nullDecoration
| foreignDecoration
| breezeDecoration (d : Decoration).

(** [qobject_cast<Decoration *>]. *)
Definition qobject_cast (p : KDecoration) : option Decoration :=
  match p with
  | breezeDecoration d => Some d
  | nullDecoration | foreignDecoration => None
  end.

(** ** The animation object *)

Inductive QEasingCurve : Type := Linear | InOutQuad.
Inductive Direction : Type := Forward | Backward.
Inductive AnimationState : Type := Stopped | Paused | Running.

Definition AnimationState_eqb (a b : AnimationState) : bool :=
  match a, b with
  | Stopped, Stopped | Paused, Paused | Running, Running => true
  | _, _ => false
  end.

(** [QVariantAnimation] over [qreal] values. *)
Record QVariantAnimation : Type := mkAnimation
  { startValue : qreal;
    endValue : qreal;
    easingCurve : QEasingCurve;
    duration : Z;
    direction : Direction;
    state : AnimationState;
    currentTime : Z }.

(** [new QVariantAnimation]: linear easing, 250 ms, forward, stopped. The
    start and end values are unset; the constructor of [Button] sets both
    before any use. *)
Definition newAnimation : QVariantAnimation :=
  mkAnimation 0%Q 0%Q Linear 250 Forward Stopped 0.

Definition setStartValue (v : qreal) (a : QVariantAnimation) : QVariantAnimation :=
  mkAnimation v (endValue a) (easingCurve a) (duration a) (direction a) (state a) (currentTime a).

Definition setEndValue (v : qreal) (a : QVariantAnimation) : QVariantAnimation :=
  mkAnimation (startValue a) v (easingCurve a) (duration a) (direction a) (state a) (currentTime a).

Definition setEasingCurve (e : QEasingCurve) (a : QVariantAnimation) : QVariantAnimation :=
  mkAnimation (startValue a) (endValue a) e (duration a) (direction a) (state a) (currentTime a).

(** [QVariantAnimation::setDuration] refuses a negative duration. *)
Definition setDuration (msecs : Z) (a : QVariantAnimation) : QVariantAnimation :=
  if msecs <? 0 then a
  else mkAnimation (startValue a) (endValue a) (easingCurve a) msecs (direction a) (state a)
                   (currentTime a).

Definition setDirection (d : Direction) (a : QVariantAnimation) : QVariantAnimation :=
  mkAnimation (startValue a) (endValue a) (easingCurve a) (duration a) d (state a) (currentTime a).

(** [QAbstractAnimation::start]: nothing when already running; a stopped
    animation is rewound to the end its direction starts from. *)
Definition start (a : QVariantAnimation) : QVariantAnimation :=
  match state a with
  | Running => a
  | Paused =>
      mkAnimation (startValue a) (endValue a) (easingCurve a) (duration a) (direction a) Running
                  (currentTime a)
  | Stopped =>
      mkAnimation (startValue a) (endValue a) (easingCurve a) (duration a) (direction a) Running
                  (match direction a with Forward => 0 | Backward => duration a end)
  end.

(** [QEasingCurve::valueForProgress]. *)
Definition valueForProgress (e : QEasingCurve) (t : qreal) : qreal :=
  match e with
  | Linear => t
  | InOutQuad =>
      let t2 := (t * 2)%Q in
      if Qltb t2 1 then (t2 * t2 / 2)%Q
      else let u := (t2 - 1)%Q in (- (1 # 2) * (u * (u - 2) - 1))%Q
  end.

(** The progress of an animation: elapsed time over duration. *)
Definition progress (a : QVariantAnimation) : qreal :=
  if duration a =? 0 then 1%Q else (inject_Z (currentTime a) / inject_Z (duration a))%Q.

(** [QVariantAnimation::currentValue]: the start and end values interpolated
    at the eased progress. *)
Definition currentValue (a : QVariantAnimation) : qreal :=
  (startValue a + (endValue a - startValue a) * valueForProgress (easingCurve a) (progress a))%Q.

(** The animation after the animation timer has advanced it by [dt]
    milliseconds in its direction: it stops at the end it runs towards. *)
Definition advance (dt : Z) (a : QVariantAnimation) : QVariantAnimation :=
  match state a with
  | Running =>
      let t := match direction a with
               | Forward => Z.min (duration a) (currentTime a + dt)
               | Backward => Z.max 0 (currentTime a - dt)
               end in
      let finished := match direction a with
                      | Forward => duration a <=? t
                      | Backward => t <=? 0
                      end in
      mkAnimation (startValue a) (endValue a) (easingCurve a) (duration a) (direction a)
                  (if finished then Stopped else Running) t
  | _ => a
  end.

(** ** The button *)

Inductive Flag : Type := FlagNone | FlagStandalone | FlagFirstInList | FlagLastInList.

(** The state of a [Breeze::Button]: the members of its base class
    [KDecoration2::DecorationButton] that the code reads ([btype] is
    [type()]) and its own [m_] members. *)
Record Button : Type := mkButton
  { btype : DecorationButtonType;
    decoration : option Decoration;
    isHovered : bool;
    isPressed : bool;
    isChecked : bool;
    isVisible : bool;
    geometry : QRectF;
    m_animation : QVariantAnimation;
    m_flag : Flag;
    m_isGtkCsdButton : bool;
    m_opacity : qreal;
    m_devicePixelRatio : qreal;
    m_boldButtonIcons : bool;
    m_systemIconIsAvailable : bool;
    m_standardScaledPenWidth : qreal;
    m_backgroundColor : QColor;
    m_foregroundColor : QColor;
    m_outlineColor : QColor;
    m_lowContrastBetweenTitleBarAndBackground : bool;
    m_preAnimationForegroundColor : QColor;
    m_preAnimationBackgroundColor : QColor;
    m_preAnimationOutlineColor : QColor;
    m_smallButtonPaddedSize : QSize;
    m_iconSize : QSize;
    m_backgroundVisibleSize : QSizeF;
    m_iconOffset : QPointF;
    m_fullHeightVisibleBackgroundOffset : QPointF;
    m_rightmostRightVisible : bool;
    m_leftmostLeftVisible : bool }.

(** Assignments to one member: [with_m x v b] is [b] after [m = v]. *)

Definition with_isVisible (v : bool) (b : Button) : Button :=
  mkButton
    (btype b) (decoration b) (isHovered b) (isPressed b) (isChecked b) v (geometry b)
    (m_animation b) (m_flag b) (m_isGtkCsdButton b) (m_opacity b) (m_devicePixelRatio b)
    (m_boldButtonIcons b) (m_systemIconIsAvailable b) (m_standardScaledPenWidth b)
    (m_backgroundColor b) (m_foregroundColor b) (m_outlineColor b)
    (m_lowContrastBetweenTitleBarAndBackground b) (m_preAnimationForegroundColor b)
    (m_preAnimationBackgroundColor b) (m_preAnimationOutlineColor b) (m_smallButtonPaddedSize b)
    (m_iconSize b) (m_backgroundVisibleSize b) (m_iconOffset b)
    (m_fullHeightVisibleBackgroundOffset b) (m_rightmostRightVisible b) (m_leftmostLeftVisible b).

Definition with_m_animation (v : QVariantAnimation) (b : Button) : Button :=
  mkButton
    (btype b) (decoration b) (isHovered b) (isPressed b) (isChecked b) (isVisible b) (geometry b)
    v (m_flag b) (m_isGtkCsdButton b) (m_opacity b) (m_devicePixelRatio b) (m_boldButtonIcons b)
    (m_systemIconIsAvailable b) (m_standardScaledPenWidth b) (m_backgroundColor b)
    (m_foregroundColor b) (m_outlineColor b) (m_lowContrastBetweenTitleBarAndBackground b)
    (m_preAnimationForegroundColor b) (m_preAnimationBackgroundColor b)
    (m_preAnimationOutlineColor b) (m_smallButtonPaddedSize b) (m_iconSize b)
    (m_backgroundVisibleSize b) (m_iconOffset b) (m_fullHeightVisibleBackgroundOffset b)
    (m_rightmostRightVisible b) (m_leftmostLeftVisible b).


Definition with_m_opacity (v : qreal) (b : Button) : Button :=
  mkButton
    (btype b) (decoration b) (isHovered b) (isPressed b) (isChecked b) (isVisible b) (geometry b)
    (m_animation b) (m_flag b) (m_isGtkCsdButton b) v (m_devicePixelRatio b)
    (m_boldButtonIcons b) (m_systemIconIsAvailable b) (m_standardScaledPenWidth b)
    (m_backgroundColor b) (m_foregroundColor b) (m_outlineColor b)
    (m_lowContrastBetweenTitleBarAndBackground b) (m_preAnimationForegroundColor b)
    (m_preAnimationBackgroundColor b) (m_preAnimationOutlineColor b) (m_smallButtonPaddedSize b)
    (m_iconSize b) (m_backgroundVisibleSize b) (m_iconOffset b)
    (m_fullHeightVisibleBackgroundOffset b) (m_rightmostRightVisible b) (m_leftmostLeftVisible b).

Definition with_m_devicePixelRatio (v : qreal) (b : Button) : Button :=
  mkButton
    (btype b) (decoration b) (isHovered b) (isPressed b) (isChecked b) (isVisible b) (geometry b)
    (m_animation b) (m_flag b) (m_isGtkCsdButton b) (m_opacity b) v (m_boldButtonIcons b)
    (m_systemIconIsAvailable b) (m_standardScaledPenWidth b) (m_backgroundColor b)
    (m_foregroundColor b) (m_outlineColor b) (m_lowContrastBetweenTitleBarAndBackground b)
    (m_preAnimationForegroundColor b) (m_preAnimationBackgroundColor b)
    (m_preAnimationOutlineColor b) (m_smallButtonPaddedSize b) (m_iconSize b)
    (m_backgroundVisibleSize b) (m_iconOffset b) (m_fullHeightVisibleBackgroundOffset b)
    (m_rightmostRightVisible b) (m_leftmostLeftVisible b).

Definition with_m_boldButtonIcons (v : bool) (b : Button) : Button :=
  mkButton
    (btype b) (decoration b) (isHovered b) (isPressed b) (isChecked b) (isVisible b) (geometry b)
    (m_animation b) (m_flag b) (m_isGtkCsdButton b) (m_opacity b) (m_devicePixelRatio b) v
    (m_systemIconIsAvailable b) (m_standardScaledPenWidth b) (m_backgroundColor b)
    (m_foregroundColor b) (m_outlineColor b) (m_lowContrastBetweenTitleBarAndBackground b)
    (m_preAnimationForegroundColor b) (m_preAnimationBackgroundColor b)
    (m_preAnimationOutlineColor b) (m_smallButtonPaddedSize b) (m_iconSize b)
    (m_backgroundVisibleSize b) (m_iconOffset b) (m_fullHeightVisibleBackgroundOffset b)
    (m_rightmostRightVisible b) (m_leftmostLeftVisible b).

Definition with_m_systemIconIsAvailable (v : bool) (b : Button) : Button :=
  mkButton
    (btype b) (decoration b) (isHovered b) (isPressed b) (isChecked b) (isVisible b) (geometry b)
    (m_animation b) (m_flag b) (m_isGtkCsdButton b) (m_opacity b) (m_devicePixelRatio b)
    (m_boldButtonIcons b) v (m_standardScaledPenWidth b) (m_backgroundColor b)
    (m_foregroundColor b) (m_outlineColor b) (m_lowContrastBetweenTitleBarAndBackground b)
    (m_preAnimationForegroundColor b) (m_preAnimationBackgroundColor b)
    (m_preAnimationOutlineColor b) (m_smallButtonPaddedSize b) (m_iconSize b)
    (m_backgroundVisibleSize b) (m_iconOffset b) (m_fullHeightVisibleBackgroundOffset b)
    (m_rightmostRightVisible b) (m_leftmostLeftVisible b).

Definition with_m_standardScaledPenWidth (v : qreal) (b : Button) : Button :=
  mkButton
    (btype b) (decoration b) (isHovered b) (isPressed b) (isChecked b) (isVisible b) (geometry b)
    (m_animation b) (m_flag b) (m_isGtkCsdButton b) (m_opacity b) (m_devicePixelRatio b)
    (m_boldButtonIcons b) (m_systemIconIsAvailable b) v (m_backgroundColor b)
    (m_foregroundColor b) (m_outlineColor b) (m_lowContrastBetweenTitleBarAndBackground b)
    (m_preAnimationForegroundColor b) (m_preAnimationBackgroundColor b)
    (m_preAnimationOutlineColor b) (m_smallButtonPaddedSize b) (m_iconSize b)
    (m_backgroundVisibleSize b) (m_iconOffset b) (m_fullHeightVisibleBackgroundOffset b)
    (m_rightmostRightVisible b) (m_leftmostLeftVisible b).

Definition with_m_backgroundColor (v : QColor) (b : Button) : Button :=
  mkButton
    (btype b) (decoration b) (isHovered b) (isPressed b) (isChecked b) (isVisible b) (geometry b)
    (m_animation b) (m_flag b) (m_isGtkCsdButton b) (m_opacity b) (m_devicePixelRatio b)
    (m_boldButtonIcons b) (m_systemIconIsAvailable b) (m_standardScaledPenWidth b) v
    (m_foregroundColor b) (m_outlineColor b) (m_lowContrastBetweenTitleBarAndBackground b)
    (m_preAnimationForegroundColor b) (m_preAnimationBackgroundColor b)
    (m_preAnimationOutlineColor b) (m_smallButtonPaddedSize b) (m_iconSize b)
    (m_backgroundVisibleSize b) (m_iconOffset b) (m_fullHeightVisibleBackgroundOffset b)
    (m_rightmostRightVisible b) (m_leftmostLeftVisible b).

Definition with_m_foregroundColor (v : QColor) (b : Button) : Button :=
  mkButton
    (btype b) (decoration b) (isHovered b) (isPressed b) (isChecked b) (isVisible b) (geometry b)
    (m_animation b) (m_flag b) (m_isGtkCsdButton b) (m_opacity b) (m_devicePixelRatio b)
    (m_boldButtonIcons b) (m_systemIconIsAvailable b) (m_standardScaledPenWidth b)
    (m_backgroundColor b) v (m_outlineColor b) (m_lowContrastBetweenTitleBarAndBackground b)
    (m_preAnimationForegroundColor b) (m_preAnimationBackgroundColor b)
    (m_preAnimationOutlineColor b) (m_smallButtonPaddedSize b) (m_iconSize b)
    (m_backgroundVisibleSize b) (m_iconOffset b) (m_fullHeightVisibleBackgroundOffset b)
    (m_rightmostRightVisible b) (m_leftmostLeftVisible b).

Definition with_m_outlineColor (v : QColor) (b : Button) : Button :=
  mkButton
    (btype b) (decoration b) (isHovered b) (isPressed b) (isChecked b) (isVisible b) (geometry b)
    (m_animation b) (m_flag b) (m_isGtkCsdButton b) (m_opacity b) (m_devicePixelRatio b)
    (m_boldButtonIcons b) (m_systemIconIsAvailable b) (m_standardScaledPenWidth b)
    (m_backgroundColor b) (m_foregroundColor b) v (m_lowContrastBetweenTitleBarAndBackground b)
    (m_preAnimationForegroundColor b) (m_preAnimationBackgroundColor b)
    (m_preAnimationOutlineColor b) (m_smallButtonPaddedSize b) (m_iconSize b)
    (m_backgroundVisibleSize b) (m_iconOffset b) (m_fullHeightVisibleBackgroundOffset b)
    (m_rightmostRightVisible b) (m_leftmostLeftVisible b).

Definition with_m_lowContrastBetweenTitleBarAndBackground (v : bool) (b : Button) : Button :=
  mkButton
    (btype b) (decoration b) (isHovered b) (isPressed b) (isChecked b) (isVisible b) (geometry b)
    (m_animation b) (m_flag b) (m_isGtkCsdButton b) (m_opacity b) (m_devicePixelRatio b)
    (m_boldButtonIcons b) (m_systemIconIsAvailable b) (m_standardScaledPenWidth b)
    (m_backgroundColor b) (m_foregroundColor b) (m_outlineColor b) v
    (m_preAnimationForegroundColor b) (m_preAnimationBackgroundColor b)
    (m_preAnimationOutlineColor b) (m_smallButtonPaddedSize b) (m_iconSize b)
    (m_backgroundVisibleSize b) (m_iconOffset b) (m_fullHeightVisibleBackgroundOffset b)
    (m_rightmostRightVisible b) (m_leftmostLeftVisible b).

Definition with_m_preAnimationForegroundColor (v : QColor) (b : Button) : Button :=
  mkButton
    (btype b) (decoration b) (isHovered b) (isPressed b) (isChecked b) (isVisible b) (geometry b)
    (m_animation b) (m_flag b) (m_isGtkCsdButton b) (m_opacity b) (m_devicePixelRatio b)
    (m_boldButtonIcons b) (m_systemIconIsAvailable b) (m_standardScaledPenWidth b)
    (m_backgroundColor b) (m_foregroundColor b) (m_outlineColor b)
    (m_lowContrastBetweenTitleBarAndBackground b) v (m_preAnimationBackgroundColor b)
    (m_preAnimationOutlineColor b) (m_smallButtonPaddedSize b) (m_iconSize b)
    (m_backgroundVisibleSize b) (m_iconOffset b) (m_fullHeightVisibleBackgroundOffset b)
    (m_rightmostRightVisible b) (m_leftmostLeftVisible b).

Definition with_m_preAnimationBackgroundColor (v : QColor) (b : Button) : Button :=
  mkButton
    (btype b) (decoration b) (isHovered b) (isPressed b) (isChecked b) (isVisible b) (geometry b)
    (m_animation b) (m_flag b) (m_isGtkCsdButton b) (m_opacity b) (m_devicePixelRatio b)
    (m_boldButtonIcons b) (m_systemIconIsAvailable b) (m_standardScaledPenWidth b)
    (m_backgroundColor b) (m_foregroundColor b) (m_outlineColor b)
    (m_lowContrastBetweenTitleBarAndBackground b) (m_preAnimationForegroundColor b) v
    (m_preAnimationOutlineColor b) (m_smallButtonPaddedSize b) (m_iconSize b)
    (m_backgroundVisibleSize b) (m_iconOffset b) (m_fullHeightVisibleBackgroundOffset b)
    (m_rightmostRightVisible b) (m_leftmostLeftVisible b).

Definition with_m_preAnimationOutlineColor (v : QColor) (b : Button) : Button :=
  mkButton
    (btype b) (decoration b) (isHovered b) (isPressed b) (isChecked b) (isVisible b) (geometry b)
    (m_animation b) (m_flag b) (m_isGtkCsdButton b) (m_opacity b) (m_devicePixelRatio b)
    (m_boldButtonIcons b) (m_systemIconIsAvailable b) (m_standardScaledPenWidth b)
    (m_backgroundColor b) (m_foregroundColor b) (m_outlineColor b)
    (m_lowContrastBetweenTitleBarAndBackground b) (m_preAnimationForegroundColor b)
    (m_preAnimationBackgroundColor b) v (m_smallButtonPaddedSize b) (m_iconSize b)
    (m_backgroundVisibleSize b) (m_iconOffset b) (m_fullHeightVisibleBackgroundOffset b)
    (m_rightmostRightVisible b) (m_leftmostLeftVisible b).

Definition with_m_smallButtonPaddedSize (v : QSize) (b : Button) : Button :=
  mkButton
    (btype b) (decoration b) (isHovered b) (isPressed b) (isChecked b) (isVisible b) (geometry b)
    (m_animation b) (m_flag b) (m_isGtkCsdButton b) (m_opacity b) (m_devicePixelRatio b)
    (m_boldButtonIcons b) (m_systemIconIsAvailable b) (m_standardScaledPenWidth b)
    (m_backgroundColor b) (m_foregroundColor b) (m_outlineColor b)
    (m_lowContrastBetweenTitleBarAndBackground b) (m_preAnimationForegroundColor b)
    (m_preAnimationBackgroundColor b) (m_preAnimationOutlineColor b) v (m_iconSize b)
    (m_backgroundVisibleSize b) (m_iconOffset b) (m_fullHeightVisibleBackgroundOffset b)
    (m_rightmostRightVisible b) (m_leftmostLeftVisible b).

Definition with_m_iconSize (v : QSize) (b : Button) : Button :=
  mkButton
    (btype b) (decoration b) (isHovered b) (isPressed b) (isChecked b) (isVisible b) (geometry b)
    (m_animation b) (m_flag b) (m_isGtkCsdButton b) (m_opacity b) (m_devicePixelRatio b)
    (m_boldButtonIcons b) (m_systemIconIsAvailable b) (m_standardScaledPenWidth b)
    (m_backgroundColor b) (m_foregroundColor b) (m_outlineColor b)
    (m_lowContrastBetweenTitleBarAndBackground b) (m_preAnimationForegroundColor b)
    (m_preAnimationBackgroundColor b) (m_preAnimationOutlineColor b) (m_smallButtonPaddedSize b)
    v (m_backgroundVisibleSize b) (m_iconOffset b) (m_fullHeightVisibleBackgroundOffset b)
    (m_rightmostRightVisible b) (m_leftmostLeftVisible b).

Definition with_m_backgroundVisibleSize (v : QSizeF) (b : Button) : Button :=
  mkButton
    (btype b) (decoration b) (isHovered b) (isPressed b) (isChecked b) (isVisible b) (geometry b)
    (m_animation b) (m_flag b) (m_isGtkCsdButton b) (m_opacity b) (m_devicePixelRatio b)
    (m_boldButtonIcons b) (m_systemIconIsAvailable b) (m_standardScaledPenWidth b)
    (m_backgroundColor b) (m_foregroundColor b) (m_outlineColor b)
    (m_lowContrastBetweenTitleBarAndBackground b) (m_preAnimationForegroundColor b)
    (m_preAnimationBackgroundColor b) (m_preAnimationOutlineColor b) (m_smallButtonPaddedSize b)
    (m_iconSize b) v (m_iconOffset b) (m_fullHeightVisibleBackgroundOffset b)
    (m_rightmostRightVisible b) (m_leftmostLeftVisible b).

(** ** The colour resolver *)

(** [if (c) x = v;] on a colour [x] that is still default-constructed. *)
Definition when (c : bool) (v : QColor) : QColor := if c then v else invalidColor.

(** The three colours every resolver prepares before it picks one. *)
Record StateColors : Type := mkStateColors
  { normalColor : QColor; hoverColor : QColor; focusColor : QColor }.

Inductive ForegroundColorState : Type := none | normal | animatedHover | hover | focus.

Definition isAccent (s : InternalSettings) : bool :=
  (backgroundColors s =C= ColorsAccent) || (backgroundColors s =C= ColorsAccentWithTrafficLights).

Definition isRunning (b : Button) : bool := AnimationState_eqb (state (m_animation b)) Running.

Definition isCheckedToggle (b : Button) : bool :=
  ((btype b =T= KeepBelow) || (btype b =T= KeepAbove) || (btype b =T= Shade)) && isChecked b.

Section ColorResolver.

Context {env : Environment}.

(** The first part of [Button::foregroundColor]: the button colour state. *)
Definition foregroundColorState (b : Button) (d : Decoration) : ForegroundColorState :=
  let s := internalSettings d in
  let p := m_buttonBehaviouralParameters d in
  if isPressed b && drawIconOnFocus p then focus
  else if ((btype b =T= KeepBelow) || (btype b =T= KeepAbove) || (btype b =T= Shade))
          && isChecked b then focus
  else if (btype b =T= OnAllDesktops) && isChecked b then
    if (backgroundColors s =C= ColorsTitlebarText)
       && negb (translucentButtonBackgrounds s) && negb (isHovered b)
    then normal
    else focus
  else if isPressed b && drawIconOnFocus p then focus
  else if isRunning b && drawIconOnHover p then animatedHover
  else if isHovered b && drawIconOnHover p then hover
  else if drawIconAlways p then normal
  else none.

(** The second part: the colour palette to use. *)
Definition foregroundPalette (b : Button) (d : Decoration) (fontColorContrastBoosted : QColor)
  : StateColors :=
  let s := internalSettings d in
  let p := m_buttonBehaviouralParameters d in
  let whiteOr (c : bool) := if c then white else fontColorContrastBoosted in
  if btype b =T= Close then
    if redAlwaysShownClose s then
      if drawBackgroundAlways p then
        if drawCloseBackgroundAlways p
           && (backgroundColors s =C= ColorsTitlebarText)
           && negb (translucentButtonBackgrounds s)
        then mkStateColors (titleBarColor d) white white
        else mkStateColors fontColorContrastBoosted
                           (whiteOr (drawCloseBackgroundOnHover p))
                           (whiteOr (drawCloseBackgroundOnFocus p))
      else if drawCloseBackgroundAlways p then mkStateColors white white white
      else mkStateColors fontColorContrastBoosted
                         (whiteOr (drawCloseBackgroundOnHover p))
                         (whiteOr (drawCloseBackgroundOnFocus p))
    else if negb (backgroundColors s =C= ColorsTitlebarText) then
      mkStateColors fontColorContrastBoosted
                    (whiteOr (drawCloseBackgroundOnHover p))
                    (whiteOr (drawCloseBackgroundOnFocus p))
    else if translucentButtonBackgrounds s then
      mkStateColors fontColorContrastBoosted
                    (whiteOr (drawCloseBackgroundOnHover p))
                    (whiteOr (drawCloseBackgroundOnFocus p))
    else if drawCloseBackgroundAlways p then mkStateColors (titleBarColor d) white white
    else mkStateColors (fontColor d)
                       (whiteOr (drawCloseBackgroundOnHover p))
                       (whiteOr (drawCloseBackgroundOnFocus p))
  else
    if (backgroundColors s =C= ColorsTitlebarText) && negb (translucentButtonBackgrounds s) then
      if drawBackgroundAlways p
      then mkStateColors (titleBarColor d) (titleBarColor d) (titleBarColor d)
      else mkStateColors (fontColor d)
                         (if drawCloseBackgroundOnHover p then titleBarColor d else fontColor d)
                         (if drawCloseBackgroundOnFocus p then titleBarColor d else fontColor d)
    else mkStateColors fontColorContrastBoosted fontColorContrastBoosted fontColorContrastBoosted.

(** [QColor Button::foregroundColor(const QColor &backgroundContrastedColor) const] *)
Definition foregroundColor (b : Button) (backgroundContrastedColor : QColor) : QColor :=
  match decoration b with
  | None => invalidColor
  | Some d =>
      let fontColorContrastBoosted :=
        if isValid backgroundContrastedColor
        then ColorTools_getHigherContrastForegroundColor
               (fontColor d) backgroundContrastedColor 2.3%Q
        else fontColor d in
      let pal := foregroundPalette b d fontColorContrastBoosted in
      match foregroundColorState b d with
      | normal => normalColor pal
      | animatedHover =>
          if isValid (m_preAnimationForegroundColor b)
          then KColorUtils_mix (m_preAnimationForegroundColor b) (hoverColor pal) (m_opacity b)
          else ColorTools_alphaMix (hoverColor pal) (m_opacity b)
      | hover => hoverColor pal
      | focus => focusColor pal
      | none => invalidColor
      end
  end.

(** The normal, hover and focus colours of [Button::backgroundColor]. In each
    branch [always], [onHover] and [onFocus] are the behavioural flags the
    branch tests. *)
Definition backgroundPalette (b : Button) (d : Decoration) : StateColors :=
  let s := internalSettings d in
  let p := m_buttonBehaviouralParameters d in
  let g := g_decorationColors in
  let trafficLights := backgroundColors s =C= ColorsAccentWithTrafficLights in
  if isAccent s then
    if translucentButtonBackgrounds s then
      if btype b =T= Close then
        if drawCloseBackgroundAlways p then
          if redAlwaysShownClose s then
            mkStateColors (negativeReducedOpacityBackground g)
                          (when (drawCloseBackgroundOnHover p) (negativeReducedOpacityOutline g))
                          (when (drawCloseBackgroundOnFocus p) (fullySaturatedNegative g))
          else
            mkStateColors (buttonReducedOpacityBackground g)
                          (when (drawCloseBackgroundOnHover p) (negativeReducedOpacityOutline g))
                          (when (drawCloseBackgroundOnFocus p) (fullySaturatedNegative g))
        else
          mkStateColors invalidColor
                        (when (drawCloseBackgroundOnHover p) (negativeReducedOpacityBackground g))
                        (when (drawCloseBackgroundOnFocus p) (negativeReducedOpacityOutline g))
      else if (btype b =T= Minimize) && trafficLights then
        if drawBackgroundAlways p then
          mkStateColors (neutralReducedOpacityBackground g)
                        (when (drawBackgroundOnHover p) (neutralReducedOpacityOutline g))
                        (when (drawBackgroundOnFocus p) (neutral g))
        else
          mkStateColors invalidColor
                        (when (drawBackgroundOnHover p) (neutralReducedOpacityBackground g))
                        (when (drawBackgroundOnFocus p) (neutralReducedOpacityOutline g))
      else if (btype b =T= Maximize) && trafficLights then
        if drawBackgroundAlways p then
          mkStateColors (positiveReducedOpacityBackground g)
                        (when (drawBackgroundOnHover p) (positiveReducedOpacityOutline g))
                        (when (drawBackgroundOnFocus p) (positive g))
        else
          mkStateColors invalidColor
                        (when (drawBackgroundOnHover p) (positiveReducedOpacityBackground g))
                        (when (drawBackgroundOnFocus p) (positiveReducedOpacityOutline g))
      else
        if drawBackgroundAlways p then
          mkStateColors (buttonReducedOpacityBackground g)
                        (when (drawBackgroundOnHover p) (buttonReducedOpacityOutline g))
                        (when (drawBackgroundOnFocus p) (buttonFocus g))
        else
          mkStateColors invalidColor
                        (when (drawBackgroundOnHover p) (buttonReducedOpacityBackground g))
                        (when (drawBackgroundOnFocus p) (buttonReducedOpacityOutline g))
    else
      if btype b =T= Close then
        if drawCloseBackgroundAlways p then
          if redAlwaysShownClose s then
            mkStateColors (negative g)
                          (when (drawCloseBackgroundOnHover p) (negativeSaturated g))
                          (when (drawCloseBackgroundOnFocus p) (negativeLessSaturated g))
          else
            mkStateColors (KColorUtils_mix (titleBarColor d) (buttonHover g) 0.5%Q)
                          (when (drawCloseBackgroundOnHover p) (negativeSaturated g))
                          (when (drawCloseBackgroundOnFocus p) (negativeLessSaturated g))
        else
          mkStateColors invalidColor
                        (when (drawCloseBackgroundOnHover p) (negative g))
                        (when (drawCloseBackgroundOnFocus p) (negativeSaturated g))
      else if (btype b =T= Minimize) && trafficLights then
        if drawBackgroundAlways p then
          mkStateColors (neutralLessSaturated g)
                        (when (drawBackgroundOnHover p) (neutral g))
                        (when (drawBackgroundOnFocus p) (neutralSaturated g))
        else
          mkStateColors invalidColor
                        (when (drawBackgroundOnHover p) (neutralLessSaturated g))
                        (when (drawBackgroundOnFocus p) (neutral g))
      else if (btype b =T= Maximize) && trafficLights then
        if drawBackgroundAlways p then
          mkStateColors (positiveLessSaturated g)
                        (when (drawBackgroundOnHover p) (positive g))
                        (when (drawBackgroundOnFocus p) (positiveSaturated g))
        else
          mkStateColors invalidColor
                        (when (drawBackgroundOnHover p) (positiveLessSaturated g))
                        (when (drawBackgroundOnFocus p) (positive g))
      else
        if drawBackgroundAlways p then
          mkStateColors (KColorUtils_mix (titleBarColor d) (buttonHover g) 0.5%Q)
                        (when (drawBackgroundOnHover p) (buttonHover g))
                        (when (drawBackgroundOnFocus p) (buttonFocus g))
        else
          mkStateColors invalidColor
                        (when (drawBackgroundOnHover p) (buttonHover g))
                        (when (drawBackgroundOnFocus p) (buttonFocus g))
  else
    if translucentButtonBackgrounds s then
      if btype b =T= Close then
        if drawCloseBackgroundAlways p then
          if redAlwaysShownClose s then
            mkStateColors (negativeReducedOpacityBackground g)
                          (when (drawCloseBackgroundOnHover p) (negativeReducedOpacityOutline g))
                          (negativeReducedOpacityLessSaturatedBackground g)
          else
            mkStateColors (ColorTools_alphaMix (fontColor d) 0.15%Q)
                          (when (drawCloseBackgroundOnHover p) (negativeReducedOpacityOutline g))
                          (when (drawCloseBackgroundOnFocus p) (negativeReducedOpacityBackground g))
        else
          mkStateColors invalidColor
                        (when (drawCloseBackgroundOnHover p) (negativeReducedOpacityBackground g))
                        (when (drawCloseBackgroundOnFocus p) (negativeReducedOpacityOutline g))
      else
        if drawBackgroundAlways p then
          mkStateColors (ColorTools_alphaMix (fontColor d) 0.15%Q)
                        (when (drawBackgroundOnHover p) (ColorTools_alphaMix (fontColor d) 0.25%Q))
                        (when (drawBackgroundOnFocus p) (ColorTools_alphaMix (fontColor d) 0.35%Q))
        else
          mkStateColors invalidColor
                        (when (drawBackgroundOnHover p) (ColorTools_alphaMix (fontColor d) 0.15%Q))
                        (when (drawBackgroundOnFocus p) (ColorTools_alphaMix (fontColor d) 0.25%Q))
    else
      if btype b =T= Close then
        if drawBackgroundAlways p then
          if redAlwaysShownClose s then
            mkStateColors (negative g)
                          (when (drawCloseBackgroundOnHover p) (negativeSaturated g))
                          (when (drawCloseBackgroundOnFocus p) (negativeLessSaturated g))
          else
            mkStateColors (KColorUtils_mix (titleBarColor d) (fontColor d) 0.3%Q)
                          (when (drawCloseBackgroundOnHover p) (negativeSaturated g))
                          (when (drawCloseBackgroundOnFocus p) (negativeLessSaturated g))
        else if drawCloseBackgroundAlways p then
          if redAlwaysShownClose s then
            mkStateColors (negative g)
                          (when (drawCloseBackgroundOnHover p) (negativeSaturated g))
                          (when (drawCloseBackgroundOnFocus p) (negativeLessSaturated g))
          else
            mkStateColors (fontColor d)
                          (when (drawCloseBackgroundOnHover p) (negativeSaturated g))
                          (when (drawCloseBackgroundOnFocus p) (negativeLessSaturated g))
        else
          mkStateColors invalidColor
                        (when (drawCloseBackgroundOnHover p) (negative g))
                        (when (drawCloseBackgroundOnFocus p) (negativeSaturated g))
      else
        if drawBackgroundAlways p then
          mkStateColors (KColorUtils_mix (titleBarColor d) (fontColor d) 0.3%Q)
                        (when (drawBackgroundOnHover p)
                              (KColorUtils_mix (titleBarColor d) (fontColor d) 0.6%Q))
                        (when (drawBackgroundOnFocus p) (fontColor d))
        else
          mkStateColors invalidColor
                        (when (drawBackgroundOnHover p) (fontColor d))
                        (when (drawBackgroundOnFocus p)
                              (KColorUtils_mix (titleBarColor d) (fontColor d) 0.3%Q)).

(** [QColor Button::backgroundColor(QColor &foregroundContrastedColor, bool
    getNonAnimatedColor) const]: the returned colour, paired with the colour
    left in [foregroundContrastedColor]. Without a decoration the function
    returns before it assigns that argument; both callers pass it in
    default-constructed, so it is left invalid. *)
Definition backgroundColor (b : Button) (getNonAnimatedColor : bool) : QColor * QColor :=
  match decoration b with
  | None => (invalidColor, invalidColor)
  | Some d =>
      let s := internalSettings d in
      let analyseContrastWithForeground := negb (translucentButtonBackgrounds s) && isAccent s in
      let contrasted (c : QColor) := when analyseContrastWithForeground c in
      let pal := backgroundPalette b d in
      if ((btype b =T= KeepBelow) || (btype b =T= KeepAbove) || (btype b =T= Shade))
         && isChecked b then
        if isAccent s
        then (focusColor pal, contrasted (focusColor pal))
        else (hoverColor pal, contrasted (hoverColor pal))
      else if (btype b =T= OnAllDesktops) && isChecked b && isAccent s then
        (focusColor pal, contrasted (focusColor pal))
      else if isPressed b then
        (focusColor pal, contrasted (focusColor pal))
      else if isRunning b && negb getNonAnimatedColor then
        if isValid (m_preAnimationBackgroundColor b) && isValid (hoverColor pal) then
          (KColorUtils_mix (m_preAnimationBackgroundColor b) (hoverColor pal) (m_opacity b),
           contrasted (hoverColor pal))
        else if isValid (hoverColor pal) then
          (ColorTools_alphaMix (hoverColor pal) (m_opacity b), contrasted (hoverColor pal))
        else (invalidColor, invalidColor)
      else if isHovered b then
        (hoverColor pal, contrasted (hoverColor pal))
      else
        (normalColor pal, contrasted (normalColor pal))
  end.

(** [QColor Button::backgroundColor(const bool getNonAnimatedColor) const] *)
Definition backgroundColor1 (b : Button) (getNonAnimatedColor : bool) : QColor :=
  fst (backgroundColor b getNonAnimatedColor).

End ColorResolver.

(** The six local flags [Button::outlineColor] computes first; they carry the
    names of the locals, prefixed, since the decoration's parameters of the
    same names are record fields here. *)
Record OutlineFlags : Type := mkOutlineFlags
  { local_drawOutlineAlways : bool;
    local_drawOutlineOnHover : bool;
    local_drawOutlineOnFocus : bool;
    local_drawCloseOutlineAlways : bool;
    local_drawCloseOutlineOnHover : bool;
    local_drawCloseOutlineOnFocus : bool }.

Section OutlineResolver.

Context {env : Environment}.

Definition outlineFlags (b : Button) (d : Decoration) : OutlineFlags :=
  let p := m_buttonBehaviouralParameters d in
  let low := m_lowContrastBetweenTitleBarAndBackground b in
  mkOutlineFlags
    (if low then drawOutlineAlways p || drawBackgroundAlways p else drawOutlineAlways p)
    (if low then drawOutlineOnHover p || drawBackgroundOnHover p else drawOutlineOnHover p)
    (if low then drawOutlineOnFocus p || drawBackgroundOnFocus p else drawOutlineOnFocus p)
    (if low then drawCloseOutlineAlways p || drawCloseBackgroundAlways p
     else drawCloseOutlineAlways p)
    (if low then drawCloseOutlineOnHover p || drawCloseBackgroundOnHover p
     else drawCloseOutlineOnHover p)
    (if low then drawCloseOutlineOnFocus p || drawCloseBackgroundOnFocus p
     else drawCloseOutlineOnFocus p).

(** The normal, hover and focus outline colours, before the contrast
    correction. [onHover c] is [if (drawOutlineOnHover) hover = c;], and
    likewise for the other three. *)
Definition outlinePalette (b : Button) (d : Decoration) (fl : OutlineFlags) : StateColors :=
  let s := internalSettings d in
  let g := g_decorationColors in
  let trafficLights := backgroundColors s =C= ColorsAccentWithTrafficLights in
  let onHover := when (local_drawOutlineOnHover fl) in
  let onFocus := when (local_drawOutlineOnFocus fl) in
  let closeOnHover := when (local_drawCloseOutlineOnHover fl) in
  let closeOnFocus := when (local_drawCloseOutlineOnFocus fl) in
  if isAccent s then
    if translucentButtonBackgrounds s then
      if btype b =T= Close then
        if local_drawCloseOutlineAlways fl then
          if redAlwaysShownClose s then
            mkStateColors (negativeReducedOpacityOutline g)
                          (closeOnHover (negativeReducedOpacityOutline g))
                          (closeOnFocus (negativeReducedOpacityOutline g))
          else
            mkStateColors (buttonReducedOpacityOutline g)
                          (closeOnHover (negativeReducedOpacityOutline g))
                          (closeOnFocus (negativeReducedOpacityOutline g))
        else
          mkStateColors invalidColor
                        (closeOnHover (negativeReducedOpacityOutline g))
                        (closeOnFocus (negativeReducedOpacityOutline g))
      else if (btype b =T= Minimize) && trafficLights then
        if local_drawOutlineAlways fl then
          mkStateColors (neutralReducedOpacityOutline g)
                        (onHover (neutralReducedOpacityOutline g))
                        (onFocus (neutralReducedOpacityOutline g))
        else
          mkStateColors invalidColor
                        (onHover (neutralReducedOpacityOutline g))
                        (onFocus (neutralReducedOpacityOutline g))
      else if (btype b =T= Maximize) && trafficLights then
        if local_drawOutlineAlways fl then
          mkStateColors (positiveReducedOpacityOutline g)
                        (onHover (positiveReducedOpacityOutline g))
                        (onFocus (positiveReducedOpacityOutline g))
        else
          mkStateColors invalidColor
                        (onHover (positiveReducedOpacityOutline g))
                        (onFocus (positiveReducedOpacityOutline g))
      else
        if local_drawOutlineAlways fl then
          mkStateColors (buttonReducedOpacityOutline g)
                        (onHover (buttonReducedOpacityOutline g))
                        (onFocus (buttonReducedOpacityOutline g))
        else
          mkStateColors invalidColor
                        (onHover (buttonReducedOpacityOutline g))
                        (onFocus (buttonReducedOpacityOutline g))
    else
      if btype b =T= Close then
        if local_drawCloseOutlineAlways fl then
          if redAlwaysShownClose s then
            mkStateColors (negativeSaturated g)
                          (closeOnHover (negativeSaturated g))
                          (closeOnFocus (negativeSaturated g))
          else
            mkStateColors (buttonFocus g)
                          (closeOnHover (negativeSaturated g))
                          (closeOnFocus (negativeSaturated g))
        else
          mkStateColors invalidColor
                        (closeOnHover (negativeSaturated g))
                        (closeOnFocus (negativeSaturated g))
      else if (btype b =T= Minimize) && trafficLights then
        if local_drawOutlineAlways fl then
          mkStateColors (neutral g) (onHover (neutral g)) (onFocus (neutral g))
        else
          mkStateColors invalidColor (onHover (neutral g)) (onFocus (neutral g))
      else if (btype b =T= Maximize) && trafficLights then
        if local_drawOutlineAlways fl then
          mkStateColors (positive g) (onHover (positive g)) (onFocus (positive g))
        else
          mkStateColors invalidColor (onHover (positive g)) (onFocus (positive g))
      else
        if local_drawOutlineAlways fl then
          mkStateColors (buttonFocus g) (onHover (buttonFocus g)) (onFocus (buttonFocus g))
        else
          mkStateColors invalidColor (onHover (buttonFocus g)) (onFocus (buttonFocus g))
  else
    if translucentButtonBackgrounds s then
      if btype b =T= Close then
        if local_drawCloseOutlineAlways fl then
          if redAlwaysShownClose s then
            mkStateColors (negativeReducedOpacityOutline g)
                          (closeOnHover (negativeReducedOpacityOutline g))
                          (closeOnFocus (negativeReducedOpacityOutline g))
          else
            mkStateColors (ColorTools_alphaMix (fontColor d) 0.25%Q)
                          (closeOnHover (negativeReducedOpacityOutline g))
                          (closeOnFocus (negativeReducedOpacityOutline g))
        else
          mkStateColors invalidColor
                        (closeOnHover (negativeReducedOpacityOutline g))
                        (closeOnFocus (negativeReducedOpacityOutline g))
      else
        if local_drawOutlineAlways fl then
          mkStateColors (ColorTools_alphaMix (fontColor d) 0.25%Q)
                        (onHover (ColorTools_alphaMix (fontColor d) 0.25%Q))
                        (onFocus (ColorTools_alphaMix (fontColor d) 0.25%Q))
        else
          mkStateColors invalidColor
                        (onHover (ColorTools_alphaMix (fontColor d) 0.25%Q))
                        (onFocus (ColorTools_alphaMix (fontColor d) 0.25%Q))
    else
      if btype b =T= Close then
        if local_drawCloseOutlineAlways fl then
          if redAlwaysShownClose s then
            mkStateColors (negativeSaturated g)
                          (closeOnHover (negativeSaturated g))
                          (closeOnFocus (negativeSaturated g))
          else
            mkStateColors (KColorUtils_mix (titleBarColor d) (fontColor d) 0.3%Q)
                          (closeOnHover (negativeSaturated g))
                          (closeOnFocus (negativeSaturated g))
        else
          mkStateColors invalidColor
                        (closeOnHover (negativeSaturated g))
                        (closeOnFocus (negativeSaturated g))
      else
        if local_drawOutlineAlways fl then
          mkStateColors (KColorUtils_mix (titleBarColor d) (fontColor d) 0.3%Q)
                        (onHover (KColorUtils_mix (titleBarColor d) (fontColor d) 0.3%Q))
                        (onFocus (KColorUtils_mix (titleBarColor d) (fontColor d) 0.3%Q))
        else
          mkStateColors invalidColor
                        (onHover (KColorUtils_mix (titleBarColor d) (fontColor d) 0.3%Q))
                        (onFocus (KColorUtils_mix (titleBarColor d) (fontColor d) 0.3%Q)).

(** The low contrast correction between one outline colour and the titlebar. *)
Definition correctOutline (d : Decoration) (c : QColor) : QColor :=
  if isValid c && Qltb (KColorUtils_contrastRatio c (titleBarColor d)) 1.3%Q
  then KColorUtils_mix c (fontColor d) 0.4%Q
  else c.

Definition correctedOutlinePalette (b : Button) (d : Decoration) (fl : OutlineFlags)
  : StateColors :=
  let pal := outlinePalette b d fl in
  if isAccent (internalSettings d)
  then mkStateColors (correctOutline d (normalColor pal))
                     (correctOutline d (hoverColor pal))
                     (correctOutline d (focusColor pal))
  else pal.

(** The last part of [outlineColor]: the variant for the button's state. *)
Definition outlineForState (b : Button) (d : Decoration) (getNonAnimatedColor : bool)
           (pal : StateColors) : QColor :=
  if isChecked b
     && ((btype b =T= KeepBelow) || (btype b =T= KeepAbove) || (btype b =T= Shade)) then
    focusColor pal
  else if (btype b =T= OnAllDesktops) && isChecked b && isAccent (internalSettings d) then
    focusColor pal
  else if isPressed b then
    focusColor pal
  else if isRunning b && negb getNonAnimatedColor then
    if isValid (m_preAnimationOutlineColor b) && isValid (hoverColor pal) then
      KColorUtils_mix (m_preAnimationOutlineColor b) (hoverColor pal) (m_opacity b)
    else if isValid (hoverColor pal) then
      ColorTools_alphaMix (hoverColor pal) (m_opacity b)
    else invalidColor
  else if isHovered b then hoverColor pal
  else normalColor pal.

(** [QColor Button::outlineColor(bool getNonAnimatedColor) const] *)
Definition outlineColor (b : Button) (getNonAnimatedColor : bool) : QColor :=
  match decoration b with
  | None => invalidColor
  | Some d =>
      outlineForState b d getNonAnimatedColor
                      (correctedOutlinePalette b d (outlineFlags b d))
  end.

End OutlineResolver.

(** ** The painter *)

(** [QPen pen(color)]: width 1, not cosmetic. *)
Record QPen : Type := mkPen { penColor : QColor; penWidthF : qreal; penCosmetic : bool }.

Definition QPen_of (c : QColor) : QPen := mkPen c 1%Q false.
Definition setWidthF (w : qreal) (p : QPen) : QPen := mkPen (penColor p) w (penCosmetic p).
Definition setCosmetic (c : bool) (p : QPen) : QPen := mkPen (penColor p) (penWidthF p) c.

(** The icons of [RenderDecorationButtonIcon18By18]. *)
Inductive IconKind : Type :=
| CloseIcon | MaximizeIcon | RestoreIcon | MinimizeIcon
| PinOnAllDesktopsIcon | PinnedOnAllDesktopsIcon
| ShadeIcon | UnShadeIcon
| KeepBehindIcon | KeepInFrontIcon
| ApplicationMenuIcon | ContextHelpIcon.

(** The arguments of [RenderDecorationButtonIcon18By18::factory], the painter
    apart; [deviceOffset] is [None] where the call leaves the last argument
    to its default. *)
Record IconRendererArgs : Type := mkIconRendererArgs
  { rendererSettings : InternalSettings;
    fromKstyle : bool;
    rendererBoldButtonIcons : bool;
    rendererIconWidth : qreal;
    rendererDevicePixelRatio : qreal;
    deviceOffset : option QPointF }.

(** What a painter is asked to do. [setPen None] is [setPen(Qt::NoPen)],
    [setBrush None] is [setBrush(Qt::NoBrush)]; [iconPaint] is
    [QIcon::paint] on this painter; [createIconRenderer] and [render] are
    the factory call and the [render...Icon()] call on its result. *)
Inductive PaintCommand : Type :=
| save
| restore
| translate (dx dy : qreal)
| scale (sx sy : qreal)
| setRenderHints_Antialiasing
| setClipRect (r : QRectF)
| setPen (p : option QPen)
| setBrush (c : option QColor)
| drawRect (r : QRectF)
| drawRoundedRect_RelativeSize (r : QRectF) (xRadius yRadius : qreal)
| drawEllipse (r : QRectF)
| drawPath (p : QPainterPath)
| iconPaint (icon : Z) (r : QRect)
| createIconRenderer (args : IconRendererArgs)
| render (k : IconKind).

(** A [QPainter]: the device pixel ratio of its paint device, its device
    transform, the transforms pushed by [save], and the commands received so
    far, oldest first. *)
Record QPainter : Type := mkPainter
  { devicePixelRatioF : qreal;
    deviceTransform : QTransform;
    savedTransforms : list QTransform;
    commands : list PaintCommand }.

(** [KIconLoader::global()]. *)
Record KIconLoader : Type := mkIconLoader { mCustomPalette : bool; mPalette : QPalette }.

(** Everything outside the button that painting reads or changes. *)
Record World : Type := mkWorld { painter : QPainter; iconLoader : KIconLoader }.

(** Painting code: a state monad over [World]. *)
Definition Paint (A : Type) : Type := World -> A * World.

Definition ret {A : Type} (a : A) : Paint A := fun w => (a, w).

Definition bind {A B : Type} (m : Paint A) (k : A -> Paint B) : Paint B :=
  fun w => let (a, w') := m w in k a w'.

Declare Scope paint_scope.
Delimit Scope paint_scope with paint.
Notation "x <- m ;; k" := (bind m (fun x => k))
  (at level 61, m at next level, right associativity) : paint_scope.
Notation "m ;; k" := (bind m (fun _ => k))
  (at level 61, right associativity) : paint_scope.
Local Open Scope paint_scope.

Definition exec {A : Type} (m : Paint A) (w : World) : World := snd (m w).

(** What one command does to the painter: it is recorded, and [save],
    [restore], [translate] and [scale] act on the transform. A [restore]
    without a [save] changes nothing. *)
Definition QPainter_do (c : PaintCommand) (p : QPainter) : QPainter :=
  let log := commands p ++ [c] in
  match c with
  | save =>
      mkPainter (devicePixelRatioF p) (deviceTransform p)
                (deviceTransform p :: savedTransforms p) log
  | restore =>
      match savedTransforms p with
      | t :: rest => mkPainter (devicePixelRatioF p) t rest log
      | [] => mkPainter (devicePixelRatioF p) (deviceTransform p) [] log
      end
  | translate x y =>
      mkPainter (devicePixelRatioF p) (QTransform_translate (deviceTransform p) x y)
                (savedTransforms p) log
  | scale x y =>
      mkPainter (devicePixelRatioF p) (QTransform_scale (deviceTransform p) x y)
                (savedTransforms p) log
  | _ => mkPainter (devicePixelRatioF p) (deviceTransform p) (savedTransforms p) log
  end.

Definition call (c : PaintCommand) : Paint unit :=
  fun w => (tt, mkWorld (QPainter_do c (painter w)) (iconLoader w)).

Definition translateBy (p : QPointF) : Paint unit := call (translate (px p) (py p)).

Definition getDeviceTransform : Paint QTransform := fun w => (deviceTransform (painter w), w).
Definition getDevicePixelRatioF : Paint qreal := fun w => (devicePixelRatioF (painter w), w).

Definition customPalette : Paint QPalette := fun w => (mPalette (iconLoader w), w).
Definition setCustomPalette (p : QPalette) : Paint unit :=
  fun w => (tt, mkWorld (painter w) (mkIconLoader true p)).
Definition resetPalette : Paint unit :=
  fun w => (tt, mkWorld (painter w) (mkIconLoader false (mPalette (iconLoader w)))).

Definition whenP (c : bool) (m : Paint unit) : Paint unit := if c then m else ret tt.

(** The commands a piece of painting code adds to a painter. *)
Definition emitted {A : Type} (m : Paint A) (w : World) : list PaintCommand :=
  skipn (length (commands (painter w))) (commands (painter (exec m w))).

(** ** Painting the button *)

Definition isStandAlone (b : Button) : bool :=
  match m_flag b with FlagStandalone => true | _ => false end.

(** [bool Button::isSystemIconAvailable()] *)
Definition isSystemIconAvailable (b : Button) : bool :=
  match btype b with
  | Menu | ApplicationMenu | OnAllDesktops | ContextHelp | Shade | Custom => false
  | _ => true
  end.

Section Painting.

Context {env : Environment}.

(** The three rectangles of the integrated rounded rectangle with an
    outline: outer, inner and background. *)
Definition integratedRects (b : Button) (d : Decoration) (backgroundBoundingRect : QRectF)
           (penWidth geometryShrinkOffsetVertical : qreal) : QRectF * QRectF * QRectF :=
  let s := internalSettings d in
  let halfPenWidth := (penWidth / 2)%Q in
  let geometryShrinkOffsetHorizontal := halfPenWidth in
  let geometryShrinkOffsetHorizontalOuter := (geometryShrinkOffsetHorizontal - halfPenWidth)%Q in
  let geometryShrinkOffsetHorizontalInner := (geometryShrinkOffsetHorizontal + halfPenWidth)%Q in
  let geometryShrinkOffsetVerticalOuter := (geometryShrinkOffsetVertical - halfPenWidth)%Q in
  let geometryShrinkOffsetVerticalInner := (geometryShrinkOffsetVertical + halfPenWidth)%Q in
  let extensionByCornerRadiusInnerOuter := (scaledCornerRadius d + halfPenWidth)%Q in
  let r := scaledCornerRadius d in
  if m_rightmostRightVisible b && (titlebarRightMargin s =? 0) then
    (adjusted backgroundBoundingRect 0 (- extensionByCornerRadiusInnerOuter)
              extensionByCornerRadiusInnerOuter (- geometryShrinkOffsetVerticalOuter),
     adjusted backgroundBoundingRect penWidth (- extensionByCornerRadiusInnerOuter)
              extensionByCornerRadiusInnerOuter (- geometryShrinkOffsetVerticalInner),
     adjusted backgroundBoundingRect halfPenWidth (- r) r (- geometryShrinkOffsetVertical))
  else if m_leftmostLeftVisible b && (titlebarLeftMargin s =? 0) then
    (adjusted backgroundBoundingRect (- extensionByCornerRadiusInnerOuter)
              (- extensionByCornerRadiusInnerOuter) 0 (- geometryShrinkOffsetVerticalOuter),
     adjusted backgroundBoundingRect (- extensionByCornerRadiusInnerOuter)
              (- extensionByCornerRadiusInnerOuter) (- penWidth)
              (- geometryShrinkOffsetVerticalInner),
     adjusted backgroundBoundingRect (- r) (- r) (- halfPenWidth)
              (- geometryShrinkOffsetVertical))
  else
    (adjusted backgroundBoundingRect geometryShrinkOffsetHorizontalOuter
              (- extensionByCornerRadiusInnerOuter) (- geometryShrinkOffsetHorizontalOuter)
              (- geometryShrinkOffsetVerticalOuter),
     adjusted backgroundBoundingRect geometryShrinkOffsetHorizontalInner
              (- extensionByCornerRadiusInnerOuter) (- geometryShrinkOffsetHorizontalInner)
              (- geometryShrinkOffsetVerticalInner),
     adjusted backgroundBoundingRect geometryShrinkOffsetHorizontal (- r)
              (- geometryShrinkOffsetHorizontal) (- geometryShrinkOffsetVertical)).

(** The paths [paintFullHeightButtonBackground] builds before it clips and
    draws: the background, the outline, and [drawOutlineUsingPath]. *)
Definition fullHeightPaths (b : Button) (d : Decoration) : QPainterPath * QPainterPath * bool :=
  let s := internalSettings d in
  let r := scaledCornerRadius d in
  let backgroundBoundingRect :=
    QRectF_of (QRectF_topLeft (geometry b)) (m_backgroundVisibleSize b) in
  let penWidth :=
    if isPlatformX11 then (PenWidth_Symbol * m_devicePixelRatio b)%Q else PenWidth_Symbol in
  let geometryShrinkOffsetHorizontal :=
    if isPlatformX11 then (PenWidth_Symbol * 1.5 * m_devicePixelRatio b)%Q
    else (PenWidth_Symbol * 1.5)%Q in
  if isValid (m_outlineColor b) then
    let geometryShrinkOffsetVertical := geometryShrinkOffsetHorizontal in
    if buttonShape s =S= ShapeFullHeightRoundedRectangle then
      (addRoundedRect emptyPath
         (adjusted backgroundBoundingRect geometryShrinkOffsetHorizontal
                   geometryShrinkOffsetVertical (- geometryShrinkOffsetHorizontal)
                   (- geometryShrinkOffsetVertical)) r r,
       emptyPath, false)
    else if buttonShape s =S= ShapeIntegratedRoundedRectangle then
      let halfPenWidth := (penWidth / 2)%Q in
      let geometryShrinkOffsetVertical :=
        Qmax 0 (integratedRoundedRectangleBottomPadding s * inject_Z (smallSpacing d)
                - penWidth)%Q in
      let '(outerRect, innerRect, backgroundRect) :=
        integratedRects b d backgroundBoundingRect penWidth geometryShrinkOffsetVertical in
      let outerCornerRadius := if Qgeb r 0.05%Q then (r + halfPenWidth)%Q else 0%Q in
      let innerCornerRadius := Qmax 0 (r - halfPenWidth)%Q in
      let inner := addRoundedRect emptyPath innerRect innerCornerRadius innerCornerRadius in
      let outline :=
        subtracted (addRoundedRect emptyPath outerRect outerCornerRadius outerCornerRadius)
                   inner in
      (addRoundedRect emptyPath backgroundRect r r, outline, true)
    else
      (addRect emptyPath
         (adjusted backgroundBoundingRect geometryShrinkOffsetHorizontal
                   geometryShrinkOffsetVertical (- geometryShrinkOffsetHorizontal)
                   (- geometryShrinkOffsetVertical)),
       emptyPath, false)
  else
    if buttonShape s =S= ShapeFullHeightRoundedRectangle then
      (addRoundedRect emptyPath backgroundBoundingRect r r, emptyPath, false)
    else if buttonShape s =S= ShapeIntegratedRoundedRectangle then
      let geometryShrinkOffsetVertical :=
        (integratedRoundedRectangleBottomPadding s * inject_Z (smallSpacing d) - penWidth)%Q in
      let backgroundRect :=
        if m_rightmostRightVisible b && (titlebarRightMargin s =? 0) then
          adjusted backgroundBoundingRect 0 (- r) r (- geometryShrinkOffsetVertical)
        else if m_leftmostLeftVisible b && (titlebarLeftMargin s =? 0) then
          adjusted backgroundBoundingRect (- r) (- r) 0 (- geometryShrinkOffsetVertical)
        else
          adjusted backgroundBoundingRect 0 (- r) 0 (- geometryShrinkOffsetVertical) in
      (addRoundedRect emptyPath backgroundRect r r, emptyPath, false)
    else
      (addRect emptyPath backgroundBoundingRect, emptyPath, false).

(** [void Button::paintFullHeightButtonBackground(QPainter *painter) const] *)
Definition paintFullHeightButtonBackground (b : Button) : Paint unit :=
  if negb (isValid (m_backgroundColor b)) && negb (isValid (m_outlineColor b)) then ret tt
  else
    match decoration b with
    | None => ret tt
    | Some d =>
        let backgroundBoundingRect :=
          QRectF_of (QRectF_topLeft (geometry b)) (m_backgroundVisibleSize b) in
        let '(background, outline, drawOutlineUsingPath) := fullHeightPaths b d in
        let hasOutline := isValid (m_outlineColor b) in
        let hasBackground := isValid (m_backgroundColor b) in
        let background :=
          if negb (isMaximized d)
             && negb (negb hasBackground && hasOutline && drawOutlineUsingPath)
          then intersected background (windowPath d)
          else background in
        call save ;;
        translateBy (m_fullHeightVisibleBackgroundOffset b) ;;
        call (setClipRect backgroundBoundingRect) ;;
        call (setPen None) ;;
        whenP (negb hasOutline) (call (setPen None)) ;;
        whenP (hasOutline && negb drawOutlineUsingPath)
              (call (setPen (Some (setCosmetic true
                                     (setWidthF (m_standardScaledPenWidth b)
                                                (QPen_of (m_outlineColor b))))))) ;;
        (if hasBackground then
           call (setBrush (Some (m_backgroundColor b))) ;;
           call (drawPath background)
         else
           whenP (hasOutline && negb drawOutlineUsingPath) (call (drawPath background))) ;;
        whenP (hasOutline && drawOutlineUsingPath)
              (call (setBrush (Some (m_outlineColor b))) ;;
               call (drawPath (if negb (isMaximized d)
                               then intersected outline (windowPath d)
                               else outline))) ;;
        call restore
    end.

(** The shapes [paintSmallSizedButtonBackground] chooses between. *)
Inductive SmallShape : Type := square | roundedSquare | circle.

(** The chain of conditions that ends [paintSmallSizedButtonBackground]. *)
Definition smallShape (s : InternalSettings) : SmallShape :=
  if (buttonShape s =S= ShapeSmallSquare)
     || (buttonShape s =S= ShapeFullHeightRectangle)
     || (Qltb (cornerRadius s) 0.2%Q && (buttonShape s =S= ShapeFullHeightRoundedRectangle))
     || (Qltb (cornerRadius s) 0.2%Q && (buttonShape s =S= ShapeIntegratedRoundedRectangle))
  then square
  else if (buttonShape s =S= ShapeSmallRoundedSquare)
          || (buttonShape s =S= ShapeFullHeightRoundedRectangle)
          || (buttonShape s =S= ShapeIntegratedRoundedRectangle)
  then roundedSquare
  else circle.

(** [void Button::paintSmallSizedButtonBackground(QPainter *painter) const] *)
Definition paintSmallSizedButtonBackground (b : Button) : Paint unit :=
  if negb (isValid (m_backgroundColor b)) && negb (isValid (m_outlineColor b)) then ret tt
  else
    match decoration b with
    | None => ret tt
    | Some d =>
        let translationOffset :=
          ((inject_Z (width (m_smallButtonPaddedSize b)) - widthF (m_backgroundVisibleSize b))
           / 2)%Q in
        let backgroundSize := widthF (m_backgroundVisibleSize b) in
        let penWidth :=
          if isPlatformX11 then (PenWidth_Symbol * m_devicePixelRatio b)%Q
          else PenWidth_Symbol in
        let hasOutline := isValid (m_outlineColor b) in
        let enlarged (geometryEnlargeOffset : qreal) :=
          mkRectF (0 - geometryEnlargeOffset)%Q (0 - geometryEnlargeOffset)%Q
                  (backgroundSize + geometryEnlargeOffset * 2)%Q
                  (backgroundSize + geometryEnlargeOffset * 2)%Q in
        call save ;;
        call (translate translationOffset translationOffset) ;;
        (if hasOutline then
           let pen := QPen_of (m_outlineColor b) in
           call (setPen (Some (if m_isGtkCsdButton b
                               then setCosmetic false (setWidthF penWidth pen)
                               else setCosmetic true
                                      (setWidthF (m_standardScaledPenWidth b) pen))))
         else call (setPen None)) ;;
        (if isValid (m_backgroundColor b)
         then call (setBrush (Some (m_backgroundColor b)))
         else call (setBrush None)) ;;
        (match smallShape (internalSettings d) with
         | square =>
             call (drawRect (enlarged (if hasOutline then (penWidth / 2)%Q else 0%Q)))
         | roundedSquare =>
             call (drawRoundedRect_RelativeSize
                     (enlarged (if hasOutline then (penWidth / 2)%Q else 0%Q)) 20 20)
         | circle => call (drawEllipse (enlarged 0%Q))
         end) ;;
        call restore
    end.

(** The [switch (type())] of [drawIcon]. *)
Definition renderIconFor (b : Button) : Paint unit :=
  match btype b with
  | Close => call (render CloseIcon)
  | Maximize => if isChecked b then call (render RestoreIcon) else call (render MaximizeIcon)
  | Minimize => call (render MinimizeIcon)
  | OnAllDesktops =>
      if isChecked b then call (render PinnedOnAllDesktopsIcon)
      else call (render PinOnAllDesktopsIcon)
  | Shade => if isChecked b then call (render UnShadeIcon) else call (render ShadeIcon)
  | KeepBelow => call (render KeepBehindIcon)
  | KeepAbove => call (render KeepInFrontIcon)
  | ApplicationMenu => call (render ApplicationMenuIcon)
  | ContextHelp => call (render ContextHelpIcon)
  | Menu | Custom => ret tt
  end.

(** The pen [drawIcon] gives the painter before it renders the icon. *)
Definition iconPen (b : Button) : QPen :=
  let pen := QPen_of (m_foregroundColor b) in
  if m_isGtkCsdButton b
  then setWidthF PenWidth_Symbol pen
  else setCosmetic true (setWidthF (m_standardScaledPenWidth b) pen).

(** [void Button::drawIcon(QPainter *painter) const] *)
Definition drawIcon (b : Button) : Paint unit :=
  match decoration b with
  | None => ret tt
  | Some d =>
      let smallButtonPaddedWidth := inject_Z (width (m_smallButtonPaddedSize b)) in
      let iconWidth := inject_Z (width (m_iconSize b)) in
      let iconTranslationOffset := ((smallButtonPaddedWidth - iconWidth) / 2)%Q in
      call setRenderHints_Antialiasing ;;
      whenP (negb (isStandAlone b || m_isGtkCsdButton b))
            (whenP (ButtonBackgroundType_eqb (buttonBackgroundType d) FullHeight)
                   (paintFullHeightButtonBackground b)) ;;
      t <- getDeviceTransform ;;
      let topLeftPaddedButtonDeviceGeometry := QTransform_map t (QRectF_topLeft (geometry b)) in
      let titleBarTopLeftDeviceGeometry :=
        QTransform_map t (QRectF_topLeft (QRect_toF (titleBar d))) in
      let offset0 :=
        QPointF_sub topLeftPaddedButtonDeviceGeometry titleBarTopLeftDeviceGeometry in
      translateBy (QRectF_topLeft (geometry b)) ;;
      translateBy (m_iconOffset b) ;;
      dpr <- getDevicePixelRatioF ;;
      let offset1 := QPointF_add offset0 (QPointF_scale (m_iconOffset b) dpr) in
      whenP (ButtonBackgroundType_eqb (buttonBackgroundType d) Small
             || isStandAlone b || m_isGtkCsdButton b)
            (paintSmallSizedButtonBackground b) ;;
      call (translate iconTranslationOffset iconTranslationOffset) ;;
      let deviceOffsetTitleBarTopLeftToIconTopLeft :=
        QPointF_add offset1
                    (QPointF_scale (mkPointF iconTranslationOffset iconTranslationOffset) dpr) in
      whenP (negb (m_systemIconIsAvailable b))
            (call (scale (iconWidth / 18)%Q (iconWidth / 18)%Q)) ;;
      whenP (isValid (m_foregroundColor b))
            (call (setPen (Some (iconPen b))) ;;
             call (createIconRenderer
                     (if isSystemIconTheme (buttonIconStyle (internalSettings d))
                      then mkIconRendererArgs (internalSettings d) false (m_boldButtonIcons b)
                                              iconWidth (m_devicePixelRatio b) None
                      else mkIconRendererArgs (internalSettings d) false (m_boldButtonIcons b)
                                              18%Q (m_devicePixelRatio b)
                                              (Some deviceOffsetTitleBarTopLeftToIconTopLeft))) ;;
             renderIconFor b)
  end.

End Painting.

Section ButtonMethods.

Context {env : Environment}.

(** [void Button::setDevicePixelRatio(QPainter *painter)], given the device
    pixel ratio of the painter's device. *)
Definition setDevicePixelRatio (painterRatio : qreal) (b : Button) : Button :=
  match decoration b with
  | None => b
  | Some d =>
      let ratio := if isPlatformX11 then systemScaleFactor d else painterRatio in
      let ratio := if m_isGtkCsdButton b then systemScaleFactor d else ratio in
      with_m_devicePixelRatio ratio b
  end.

(** [void Button::setStandardScaledPenWidth()] *)
Definition setStandardScaledPenWidth (b : Button) : Button :=
  with_m_standardScaledPenWidth (PenWidth_Symbol * m_devicePixelRatio b)%Q b.

(** [void Button::setShouldDrawBoldButtonIcons()] *)
Definition setShouldDrawBoldButtonIcons (b : Button) : Button :=
  match decoration b with
  | None => b
  | Some d =>
      let bold :=
        if negb (m_isGtkCsdButton b) then
          match boldButtonIcons (internalSettings d) with
          | BoldIconsHiDpiOnly => Qgtb (m_devicePixelRatio b) 1.2%Q
          | BoldIconsBold => true
          | BoldIconsFine => false
          end
        else false in
      with_m_boldButtonIcons bold b
  end.

(** The colour resolution of [Button::paint]: the background colour, then
    the foreground colour against the colour the background resolver asks
    to contrast with, then the low-contrast flag, then the outline colour.
    [backgroundColor] and [outlineColor] are called without their
    [getNonAnimatedColor] argument, which defaults to [false]. *)
Definition resolveColors (d : Decoration) (b : Button) : Button :=
  let '(background, backgroundColorToContrastWithForeground) := backgroundColor b false in
  let b := with_m_backgroundColor background b in
  let b := with_m_foregroundColor (foregroundColor b backgroundColorToContrastWithForeground) b in
  let b :=
    with_m_lowContrastBetweenTitleBarAndBackground
      (negb (backgroundColors (internalSettings d) =C= ColorsTitlebarText)
       && Qltb (KColorUtils_contrastRatio (m_backgroundColor b) (titleBarColor d)) 1.3%Q) b in
  with_m_outlineColor (outlineColor b false) b.

(** "cache colours for future animations" *)
Definition cacheColors (b : Button) : Button :=
  if negb (isRunning b) && negb (isHovered b) then
    with_m_preAnimationOutlineColor (m_outlineColor b)
      (with_m_preAnimationBackgroundColor (m_backgroundColor b)
         (with_m_preAnimationForegroundColor (m_foregroundColor b) b))
  else b.

(** The sizes of a button that has no valid padded size or stands alone. *)
Definition fitToGeometry (b : Button) : Button :=
  if negb (QSize_isValid (m_smallButtonPaddedSize b)) || isStandAlone b then
    let b := with_m_smallButtonPaddedSize (QSizeF_toSize (QRectF_size (geometry b))) b in
    let iconWidth := qRound (inject_Z (width (m_smallButtonPaddedSize b)) * 0.9)%Q in
    with_m_backgroundVisibleSize (mkSizeF (inject_Z iconWidth) (inject_Z iconWidth))
      (with_m_iconSize (mkSize iconWidth iconWidth) b)
  else b.

(** Everything [Button::paint] does to the button before it paints. *)
Definition prepare (painterRatio : qreal) (d : Decoration) (b : Button) : Button :=
  let b := setDevicePixelRatio painterRatio b in
  let b := setShouldDrawBoldButtonIcons b in
  let b := with_m_systemIconIsAvailable false b in
  let b :=
    if isSystemIconTheme (buttonIconStyle (internalSettings d))
    then with_m_systemIconIsAvailable (isSystemIconAvailable b) b
    else b in
  let b := setStandardScaledPenWidth b in
  let b := resolveColors d b in
  let b := cacheColors b in
  fitToGeometry b.

(** The menu button: the window icon of the client [c]. *)
Definition paintMenuIcon (b : Button) (d : Decoration) (c : DecoratedClient) : Paint unit :=
  whenP (ButtonBackgroundType_eqb (buttonBackgroundType d) FullHeight
         && negb (isStandAlone b || m_isGtkCsdButton b))
        (paintFullHeightButtonBackground b) ;;
  translateBy (m_iconOffset b) ;;
  let iconTranslationOffset :=
    inject_Z (Z.quot (width (m_smallButtonPaddedSize b) - width (m_iconSize b)) 2) in
  call (translate iconTranslationOffset iconTranslationOffset) ;;
  let iconRect := QRectF_of (QRectF_topLeft (geometry b)) (QSize_toF (m_iconSize b)) in
  activePalette <- customPalette ;;
  let palette := QPalette_setWindowText (palette c) (fontColor d) in
  setCustomPalette palette ;;
  call (iconPaint (icon c) (QRectF_toRect iconRect)) ;;
  if QPalette_eqb activePalette defaultPalette
  then resetPalette
  else setCustomPalette palette.

(** The body of [Button::paint] for a button whose decoration is [d] and
    whose client is [c]. *)
Definition paintBody (b : Button) (d : Decoration) (c : DecoratedClient) : Paint Button :=
  painterRatio <- getDevicePixelRatioF ;;
  let b := prepare painterRatio d b in
  call save ;;
  (match btype b with
   | Menu => paintMenuIcon b d c
   | _ => drawIcon b
   end) ;;
  call restore ;;
  ret b.

(** [void Button::paint(QPainter *painter, const QRect &repaintRegion)].
    The result is [None] when [Q_ASSERT(c)] fails: the decoration has lost
    its client. *)
Definition paint (b : Button) (w : World) : option (Button * World) :=
  match decoration b with
  | None => Some (b, w)
  | Some d =>
      match client d with
      | None => None
      | Some c => Some (paintBody b d c w)
      end
  end.

(** [void Button::reconfigure()] *)
Definition reconfigure (b : Button) : Button :=
  match decoration b with
  | Some d => with_m_animation (setDuration (animationsDuration d) (m_animation b)) b
  | None => b
  end.

(** The slot connected to [QVariantAnimation::valueChanged]:
    [setOpacity(value.toReal())]. *)
Definition valueChanged (b : Button) : Button :=
  with_m_opacity (currentValue (m_animation b)) b.

(** [void Button::updateAnimationState(bool hovered)] *)
Definition updateAnimationState (hovered : bool) (b : Button) : Button :=
  match decoration b with
  | Some d =>
      if 0 <? animationsDuration d then
        let a := setDirection (if hovered then Forward else Backward) (m_animation b) in
        if negb (AnimationState_eqb (state a) Running)
        then valueChanged (with_m_animation (start a) b)
        else with_m_animation a b
      else b
  | None => b
  end.

(** The animation timer: [dt] milliseconds pass, and the new value reaches
    the button through [valueChanged]. *)
Definition tick (dt : Z) (b : Button) : Button :=
  if isRunning b
  then valueChanged (with_m_animation (advance dt (m_animation b)) b)
  else b.

(** [Button::Button(DecorationButtonType type, Decoration *decoration,
    QObject *parent)]. [kded5] tells whether the application is named
    "kded5"; [members] holds the in-class initial values of the members
    ([breezebutton.h]), which the constructor leaves alone where it does not
    assign. [None] when [Q_ASSERT(c)] fails. *)
Definition Button_new (type : DecorationButtonType) (d : Decoration) (kded5 : bool)
           (members : Button) : option Button :=
  match client d with
  | None => None
  | Some c =>
      let animation :=
        setEasingCurve InOutQuad (setEndValue 1.0%Q (setStartValue 0.0%Q newAnimation)) in
      let smallButtonPaddedHeight := smallButtonPaddedHeight d in
      let iconHeight := iconHeight d in
      let smallButtonBackgroundHeight := smallButtonBackgroundHeight d in
      Some (reconfigure
        {| btype := type;
           decoration := Some d;
           isHovered := isHovered members;
           isPressed := isPressed members;
           isChecked := isChecked members;
           isVisible := isVisible members;
           geometry := QRect_toF (mkRect 0 0 smallButtonPaddedHeight smallButtonPaddedHeight);
           m_animation := animation;
           m_flag := m_flag members;
           m_isGtkCsdButton := kded5;
           m_opacity := m_opacity members;
           m_devicePixelRatio := m_devicePixelRatio members;
           m_boldButtonIcons := m_boldButtonIcons members;
           m_systemIconIsAvailable := m_systemIconIsAvailable members;
           m_standardScaledPenWidth := m_standardScaledPenWidth members;
           m_backgroundColor := m_backgroundColor members;
           m_foregroundColor := m_foregroundColor members;
           m_outlineColor := m_outlineColor members;
           m_lowContrastBetweenTitleBarAndBackground :=
             m_lowContrastBetweenTitleBarAndBackground members;
           m_preAnimationForegroundColor := m_preAnimationForegroundColor members;
           m_preAnimationBackgroundColor := m_preAnimationBackgroundColor members;
           m_preAnimationOutlineColor := m_preAnimationOutlineColor members;
           m_smallButtonPaddedSize := mkSize smallButtonPaddedHeight smallButtonPaddedHeight;
           m_iconSize := mkSize iconHeight iconHeight;
           m_backgroundVisibleSize :=
             QSize_toF (mkSize smallButtonBackgroundHeight smallButtonBackgroundHeight);
           m_iconOffset := m_iconOffset members;
           m_fullHeightVisibleBackgroundOffset := m_fullHeightVisibleBackgroundOffset members;
           m_rightmostRightVisible := m_rightmostRightVisible members;
           m_leftmostLeftVisible := m_leftmostLeftVisible members |})
  end.


(** What a call of [Button::create] comes to: it returns a button or
    [nullptr], or [Q_ASSERT(c)] fails. *)
Inductive Created : Type :=
| returned (b : option Button)
| assertionFailed.

(** [Button *Button::create(DecorationButtonType type,
    KDecoration2::Decoration *decoration, QObject *parent)] *)
Definition create (type : DecorationButtonType) (decoration : KDecoration) (kded5 : bool)
           (members : Button) : Created :=
  match qobject_cast decoration with
  | Some d =>
      match client d, Button_new type d kded5 members with
      | Some c, Some b =>
          returned (Some
            match type with
            | Close => with_isVisible (isCloseable c) b
            | Maximize => with_isVisible (isMaximizeable c) b
            | Minimize => with_isVisible (isMinimizeable c) b
            | ContextHelp => with_isVisible (providesContextHelp c) b
            | Shade => with_isVisible (isShadeable c) b
            | _ => b
            end)
      | _, _ => assertionFailed
      end
  | None => returned None
  end.

End ButtonMethods.

Section ThinWindowOutline.

Context {env : Environment}.

(** [void Button::updateThinWindowOutlineWithButtonColor(bool on)]. [others]
    are the buttons of the decoration's left and right button groups other
    than this one. The result is the call of
    [Decoration::setThinWindowOutlineOverrideColor] the function makes, with
    its two arguments, or [None] when it makes none. *)
Definition updateThinWindowOutlineWithButtonColor (on : bool) (b : Button)
           (others : list Button) : option (bool * QColor) :=
  match decoration b with
  | None => None
  | Some d =>
      if negb (colorizeThinWindowOutlineWithButton (internalSettings d)) || isStandAlone b
      then None
      else if on then
        let color := outlineColor b true in
        let color := if negb (isValid color) then backgroundColor1 b true else color in
        Some (on, color)
      else if negb (isHovered b) && isPressed b then None
      else if existsb (fun button => isHovered button || isPressed button) others then None
      else Some (on, invalidColor)
  end.

End ThinWindowOutline.

(** ** The title-bar opacity dialog *)

Module Ui.

(** The widgets of [Ui_TitleBarOpacity] that [save] reads: the value of a
    spin box, the checked state of a check box. *)
Record t : Type := mk
  { activeTitlebarOpacity : Z;
    inactiveTitlebarOpacity : Z;
    overrideActiveTitleBarOpacity : bool;
    overrideInactiveTitleBarOpacity : bool;
    opaqueMaximizedTitlebars : bool;
    blurTransparentTitlebars : bool;
    applyOpacityToHeader : bool;
    applyButtonEnabled : bool }.

End Ui.

Module TitleBarOpacity.

(** The setters of [InternalSettings] that the dialog calls. The generated
    setters write the member unless the entry is locked down as immutable;
    no entry is taken to be locked. *)

Definition setOverrideActiveTitleBarOpacity (v : bool) (s : InternalSettings) : InternalSettings :=
  mkInternalSettings
    (backgroundColors s) (translucentButtonBackgrounds s) (redAlwaysShownClose s)
    (buttonShape s) (cornerRadius s) (buttonIconStyle s) (boldButtonIcons s)
    (integratedRoundedRectangleBottomPadding s) (titlebarLeftMargin s) (titlebarRightMargin s)
    (colorizeThinWindowOutlineWithButton s) v (overrideInactiveTitleBarOpacity s)
    (activeTitlebarOpacity s) (inactiveTitlebarOpacity s) (opaqueMaximizedTitlebars s)
    (blurTransparentTitlebars s) (applyOpacityToHeader s).

Definition setOverrideInactiveTitleBarOpacity (v : bool) (s : InternalSettings) : InternalSettings :=
  mkInternalSettings
    (backgroundColors s) (translucentButtonBackgrounds s) (redAlwaysShownClose s)
    (buttonShape s) (cornerRadius s) (buttonIconStyle s) (boldButtonIcons s)
    (integratedRoundedRectangleBottomPadding s) (titlebarLeftMargin s) (titlebarRightMargin s)
    (colorizeThinWindowOutlineWithButton s) (overrideActiveTitleBarOpacity s) v
    (activeTitlebarOpacity s) (inactiveTitlebarOpacity s) (opaqueMaximizedTitlebars s)
    (blurTransparentTitlebars s) (applyOpacityToHeader s).

Definition setActiveTitlebarOpacity (v : Z) (s : InternalSettings) : InternalSettings :=
  mkInternalSettings
    (backgroundColors s) (translucentButtonBackgrounds s) (redAlwaysShownClose s)
    (buttonShape s) (cornerRadius s) (buttonIconStyle s) (boldButtonIcons s)
    (integratedRoundedRectangleBottomPadding s) (titlebarLeftMargin s) (titlebarRightMargin s)
    (colorizeThinWindowOutlineWithButton s) (overrideActiveTitleBarOpacity s)
    (overrideInactiveTitleBarOpacity s) v (inactiveTitlebarOpacity s)
    (opaqueMaximizedTitlebars s) (blurTransparentTitlebars s) (applyOpacityToHeader s).

Definition setInactiveTitlebarOpacity (v : Z) (s : InternalSettings) : InternalSettings :=
  mkInternalSettings
    (backgroundColors s) (translucentButtonBackgrounds s) (redAlwaysShownClose s)
    (buttonShape s) (cornerRadius s) (buttonIconStyle s) (boldButtonIcons s)
    (integratedRoundedRectangleBottomPadding s) (titlebarLeftMargin s) (titlebarRightMargin s)
    (colorizeThinWindowOutlineWithButton s) (overrideActiveTitleBarOpacity s)
    (overrideInactiveTitleBarOpacity s) (activeTitlebarOpacity s) v
    (opaqueMaximizedTitlebars s) (blurTransparentTitlebars s) (applyOpacityToHeader s).

Definition setOpaqueMaximizedTitlebars (v : bool) (s : InternalSettings) : InternalSettings :=
  mkInternalSettings
    (backgroundColors s) (translucentButtonBackgrounds s) (redAlwaysShownClose s)
    (buttonShape s) (cornerRadius s) (buttonIconStyle s) (boldButtonIcons s)
    (integratedRoundedRectangleBottomPadding s) (titlebarLeftMargin s) (titlebarRightMargin s)
    (colorizeThinWindowOutlineWithButton s) (overrideActiveTitleBarOpacity s)
    (overrideInactiveTitleBarOpacity s) (activeTitlebarOpacity s) (inactiveTitlebarOpacity s) v
    (blurTransparentTitlebars s) (applyOpacityToHeader s).

Definition setBlurTransparentTitlebars (v : bool) (s : InternalSettings) : InternalSettings :=
  mkInternalSettings
    (backgroundColors s) (translucentButtonBackgrounds s) (redAlwaysShownClose s)
    (buttonShape s) (cornerRadius s) (buttonIconStyle s) (boldButtonIcons s)
    (integratedRoundedRectangleBottomPadding s) (titlebarLeftMargin s) (titlebarRightMargin s)
    (colorizeThinWindowOutlineWithButton s) (overrideActiveTitleBarOpacity s)
    (overrideInactiveTitleBarOpacity s) (activeTitlebarOpacity s) (inactiveTitlebarOpacity s)
    (opaqueMaximizedTitlebars s) v (applyOpacityToHeader s).

Definition setApplyOpacityToHeader (v : bool) (s : InternalSettings) : InternalSettings :=
  mkInternalSettings
    (backgroundColors s) (translucentButtonBackgrounds s) (redAlwaysShownClose s)
    (buttonShape s) (cornerRadius s) (buttonIconStyle s) (boldButtonIcons s)
    (integratedRoundedRectangleBottomPadding s) (titlebarLeftMargin s) (titlebarRightMargin s)
    (colorizeThinWindowOutlineWithButton s) (overrideActiveTitleBarOpacity s)
    (overrideInactiveTitleBarOpacity s) (activeTitlebarOpacity s) (inactiveTitlebarOpacity s)
    (opaqueMaximizedTitlebars s) (blurTransparentTitlebars s) v.

Inductive SettingsCall : Type :=
| call_setOverrideActiveTitleBarOpacity (v : bool)
| call_setOverrideInactiveTitleBarOpacity (v : bool)
| call_setActiveTitlebarOpacity (v : Z)
| call_setInactiveTitlebarOpacity (v : Z)
| call_setOpaqueMaximizedTitlebars (v : bool)
| call_setBlurTransparentTitlebars (v : bool)
| call_setApplyOpacityToHeader (v : bool).

Definition perform (s : InternalSettings) (c : SettingsCall) : InternalSettings :=
  match c with
  | call_setOverrideActiveTitleBarOpacity v => setOverrideActiveTitleBarOpacity v s
  | call_setOverrideInactiveTitleBarOpacity v => setOverrideInactiveTitleBarOpacity v s
  | call_setActiveTitlebarOpacity v => setActiveTitlebarOpacity v s
  | call_setInactiveTitlebarOpacity v => setInactiveTitlebarOpacity v s
  | call_setOpaqueMaximizedTitlebars v => setOpaqueMaximizedTitlebars v s
  | call_setBlurTransparentTitlebars v => setBlurTransparentTitlebars v s
  | call_setApplyOpacityToHeader v => setApplyOpacityToHeader v s
  end.

(** What [save] does outside the dialog, in order. *)
Inductive Effect : Type :=
| internalSettings_save (s : InternalSettings)
| emit_changed (v : bool)
| updateDecorationColorCache
| kwinReloadConfig
| generateSystemIcons.

(** The members of the dialog that [save] reads or writes. *)
Record t : Type := mk
  { m_ui : Ui.t;
    m_internalSettings : option InternalSettings;
    m_translucentActiveSchemeColor : bool;
    m_translucentInactiveSchemeColor : bool;
    m_changed : bool }.

Definition guarded (c : bool) (x : SettingsCall) : list SettingsCall := if c then [x] else [].

(** The calls [save] makes on [m_internalSettings] between [load()] and
    [save()], in order. *)
Definition setterCalls (dlg : t) : list SettingsCall :=
  let ui := m_ui dlg in
  guarded (m_translucentActiveSchemeColor dlg)
          (call_setOverrideActiveTitleBarOpacity (Ui.overrideActiveTitleBarOpacity ui))
  ++ guarded (m_translucentInactiveSchemeColor dlg)
             (call_setOverrideInactiveTitleBarOpacity (Ui.overrideInactiveTitleBarOpacity ui))
  ++ guarded (negb (m_translucentActiveSchemeColor dlg)
              || (m_translucentActiveSchemeColor dlg && Ui.overrideActiveTitleBarOpacity ui))
             (call_setActiveTitlebarOpacity (Ui.activeTitlebarOpacity ui))
  ++ guarded (negb (m_translucentInactiveSchemeColor dlg)
              || (m_translucentActiveSchemeColor dlg && Ui.overrideActiveTitleBarOpacity ui))
             (call_setInactiveTitlebarOpacity (Ui.inactiveTitlebarOpacity ui))
  ++ [ call_setOpaqueMaximizedTitlebars (Ui.opaqueMaximizedTitlebars ui);
       call_setBlurTransparentTitlebars (Ui.blurTransparentTitlebars ui);
       call_setApplyOpacityToHeader (Ui.applyOpacityToHeader ui) ].

(** [void TitleBarOpacity::setChanged(bool value)] *)
Definition setChanged (value : bool) (dlg : t) : t * list Effect :=
  let ui := m_ui dlg in
  (mk (Ui.mk (Ui.activeTitlebarOpacity ui) (Ui.inactiveTitlebarOpacity ui)
             (Ui.overrideActiveTitleBarOpacity ui) (Ui.overrideInactiveTitleBarOpacity ui)
             (Ui.opaqueMaximizedTitlebars ui) (Ui.blurTransparentTitlebars ui)
             (Ui.applyOpacityToHeader ui) value)
      (m_internalSettings dlg) (m_translucentActiveSchemeColor dlg)
      (m_translucentInactiveSchemeColor dlg) value,
   [emit_changed value]).

(** [void TitleBarOpacity::save(const bool reloadKwinConfig)]. [stored] is
    what [InternalSettings::load()] reads from the rc files. *)
Definition save (reloadKwinConfig : bool) (stored : InternalSettings) (dlg : t)
  : t * list Effect :=
  let settings := fold_left perform (setterCalls dlg) stored in
  let dlg :=
    mk (m_ui dlg) (Some settings) (m_translucentActiveSchemeColor dlg)
       (m_translucentInactiveSchemeColor dlg) (m_changed dlg) in
  let '(dlg, signals) := setChanged false dlg in
  (dlg,
   internalSettings_save settings :: signals
   ++ (if reloadKwinConfig
       then [updateDecorationColorCache; kwinReloadConfig; generateSystemIcons]
       else [])).

(** The settings [save] hands to [InternalSettings::save()]. *)
Definition persisted (stored : InternalSettings) (dlg : t) : InternalSettings :=
  fold_left perform (setterCalls dlg) stored.

End TitleBarOpacity.

Module TitleBarOpacityDialog.

(** The dialog with the member [updateChanged] reads besides those of
    [save]. *)
Record t : Type := mk
  { base : TitleBarOpacity.t;
    m_loading : bool }.

(** The test of [updateChanged]: the chain of [if ... else if ...] that sets
    [modified]. *)
Definition modified (dlg : TitleBarOpacity.t) (s : InternalSettings) : bool :=
  let ui := TitleBarOpacity.m_ui dlg in
  let translucentActive := TitleBarOpacity.m_translucentActiveSchemeColor dlg in
  let translucentInactive := TitleBarOpacity.m_translucentInactiveSchemeColor dlg in
  if negb translucentActive
     && negb (Ui.activeTitlebarOpacity ui =? activeTitlebarOpacity s) then true
  else if negb translucentInactive
          && negb (Ui.inactiveTitlebarOpacity ui =? inactiveTitlebarOpacity s) then true
  else if translucentActive && Ui.overrideActiveTitleBarOpacity ui
          && negb (Ui.activeTitlebarOpacity ui =? activeTitlebarOpacity s) then true
  else if translucentInactive && Ui.overrideInactiveTitleBarOpacity ui
          && negb (Ui.inactiveTitlebarOpacity ui =? inactiveTitlebarOpacity s) then true
  else if translucentActive
          && negb (Bool.eqb (Ui.overrideActiveTitleBarOpacity ui)
                            (overrideActiveTitleBarOpacity s)) then true
  else if translucentInactive
          && negb (Bool.eqb (Ui.overrideInactiveTitleBarOpacity ui)
                            (overrideInactiveTitleBarOpacity s)) then true
  else if negb (Bool.eqb (Ui.opaqueMaximizedTitlebars ui) (opaqueMaximizedTitlebars s))
  then true
  else if negb (Bool.eqb (Ui.blurTransparentTitlebars ui) (blurTransparentTitlebars s))
  then true
  else if negb (Bool.eqb (Ui.applyOpacityToHeader ui) (applyOpacityToHeader s)) then true
  else false.

(** [void TitleBarOpacity::updateChanged()] *)
Definition updateChanged (dlg : t) : t * list TitleBarOpacity.Effect :=
  match TitleBarOpacity.m_internalSettings (base dlg) with
  | None => (dlg, [])
  | Some s =>
      if m_loading dlg then (dlg, [])
      else
        let '(d, signals) := TitleBarOpacity.setChanged (modified (base dlg) s) (base dlg) in
        (mk d (m_loading dlg), signals)
  end.

(** [void TitleBarOpacity::save(const bool reloadKwinConfig)] on this
    record: [save] does not touch [m_loading]. *)
Definition save (reloadKwinConfig : bool) (stored : InternalSettings) (dlg : t)
  : t * list TitleBarOpacity.Effect :=
  let '(d, effects) := TitleBarOpacity.save reloadKwinConfig stored (base dlg) in
  (mk d (m_loading dlg), effects).

End TitleBarOpacityDialog.

(** ** A concrete environment and concrete buttons

    To run the model on concrete inputs the parameters of [Environment] need
    values. The colour functions below are plain stand-ins with the shape of
    the library functions (channel-wise interpolation, a luma ratio without
    gamma correction); every general theorem is proved for an arbitrary
    environment and does not depend on them. *)

Module Sample.

Definition channel (c : QColor) (f : rgba -> Z) (default : Z) : Z :=
  match c with Some x => f x | None => default end.

Definition lerp (x y : Z) (t : qreal) : Z := qRound (inject_Z x + (inject_Z y - inject_Z x) * t)%Q.

Definition mix (c1 c2 : QColor) (bias : qreal) : QColor :=
  if Qle_bool bias 0 then c1
  else if Qle_bool 1 bias then c2
  else Some (mkRgba (lerp (channel c1 red 0) (channel c2 red 0) bias)
                    (lerp (channel c1 green 0) (channel c2 green 0) bias)
                    (lerp (channel c1 blue 0) (channel c2 blue 0) bias)
                    (lerp (channel c1 alpha 255) (channel c2 alpha 255) bias)).

Definition alphaMix (c : QColor) (alphaMixFactor : qreal) : QColor :=
  match c with
  | Some x => Some (mkRgba (red x) (green x) (blue x)
                           (qRound (inject_Z (alpha x) * alphaMixFactor)%Q))
  | None => None
  end.

Definition luma (c : QColor) : qreal :=
  ((2126 # 10000) * inject_Z (channel c red 0)
   + (7152 # 10000) * inject_Z (channel c green 0)
   + (722 # 10000) * inject_Z (channel c blue 0)) / 255.

Definition contrastRatio (c1 c2 : QColor) : qreal :=
  let y1 := luma c1 in
  let y2 := luma c2 in
  if Qle_bool y2 y1 then ((y1 + 0.05) / (y2 + 0.05))%Q else ((y2 + 0.05) / (y1 + 0.05))%Q.

Definition getHigherContrastForegroundColor (fg bg : QColor) (threshold : qreal) : QColor :=
  if Qltb (contrastRatio fg bg) threshold
  then (if Qltb (luma bg) 0.5 then white else Some (mkRgba 0 0 0 255))
  else fg.

Definition rgb (r g b : Z) : QColor := Some (mkRgba r g b 255).
Definition rgbA (r g b a : Z) : QColor := Some (mkRgba r g b a).

Definition colors : DecorationColors :=
  {| buttonFocus := rgb 61 174 233;
     buttonHover := rgb 147 206 233;
     buttonReducedOpacityBackground := rgbA 61 174 233 60;
     buttonReducedOpacityOutline := rgbA 61 174 233 120;
     negative := rgb 218 68 83;
     negativeLessSaturated := rgb 210 100 110;
     negativeSaturated := rgb 237 21 21;
     fullySaturatedNegative := rgb 255 0 0;
     negativeReducedOpacityBackground := rgbA 218 68 83 60;
     negativeReducedOpacityOutline := rgbA 218 68 83 120;
     negativeReducedOpacityLessSaturatedBackground := rgbA 210 100 110 60;
     neutral := rgb 246 116 0;
     neutralLessSaturated := rgb 230 140 60;
     neutralSaturated := rgb 255 110 0;
     neutralReducedOpacityBackground := rgbA 246 116 0 60;
     neutralReducedOpacityOutline := rgbA 246 116 0 120;
     positive := rgb 39 174 96;
     positiveLessSaturated := rgb 80 170 110;
     positiveSaturated := rgb 20 190 90;
     positiveReducedOpacityBackground := rgbA 39 174 96 60;
     positiveReducedOpacityOutline := rgbA 39 174 96 120 |}.

(** [PenWidth::Symbol] is 1.01 in [breeze.h]. *)
Definition env : Environment :=
  {| KColorUtils_mix := mix;
     KColorUtils_contrastRatio := contrastRatio;
     ColorTools_alphaMix := alphaMix;
     ColorTools_getHigherContrastForegroundColor := getHigherContrastForegroundColor;
     g_decorationColors := colors;
     PenWidth_Symbol := 1.01;
     isPlatformX11 := false |}.

Definition settings : InternalSettings :=
  {| backgroundColors := ColorsAccent;
     translucentButtonBackgrounds := false;
     redAlwaysShownClose := true;
     buttonShape := ShapeSmallSquare;
     cornerRadius := 3;
     buttonIconStyle := StyleBuiltIn 0;
     boldButtonIcons := BoldIconsHiDpiOnly;
     integratedRoundedRectangleBottomPadding := 1;
     titlebarLeftMargin := 0;
     titlebarRightMargin := 0;
     colorizeThinWindowOutlineWithButton := false;
     overrideActiveTitleBarOpacity := false;
     overrideInactiveTitleBarOpacity := false;
     activeTitlebarOpacity := 100;
     inactiveTitlebarOpacity := 100;
     opaqueMaximizedTitlebars := true;
     blurTransparentTitlebars := true;
     applyOpacityToHeader := true |}.

(** Backgrounds always drawn, for the close button too; icons always
    drawn; no outlines; no special treatment on hover or press. *)
Definition parameters : ButtonBehaviouralParameters :=
  {| drawBackgroundAlways := true;
     drawBackgroundOnHover := false;
     drawBackgroundOnFocus := false;
     drawCloseBackgroundAlways := true;
     drawCloseBackgroundOnHover := false;
     drawCloseBackgroundOnFocus := false;
     drawOutlineAlways := false;
     drawOutlineOnHover := false;
     drawOutlineOnFocus := false;
     drawCloseOutlineAlways := false;
     drawCloseOutlineOnHover := false;
     drawCloseOutlineOnFocus := false;
     drawIconAlways := true;
     drawIconOnHover := true;
     drawIconOnFocus := true |}.

Definition window : DecoratedClient :=
  {| isCloseable := true;
     isMaximizeable := true;
     isMinimizeable := true;
     providesContextHelp := false;
     isShadeable := false;
     palette := mkPalette 1 None;
     icon := 7 |}.

(** The same, but icons are drawn on hover and on press only. *)
Definition iconsOnHover : ButtonBehaviouralParameters :=
  {| drawBackgroundAlways := true;
     drawBackgroundOnHover := false;
     drawBackgroundOnFocus := false;
     drawCloseBackgroundAlways := true;
     drawCloseBackgroundOnHover := false;
     drawCloseBackgroundOnFocus := false;
     drawOutlineAlways := false;
     drawOutlineOnHover := false;
     drawOutlineOnFocus := false;
     drawCloseOutlineAlways := false;
     drawCloseOutlineOnHover := false;
     drawCloseOutlineOnFocus := false;
     drawIconAlways := false;
     drawIconOnHover := true;
     drawIconOnFocus := true |}.


(** A decoration of a light window on a display scaled by 2, animations
    lasting 200 ms. *)
Definition decorationWith (s : InternalSettings) (p : ButtonBehaviouralParameters)
  : Decoration :=
  {| client := Some window;
     internalSettings := s;
     m_buttonBehaviouralParameters := p;
     titleBarColor := rgb 222 224 226;
     fontColor := rgb 35 38 41;
     animationsDuration := 200;
     buttonBackgroundType := Small;
     titleBar := mkRect 0 0 800 30;
     smallSpacing := 2;
     scaledCornerRadius := 3;
     isMaximized := false;
     windowPath := windowOutline 1;
     systemScaleFactor := 2;
     smallButtonPaddedHeight := 20;
     iconHeight := 18;
     smallButtonBackgroundHeight := 20 |}.

Definition deco : Decoration := decorationWith settings parameters.

(** The decoration of another window with the same settings, parameters and
    colours: maximized, wider, with another window path, quicker animations
    and no client left. *)
Definition otherWindowDeco : Decoration :=
  {| client := None;
     internalSettings := settings;
     m_buttonBehaviouralParameters := parameters;
     titleBarColor := rgb 222 224 226;
     fontColor := rgb 35 38 41;
     animationsDuration := 100;
     buttonBackgroundType := FullHeight;
     titleBar := mkRect 0 0 1920 30;
     smallSpacing := 2;
     scaledCornerRadius := 0;
     isMaximized := true;
     windowPath := windowOutline 2;
     systemScaleFactor := 1;
     smallButtonPaddedHeight := 20;
     iconHeight := 18;
     smallButtonBackgroundHeight := 20 |}.

(** In-class initial values of the members of a button. *)
Definition members : Button :=
  {| btype := Custom;
     decoration := None;
     isHovered := false;
     isPressed := false;
     isChecked := false;
     isVisible := true;
     geometry := mkRectF 0 0 0 0;
     m_animation := newAnimation;
     m_flag := FlagNone;
     m_isGtkCsdButton := false;
     m_opacity := 0;
     m_devicePixelRatio := 1;
     m_boldButtonIcons := false;
     m_systemIconIsAvailable := false;
     m_standardScaledPenWidth := 1;
     m_backgroundColor := None;
     m_foregroundColor := None;
     m_outlineColor := None;
     m_lowContrastBetweenTitleBarAndBackground := false;
     m_preAnimationForegroundColor := None;
     m_preAnimationBackgroundColor := None;
     m_preAnimationOutlineColor := None;
     m_smallButtonPaddedSize := mkSize (-1) (-1);
     m_iconSize := mkSize (-1) (-1);
     m_backgroundVisibleSize := mkSizeF (-1) (-1);
     m_iconOffset := mkPointF 0 0;
     m_fullHeightVisibleBackgroundOffset := mkPointF 0 0;
     m_rightmostRightVisible := false;
     m_leftmostLeftVisible := false |}.

(** The button [new Button(type, deco, parent)] builds, or [members] if the
    construction fails. *)
Definition button (type : DecorationButtonType) (d : Decoration) (kded5 : bool) : Button :=
  match Button_new type d kded5 members with
  | Some b => b
  | None => members
  end.

(** The button with the pointer over it. *)
Definition hovered (b : Button) : Button :=
  mkButton
    (btype b) (decoration b) true (isPressed b) (isChecked b) (isVisible b) (geometry b)
    (m_animation b) (m_flag b) (m_isGtkCsdButton b) (m_opacity b) (m_devicePixelRatio b)
    (m_boldButtonIcons b) (m_systemIconIsAvailable b) (m_standardScaledPenWidth b)
    (m_backgroundColor b) (m_foregroundColor b) (m_outlineColor b)
    (m_lowContrastBetweenTitleBarAndBackground b) (m_preAnimationForegroundColor b)
    (m_preAnimationBackgroundColor b) (m_preAnimationOutlineColor b)
    (m_smallButtonPaddedSize b) (m_iconSize b) (m_backgroundVisibleSize b) (m_iconOffset b)
    (m_fullHeightVisibleBackgroundOffset b) (m_rightmostRightVisible b)
    (m_leftmostLeftVisible b).

(** The button with a mouse button held down on it. *)
Definition pressed (b : Button) : Button :=
  mkButton
    (btype b) (decoration b) (isHovered b) true (isChecked b) (isVisible b) (geometry b)
    (m_animation b) (m_flag b) (m_isGtkCsdButton b) (m_opacity b) (m_devicePixelRatio b)
    (m_boldButtonIcons b) (m_systemIconIsAvailable b) (m_standardScaledPenWidth b)
    (m_backgroundColor b) (m_foregroundColor b) (m_outlineColor b)
    (m_lowContrastBetweenTitleBarAndBackground b) (m_preAnimationForegroundColor b)
    (m_preAnimationBackgroundColor b) (m_preAnimationOutlineColor b)
    (m_smallButtonPaddedSize b) (m_iconSize b) (m_backgroundVisibleSize b) (m_iconOffset b)
    (m_fullHeightVisibleBackgroundOffset b) (m_rightmostRightVisible b)
    (m_leftmostLeftVisible b).

Definition identity : QTransform := mkTransform 1 0 0 1 0 0.

(** A painter on a device of pixel ratio 2 that has received no command. *)
Definition world : World :=
  mkWorld (mkPainter 2 identity [] []) (mkIconLoader false defaultPalette).

(** The settings [settings] with the thin window outline coloured by the
    button under the pointer. *)
Definition outlineSettings : InternalSettings :=
  mkInternalSettings
    (backgroundColors settings) (translucentButtonBackgrounds settings)
    (redAlwaysShownClose settings) (buttonShape settings) (cornerRadius settings)
    (buttonIconStyle settings) (boldButtonIcons settings)
    (integratedRoundedRectangleBottomPadding settings) (titlebarLeftMargin settings)
    (titlebarRightMargin settings) true
    (overrideActiveTitleBarOpacity settings) (overrideInactiveTitleBarOpacity settings)
    (activeTitlebarOpacity settings) (inactiveTitlebarOpacity settings)
    (opaqueMaximizedTitlebars settings) (blurTransparentTitlebars settings)
    (applyOpacityToHeader settings).

(** The settings [settings] with the integrated rounded rectangle as button
    shape. *)
Definition integratedSettings : InternalSettings :=
  mkInternalSettings
    (backgroundColors settings) (translucentButtonBackgrounds settings)
    (redAlwaysShownClose settings) ShapeIntegratedRoundedRectangle (cornerRadius settings)
    (buttonIconStyle settings) (boldButtonIcons settings)
    (integratedRoundedRectangleBottomPadding settings) (titlebarLeftMargin settings)
    (titlebarRightMargin settings) (colorizeThinWindowOutlineWithButton settings)
    (overrideActiveTitleBarOpacity settings) (overrideInactiveTitleBarOpacity settings)
    (activeTitlebarOpacity settings) (inactiveTitlebarOpacity settings)
    (opaqueMaximizedTitlebars settings) (blurTransparentTitlebars settings)
    (applyOpacityToHeader settings).


End Sample.

(** * The vocabulary of the statements *)

(** [appends m]: running [m] keeps the commands already received and adds
    some at the end. *)
Definition appends {A : Type} (m : Paint A) : Prop :=
  forall w, exists l, commands (painter (snd (m w))) = commands (painter w) ++ l.

(** The colours [Button::paint] resolves: background, foreground, outline. *)
Definition resolved (b : Button) : QColor * QColor * QColor :=
  (m_backgroundColor b, m_foregroundColor b, m_outlineColor b).

(** Two button states with the same button type, interaction state and
    decoration (settings, behavioural parameters and decoration colours). *)
Definition sameInputs (b1 b2 : Button) : Prop :=
  btype b1 = btype b2
  /\ isHovered b1 = isHovered b2
  /\ isPressed b1 = isPressed b2
  /\ isChecked b1 = isChecked b2
  /\ decoration b1 = decoration b2.

(** The parts of a decoration that the colour resolvers read: the
    settings, the behavioural parameters, the title-bar colour and the font
    colour. *)
Definition sameColorSettings (d1 d2 : Decoration) : Prop :=
  internalSettings d1 = internalSettings d2
  /\ m_buttonBehaviouralParameters d1 = m_buttonBehaviouralParameters d2
  /\ titleBarColor d1 = titleBarColor d2
  /\ fontColor d1 = fontColor d2.

(** Two button states with the same button type and interaction state whose
    decorations, if any, agree on those parts; the decorations may differ in
    everything else (client, title bar, window path, maximized state,
    animation duration, sizes). *)
Definition sameResolverInputs (b1 b2 : Button) : Prop :=
  btype b1 = btype b2
  /\ isHovered b1 = isHovered b2
  /\ isPressed b1 = isPressed b2
  /\ isChecked b1 = isChecked b2
  /\ match decoration b1, decoration b2 with
     | Some d1, Some d2 => sameColorSettings d1 d2
     | None, None => True
     | _, _ => False
     end.

(** The cached colours and the animation value that the resolvers read
    while the animation runs. *)
Definition sameAnimationInputs (b1 b2 : Button) : Prop :=
  isRunning b1 = isRunning b2
  /\ m_opacity b1 = m_opacity b2
  /\ m_preAnimationForegroundColor b1 = m_preAnimationForegroundColor b2
  /\ m_preAnimationBackgroundColor b1 = m_preAnimationBackgroundColor b2
  /\ m_preAnimationOutlineColor b1 = m_preAnimationOutlineColor b2.

(** A checked button of one of the four types whose checked state alone
    gives it a foreground colour. *)
Definition isCheckedToggleButton (b : Button) : bool :=
  isChecked b
  && ((btype b =T= KeepBelow) || (btype b =T= KeepAbove) || (btype b =T= Shade)
      || (btype b =T= OnAllDesktops)).

(** The animation as the constructor of [Button] configures it. *)
Definition configured (a : QVariantAnimation) : Prop :=
  startValue a = 0.0%Q /\ endValue a = 1.0%Q /\ easingCurve a = InOutQuad.



(** The icons a list of commands renders, in order. *)
Definition rendered (l : list PaintCommand) : list IconKind :=
  flat_map (fun c => match c with render k => [k] | _ => [] end) l.

(** The small background shapes a list of commands draws, in order. *)
Definition shapesDrawn (l : list PaintCommand) : list SmallShape :=
  flat_map (fun c => match c with
                     | drawRect _ => [square]
                     | drawRoundedRect_RelativeSize _ _ _ => [roundedSquare]
                     | drawEllipse _ => [circle]
                     | _ => []
                     end) l.


(** The pens a list of commands sets, in order. *)
Definition pensSet (l : list PaintCommand) : list QPen :=
  flat_map (fun c => match c with setPen (Some p) => [p] | _ => [] end) l.

(** The window icons a list of commands paints. *)
Definition iconsPainted (l : list PaintCommand) : list Z :=
  flat_map (fun c => match c with iconPaint i _ => [i] | _ => [] end) l.

(** The shape for a button shape setting and a corner radius, as the
    specification words it: a plain square for the small square and the
    full-height rectangle, and for the two rounded rectangles below a radius
    of 0.2; a rounded square for the small rounded square and for the two
    rounded rectangles from 0.2 on; a circle otherwise. *)
Definition shapeBySetting (shape : EnumButtonShape) (radius : qreal) : SmallShape :=
  match shape with
  | ShapeSmallSquare | ShapeFullHeightRectangle => square
  | ShapeFullHeightRoundedRectangle | ShapeIntegratedRoundedRectangle =>
      if Qltb radius 0.2%Q then square else roundedSquare
  | ShapeSmallRoundedSquare => roundedSquare
  | ShapeSmallCircle => circle
  end.

(** The icon for a button type and a checked state, as the specification
    lists them; the menu button and custom buttons have none. *)
Definition iconFor (type : DecorationButtonType) (checked : bool) : list IconKind :=
  match type with
  | Close => [CloseIcon]
  | Maximize => [if checked then RestoreIcon else MaximizeIcon]
  | Minimize => [MinimizeIcon]
  | OnAllDesktops => [if checked then PinnedOnAllDesktopsIcon else PinOnAllDesktopsIcon]
  | Shade => [if checked then UnShadeIcon else ShadeIcon]
  | KeepBelow => [KeepBehindIcon]
  | KeepAbove => [KeepInFrontIcon]
  | ApplicationMenu => [ApplicationMenuIcon]
  | ContextHelp => [ContextHelpIcon]
  | Menu | Custom => []
  end.


(** The outline flags OR-ed with the background flags. *)
Definition orFlags (p : ButtonBehaviouralParameters) : OutlineFlags :=
  mkOutlineFlags (drawOutlineAlways p || drawBackgroundAlways p)
                 (drawOutlineOnHover p || drawBackgroundOnHover p)
                 (drawOutlineOnFocus p || drawBackgroundOnFocus p)
                 (drawCloseOutlineAlways p || drawCloseBackgroundAlways p)
                 (drawCloseOutlineOnHover p || drawCloseBackgroundOnHover p)
                 (drawCloseOutlineOnFocus p || drawCloseBackgroundOnFocus p).

(** The colours of the global palette that serve as outline colours under
    the accent colour settings are valid. *)
Definition outlineColorsValid (g : DecorationColors) : Prop :=
  isValid (buttonFocus g) = true
  /\ isValid (buttonReducedOpacityOutline g) = true
  /\ isValid (negativeSaturated g) = true
  /\ isValid (negativeReducedOpacityOutline g) = true
  /\ isValid (neutral g) = true
  /\ isValid (neutralReducedOpacityOutline g) = true
  /\ isValid (positive g) = true
  /\ isValid (positiveReducedOpacityOutline g) = true.

(** The background flags that apply to a button: those of the close button
    or the general ones. *)
Definition appliesAlways (b : Button) (p : ButtonBehaviouralParameters) : bool :=
  if btype b =T= Close then drawCloseBackgroundAlways p else drawBackgroundAlways p.
Definition appliesOnHover (b : Button) (p : ButtonBehaviouralParameters) : bool :=
  if btype b =T= Close then drawCloseBackgroundOnHover p else drawBackgroundOnHover p.
Definition appliesOnFocus (b : Button) (p : ButtonBehaviouralParameters) : bool :=
  if btype b =T= Close then drawCloseBackgroundOnFocus p else drawBackgroundOnFocus p.

(** Two settings objects with the same button settings: every entry that
    the title-bar opacity dialog does not own. *)
Definition sameButtonSettings (s1 s2 : InternalSettings) : Prop :=
  backgroundColors s1 = backgroundColors s2
  /\ translucentButtonBackgrounds s1 = translucentButtonBackgrounds s2
  /\ redAlwaysShownClose s1 = redAlwaysShownClose s2
  /\ buttonShape s1 = buttonShape s2
  /\ cornerRadius s1 = cornerRadius s2
  /\ buttonIconStyle s1 = buttonIconStyle s2
  /\ boldButtonIcons s1 = boldButtonIcons s2
  /\ integratedRoundedRectangleBottomPadding s1 = integratedRoundedRectangleBottomPadding s2
  /\ titlebarLeftMargin s1 = titlebarLeftMargin s2
  /\ titlebarRightMargin s1 = titlebarRightMargin s2
  /\ colorizeThinWindowOutlineWithButton s1 = colorizeThinWindowOutlineWithButton s2.


(** The paths a list of commands draws, in order. *)
Definition pathsDrawn (l : list PaintCommand) : list QPainterPath :=
  flat_map (fun c => match c with drawPath p => [p] | _ => [] end) l.

(** The scalings a list of commands applies, in order. *)
Definition scalings (l : list PaintCommand) : list (qreal * qreal) :=
  flat_map (fun c => match c with scale x y => [(x, y)] | _ => [] end) l.

(** The icon renderers a list of commands creates, in order. *)
Definition renderersCreated (l : list PaintCommand) : list IconRendererArgs :=
  flat_map (fun c => match c with createIconRenderer a => [a] | _ => [] end) l.

(** The colours of the brushes a list of commands sets, in order. *)
Definition brushesSet (l : list PaintCommand) : list QColor :=
  flat_map (fun c => match c with setBrush (Some x) => [x] | _ => [] end) l.

(** The button gets the full-height background: the decoration uses
    full-height backgrounds and the button is neither standalone nor a GTK
    CSD button. *)
Definition fullHeightMode (b : Button) (d : Decoration) : bool :=
  ButtonBackgroundType_eqb (buttonBackgroundType d) FullHeight
  && negb (isStandAlone b || m_isGtkCsdButton b).

(** A command other than [save] and [restore]. *)
Definition isPlain (c : PaintCommand) : bool :=
  match c with save | restore => false | _ => true end.

(** [keepsStack m]: [m] leaves the stack of saved transforms and the device
    pixel ratio of the painter as they were. *)
Definition keepsStack {A : Type} (m : Paint A) : Prop :=
  forall w,
    savedTransforms (painter (snd (m w))) = savedTransforms (painter w)
    /\ devicePixelRatioF (painter (snd (m w))) = devicePixelRatioF (painter w).

(** [keepsPainter m]: [m] also leaves the device transform as it was. *)
Definition keepsPainter {A : Type} (m : Paint A) : Prop :=
  forall w,
    savedTransforms (painter (snd (m w))) = savedTransforms (painter w)
    /\ devicePixelRatioF (painter (snd (m w))) = devicePixelRatioF (painter w)
    /\ deviceTransform (painter (snd (m w))) = deviceTransform (painter w).

(** [endsRestoring m]: run with a saved transform on the stack, [m] ends
    with that transform restored and popped. *)
Definition endsRestoring {A : Type} (m : Paint A) : Prop :=
  forall w T S,
    savedTransforms (painter w) = T :: S ->
    savedTransforms (painter (snd (m w))) = S
    /\ devicePixelRatioF (painter (snd (m w))) = devicePixelRatioF (painter w)
    /\ deviceTransform (painter (snd (m w))) = T.

(** [keepsLoader m]: [m] leaves the icon loader as it was. *)
Definition keepsLoader {A : Type} (m : Paint A) : Prop :=
  forall w, iconLoader (snd (m w)) = iconLoader w.

(** The button types with an icon in the system icon theme. *)
Definition hasSystemIcon (type : DecorationButtonType) : bool :=
  match type with
  | Minimize | Maximize | Close | KeepBelow | KeepAbove => true
  | _ => false
  end.

(** What [Button::create] makes the visibility of a button of a type depend
    on: a capability of the client, or nothing. *)
Definition capabilityFor (type : DecorationButtonType) (c : DecoratedClient) : option bool :=
  match type with
  | Close => Some (isCloseable c)
  | Maximize => Some (isMaximizeable c)
  | Minimize => Some (isMinimizeable c)
  | ContextHelp => Some (providesContextHelp c)
  | Shade => Some (isShadeable c)
  | _ => None
  end.

Section StatementVocabulary.

Context {env : Environment}.



(** The drawing [Button::paint] does between [save] and [restore], for the
    button as [paint] has prepared it. *)
Definition drawing (b : Button) (d : Decoration) (c : DecoratedClient) : Paint unit :=
  match btype b with
  | Menu => paintMenuIcon b d c
  | _ => drawIcon b
  end.

(** The button after the device pixel ratio, boldness, icon availability
    and pen width have been set, before the colours are resolved. *)
Definition measured (painterRatio : qreal) (d : Decoration) (b : Button) : Button :=
  let b := setShouldDrawBoldButtonIcons (setDevicePixelRatio painterRatio b) in
  let b := with_m_systemIconIsAvailable false b in
  let b :=
    if isSystemIconTheme (buttonIconStyle (internalSettings d))
    then with_m_systemIconIsAvailable (isSystemIconAvailable b) b
    else b in
  setStandardScaledPenWidth b.

(** The low-contrast test of [paint], on the background colour it has
    just resolved. *)
Definition lowContrast (d : Decoration) (b : Button) : bool :=
  negb (backgroundColors (internalSettings d) =C= ColorsTitlebarText)
  && Qltb (KColorUtils_contrastRatio (fst (backgroundColor b false)) (titleBarColor d))
          1.3%Q.

(** The colour library keeps colours valid. *)
Definition libraryKeepsValid : Prop :=
  (forall a b t, isValid a = true -> isValid b = true ->
                 isValid (KColorUtils_mix a b t) = true)
  /\ (forall c t, isValid c = true -> isValid (ColorTools_alphaMix c t) = true).

End StatementVocabulary.

(** * Properties *)

(** ** Painting code only adds commands *)

Lemma skipn_length_app {A : Type} (l r : list A) : skipn (length l) (l ++ r) = r.
Proof. induction l as [|x l IH]; simpl; auto. Qed.

Lemma appends_emitted {A : Type} (m : Paint A) :
  appends m ->
  forall w, commands (painter (exec m w)) = commands (painter w) ++ emitted m w.
Proof.
  intros Hm w. destruct (Hm w) as [l Hl]. unfold emitted, exec.
  rewrite Hl. now rewrite skipn_length_app.
Qed.

Lemma emitted_unique {A : Type} (m : Paint A) (w : World) (l : list PaintCommand) :
  commands (painter (snd (m w))) = commands (painter w) ++ l -> emitted m w = l.
Proof. intros H. unfold emitted, exec. rewrite H. apply skipn_length_app. Qed.

Lemma QPainter_do_commands (c : PaintCommand) (p : QPainter) :
  commands (QPainter_do c p) = commands p ++ [c].
Proof. destruct c; simpl; try reflexivity. destruct (savedTransforms p); reflexivity. Qed.

Lemma appends_ret {A : Type} (a : A) : appends (ret a).
Proof. intros w. exists []. simpl. now rewrite app_nil_r. Qed.

Lemma appends_call (c : PaintCommand) : appends (call c).
Proof. intros w. exists [c]. simpl. apply QPainter_do_commands. Qed.

Lemma appends_bind {A B : Type} (m : Paint A) (k : A -> Paint B) :
  appends m -> (forall a, appends (k a)) -> appends (bind m k).
Proof.
  intros Hm Hk w. unfold bind. destruct (Hm w) as [l1 H1].
  destruct (m w) as [a w']. destruct (Hk a w') as [l2 H2].
  exists (l1 ++ l2). simpl in H1. rewrite H2, H1. now rewrite app_assoc.
Qed.

Lemma appends_whenP (c : bool) (m : Paint unit) : appends m -> appends (whenP c m).
Proof. destruct c; simpl; auto using appends_ret. Qed.

Lemma appends_getDeviceTransform : appends getDeviceTransform.
Proof. intros w. exists []. simpl. now rewrite app_nil_r. Qed.

Lemma appends_getDevicePixelRatioF : appends getDevicePixelRatioF.
Proof. intros w. exists []. simpl. now rewrite app_nil_r. Qed.

Lemma appends_customPalette : appends customPalette.
Proof. intros w. exists []. simpl. now rewrite app_nil_r. Qed.

Lemma appends_setCustomPalette (p : QPalette) : appends (setCustomPalette p).
Proof. intros w. exists []. simpl. now rewrite app_nil_r. Qed.

Lemma appends_resetPalette : appends resetPalette.
Proof. intros w. exists []. simpl. now rewrite app_nil_r. Qed.

Lemma appends_translateBy (p : QPointF) : appends (translateBy p).
Proof. apply appends_call. Qed.

Create HintDb paint discriminated.
#[export] Hint Resolve appends_ret appends_call appends_whenP appends_getDeviceTransform
  appends_getDevicePixelRatioF appends_customPalette appends_setCustomPalette
  appends_resetPalette appends_translateBy : paint.

(** Splits a goal [appends m] along the structure of [m]. *)
Ltac appends_step :=
  match goal with
  | |- appends (bind _ _) => apply appends_bind; [ | intros ? ]
  | |- appends (whenP _ _) => apply appends_whenP
  | |- appends (if ?c then _ else _) => destruct c
  | |- appends (match ?x with _ => _ end) => destruct x
  | |- appends _ => solve [ auto with paint ]
  end.

Ltac appends_tac := repeat appends_step.

Lemma emitted_ret {A : Type} (a : A) (w : World) : emitted (ret a) w = [].
Proof. apply emitted_unique. simpl. now rewrite app_nil_r. Qed.

Lemma emitted_call (c : PaintCommand) (w : World) : emitted (call c) w = [c].
Proof. apply emitted_unique. simpl. apply QPainter_do_commands. Qed.

Lemma emitted_bind {A B : Type} (m : Paint A) (k : A -> Paint B) (w : World) :
  appends m -> (forall a, appends (k a)) ->
  emitted (bind m k) w = emitted m w ++ emitted (k (fst (m w))) (snd (m w)).
Proof.
  intros Hm Hk. apply emitted_unique.
  pose proof (appends_emitted m Hm w) as H1.
  pose proof (appends_emitted (k (fst (m w))) (Hk _) (snd (m w))) as H2.
  unfold exec in H1, H2. unfold bind. destruct (m w) as [a w']. simpl in *.
  rewrite H2, H1. now rewrite app_assoc.
Qed.

Lemma emitted_translateBy (p : QPointF) (w : World) :
  emitted (translateBy p) w = [translate (px p) (py p)].
Proof. apply emitted_call. Qed.

Lemma emitted_getDeviceTransform (w : World) : emitted getDeviceTransform w = [].
Proof. apply emitted_unique. simpl. now rewrite app_nil_r. Qed.

Lemma emitted_getDevicePixelRatioF (w : World) : emitted getDevicePixelRatioF w = [].
Proof. apply emitted_unique. simpl. now rewrite app_nil_r. Qed.

Lemma emitted_customPalette (w : World) : emitted customPalette w = [].
Proof. apply emitted_unique. simpl. now rewrite app_nil_r. Qed.

Lemma emitted_setCustomPalette (p : QPalette) (w : World) : emitted (setCustomPalette p) w = [].
Proof. apply emitted_unique. simpl. now rewrite app_nil_r. Qed.

Lemma emitted_resetPalette (w : World) : emitted resetPalette w = [].
Proof. apply emitted_unique. simpl. now rewrite app_nil_r. Qed.

Lemma emitted_whenP (c : bool) (m : Paint unit) (w : World) :
  emitted (whenP c m) w = if c then emitted m w else [].
Proof. destruct c; simpl; auto using emitted_ret. Qed.

Section PaintingAppends.

Context {env : Environment}.

Lemma appends_paintFullHeightButtonBackground (b : Button) :
  appends (paintFullHeightButtonBackground b).
Proof. unfold paintFullHeightButtonBackground. appends_tac. Qed.

Lemma appends_paintSmallSizedButtonBackground (b : Button) :
  appends (paintSmallSizedButtonBackground b).
Proof. unfold paintSmallSizedButtonBackground. appends_tac. Qed.

Lemma appends_renderIconFor (b : Button) : appends (renderIconFor b).
Proof. unfold renderIconFor. appends_tac. Qed.

Hint Resolve appends_paintFullHeightButtonBackground
  appends_paintSmallSizedButtonBackground appends_renderIconFor : paint.

Lemma appends_drawIcon (b : Button) : appends (drawIcon b).
Proof. unfold drawIcon. appends_tac. Qed.

Lemma appends_paintMenuIcon (b : Button) (d : Decoration) (c : DecoratedClient) :
  appends (paintMenuIcon b d c).
Proof. unfold paintMenuIcon. appends_tac. Qed.

End PaintingAppends.

#[export] Hint Resolve appends_paintFullHeightButtonBackground
  appends_paintSmallSizedButtonBackground appends_renderIconFor appends_drawIcon
  appends_paintMenuIcon : paint.

(** ** Saving the title-bar opacity dialog *)

Module TitleBarOpacityFacts.

Import TitleBarOpacity.

(** Claim C3. [TitleBarOpacity::save] calls [setInactiveTitlebarOpacity],
    with the value of the inactive spin box, exactly when the inactive
    scheme colour is opaque or the ACTIVE scheme colour is translucent and
    the ACTIVE override box is checked; the persisted inactive opacity is
    then the spin box value and otherwise the stored one. The call of
    [setActiveTitlebarOpacity] is made under the condition on the active
    flags alone, so the two conditions differ only in their first test. *)
Theorem save_inactive_opacity_tests_active_flags :
  forall (dlg : t) (stored : InternalSettings) (reloadKwinConfig : bool) (v : Z),
    (In (call_setInactiveTitlebarOpacity v) (setterCalls dlg) <->
       (m_translucentInactiveSchemeColor dlg = false
        \/ (m_translucentActiveSchemeColor dlg = true
            /\ Ui.overrideActiveTitleBarOpacity (m_ui dlg) = true))
       /\ v = Ui.inactiveTitlebarOpacity (m_ui dlg))
    /\ (In (call_setActiveTitlebarOpacity v) (setterCalls dlg) <->
          (m_translucentActiveSchemeColor dlg = false
           \/ (m_translucentActiveSchemeColor dlg = true
               /\ Ui.overrideActiveTitleBarOpacity (m_ui dlg) = true))
          /\ v = Ui.activeTitlebarOpacity (m_ui dlg))
    /\ inactiveTitlebarOpacity (persisted stored dlg) =
         (if negb (m_translucentInactiveSchemeColor dlg)
             || (m_translucentActiveSchemeColor dlg
                 && Ui.overrideActiveTitleBarOpacity (m_ui dlg))
          then Ui.inactiveTitlebarOpacity (m_ui dlg)
          else inactiveTitlebarOpacity stored)
    /\ In (internalSettings_save (persisted stored dlg))
          (snd (save reloadKwinConfig stored dlg)).
Proof.
  intros [ui s ta ti ch] stored reload v. unfold persisted, save, setterCalls, guarded.
  cbn [m_ui m_internalSettings m_translucentActiveSchemeColor
       m_translucentInactiveSchemeColor m_changed].
  destruct ta, ti, (Ui.overrideActiveTitleBarOpacity ui); cbn;
    (split; [ | split; [ | split ] ]);
    try reflexivity; try (left; reflexivity);
    (split;
     [ intros H; repeat (destruct H as [H | H]; try discriminate);
       try contradiction; try (injection H as <-); intuition congruence
     | intros [H ->]; intuition (try discriminate; try congruence) ]).
Qed.

End TitleBarOpacityFacts.

(** ** The colour resolver *)

Section ResolverFacts.

Context {env : Environment}.

Lemma backgroundColor_sameInputs (b1 b2 : Button) (g : bool) :
  sameInputs b1 b2 -> sameAnimationInputs b1 b2 ->
  backgroundColor b1 g = backgroundColor b2 g.
Proof.
  intros (Ht & Hh & Hp & Hc & Hd) (Hr & Ho & _ & Hb & _).
  unfold backgroundColor, backgroundPalette. rewrite Hd.
  destruct (decoration b2) as [d|]; [ | reflexivity ].
  now rewrite Ht, Hh, Hp, Hc, Hr, Ho, Hb.
Qed.

Lemma foregroundColor_sameInputs (b1 b2 : Button) (c : QColor) :
  sameInputs b1 b2 -> sameAnimationInputs b1 b2 ->
  foregroundColor b1 c = foregroundColor b2 c.
Proof.
  intros (Ht & Hh & Hp & Hc & Hd) (Hr & Ho & Hf & _ & _).
  unfold foregroundColor, foregroundColorState, foregroundPalette. rewrite Hd.
  destruct (decoration b2) as [d|]; [ | reflexivity ].
  now rewrite Ht, Hh, Hp, Hc, Hr, Ho, Hf.
Qed.

Lemma outlineColor_sameInputs (b1 b2 : Button) (g : bool) :
  sameInputs b1 b2 -> sameAnimationInputs b1 b2 ->
  m_lowContrastBetweenTitleBarAndBackground b1
  = m_lowContrastBetweenTitleBarAndBackground b2 ->
  outlineColor b1 g = outlineColor b2 g.
Proof.
  intros (Ht & Hh & Hp & Hc & Hd) (Hr & Ho & _ & _ & Hl) Hlow.
  unfold outlineColor, outlineForState, correctedOutlinePalette, outlinePalette, outlineFlags.
  rewrite Hd. destruct (decoration b2) as [d|]; [ | reflexivity ].
  now rewrite Ht, Hh, Hp, Hc, Hr, Ho, Hl, Hlow.
Qed.

(** The resolvers do not read the colours [paint] stores, so the state in
    which [paint] calls each of them can be replaced by the state before. *)
Lemma resolveColors_fields (d : Decoration) (b : Button) :
  let low :=
    negb (backgroundColors (internalSettings d) =C= ColorsTitlebarText)
    && Qltb (KColorUtils_contrastRatio (fst (backgroundColor b false)) (titleBarColor d))
            1.3%Q in
  m_backgroundColor (resolveColors d b) = fst (backgroundColor b false)
  /\ m_foregroundColor (resolveColors d b)
     = foregroundColor b (snd (backgroundColor b false))
  /\ m_lowContrastBetweenTitleBarAndBackground (resolveColors d b) = low
  /\ m_outlineColor (resolveColors d b)
     = outlineColor (with_m_lowContrastBetweenTitleBarAndBackground low b) false.
Proof.
  unfold resolveColors. destruct (backgroundColor b false) as [bg contrast].
  cbn -[foregroundColor outlineColor Qltb]. repeat split.
Qed.

Lemma resolved_sameInputs (d : Decoration) (b1 b2 : Button) :
  sameInputs b1 b2 -> sameAnimationInputs b1 b2 ->
  resolved (resolveColors d b1) = resolved (resolveColors d b2).
Proof.
  intros Hs Ha. unfold resolved.
  destruct (resolveColors_fields d b1) as (B1 & F1 & _ & O1).
  destruct (resolveColors_fields d b2) as (B2 & F2 & _ & O2).
  rewrite B1, B2, F1, F2, O1, O2.
  rewrite (backgroundColor_sameInputs b1 b2 false Hs Ha).
  rewrite (foregroundColor_sameInputs b1 b2 _ Hs Ha).
  f_equal. apply outlineColor_sameInputs; auto.
Qed.

End ResolverFacts.

Section ResolverDeterminism.

Context {env : Environment}.

Lemma backgroundColor_idle (b1 b2 : Button) (g1 g2 : bool) :
  sameInputs b1 b2 -> isRunning b1 = false -> isRunning b2 = false ->
  backgroundColor b1 g1 = backgroundColor b2 g2.
Proof.
  intros (Ht & Hh & Hp & Hc & Hd) R1 R2.
  unfold backgroundColor, backgroundPalette. rewrite Hd.
  destruct (decoration b2) as [d|]; [ | reflexivity ].
  now rewrite Ht, Hh, Hp, Hc, R1, R2.
Qed.

Lemma foregroundColor_idle (b1 b2 : Button) (c : QColor) :
  sameInputs b1 b2 -> isRunning b1 = false -> isRunning b2 = false ->
  foregroundColor b1 c = foregroundColor b2 c.
Proof.
  intros (Ht & Hh & Hp & Hc & Hd) R1 R2.
  unfold foregroundColor, foregroundPalette. rewrite Hd.
  destruct (decoration b2) as [d|]; [ | reflexivity ].
  assert (Hs : foregroundColorState b1 d = foregroundColorState b2 d)
    by (unfold foregroundColorState; now rewrite Ht, Hh, Hp, Hc, R1, R2).
  assert (Hn : foregroundColorState b2 d <> animatedHover).
  { unfold foregroundColorState. rewrite R2. cbn [andb].
    repeat match goal with |- context [if ?c then _ else _] => destruct c end;
      discriminate. }
  rewrite Hs, Ht.
  destruct (foregroundColorState b2 d); try reflexivity. now elim Hn.
Qed.

Lemma outlineColor_idle (b1 b2 : Button) (g1 g2 : bool) :
  sameInputs b1 b2 -> isRunning b1 = false -> isRunning b2 = false ->
  m_lowContrastBetweenTitleBarAndBackground b1
  = m_lowContrastBetweenTitleBarAndBackground b2 ->
  outlineColor b1 g1 = outlineColor b2 g2.
Proof.
  intros (Ht & Hh & Hp & Hc & Hd) R1 R2 Hlow.
  unfold outlineColor, outlineForState, correctedOutlinePalette, outlinePalette, outlineFlags.
  rewrite Hd. destruct (decoration b2) as [d|]; [ | reflexivity ].
  now rewrite Ht, Hh, Hp, Hc, R1, R2, Hlow.
Qed.

Lemma backgroundPalette_sameColorSettings (b1 b2 : Button) (d1 d2 : Decoration) :
  btype b1 = btype b2 -> sameColorSettings d1 d2 ->
  backgroundPalette b1 d1 = backgroundPalette b2 d2.
Proof.
  intros Ht (Hs & Hp & Htb & Hf). unfold backgroundPalette.
  now rewrite Ht, Hs, Hp, Htb, Hf.
Qed.

Lemma foregroundPalette_sameColorSettings (b1 b2 : Button) (d1 d2 : Decoration)
      (c : QColor) :
  btype b1 = btype b2 -> sameColorSettings d1 d2 ->
  foregroundPalette b1 d1 c = foregroundPalette b2 d2 c.
Proof.
  intros Ht (Hs & Hp & Htb & Hf). unfold foregroundPalette.
  now rewrite Ht, Hs, Hp, Htb, Hf.
Qed.

Lemma outlinePalette_sameColorSettings (b1 b2 : Button) (d1 d2 : Decoration) :
  btype b1 = btype b2 -> sameColorSettings d1 d2 ->
  m_lowContrastBetweenTitleBarAndBackground b1
  = m_lowContrastBetweenTitleBarAndBackground b2 ->
  correctedOutlinePalette b1 d1 (outlineFlags b1 d1)
  = correctedOutlinePalette b2 d2 (outlineFlags b2 d2).
Proof.
  intros Ht (Hs & Hp & Htb & Hf) Hlow.
  unfold correctedOutlinePalette, outlinePalette, outlineFlags, correctOutline.
  now rewrite Ht, Hs, Hp, Htb, Hf, Hlow.
Qed.

Lemma backgroundColor_sameResolverInputs (b1 b2 : Button) (g1 g2 : bool) :
  sameResolverInputs b1 b2 ->
  (sameAnimationInputs b1 b2 /\ g1 = g2) \/ (isRunning b1 = false /\ isRunning b2 = false) ->
  backgroundColor b1 g1 = backgroundColor b2 g2.
Proof.
  intros (Ht & Hh & Hp & Hc & Hd) Ha. unfold backgroundColor.
  destruct (decoration b1) as [d1|], (decoration b2) as [d2|]; try contradiction;
    [ | reflexivity ].
  rewrite (backgroundPalette_sameColorSettings b1 b2 d1 d2 Ht Hd).
  destruct Hd as (Hs & _). rewrite Hs, Ht, Hh, Hp, Hc.
  destruct Ha as [((Hr & Ho & _ & Hb & _) & ->) | (R1 & R2)].
  - now rewrite Hr, Ho, Hb.
  - now rewrite R1, R2.
Qed.

Lemma foregroundColor_sameResolverInputs (b1 b2 : Button) (c : QColor) :
  sameResolverInputs b1 b2 ->
  sameAnimationInputs b1 b2 \/ (isRunning b1 = false /\ isRunning b2 = false) ->
  foregroundColor b1 c = foregroundColor b2 c.
Proof.
  intros (Ht & Hh & Hp & Hc & Hd) Ha. unfold foregroundColor.
  destruct (decoration b1) as [d1|], (decoration b2) as [d2|]; try contradiction;
    [ | reflexivity ].
  assert (Hr : isRunning b1 = isRunning b2)
    by (destruct Ha as [(Hr & _) | (R1 & R2)]; congruence).
  assert (Hst : foregroundColorState b1 d1 = foregroundColorState b2 d2).
  { destruct Hd as (Hs & Hpar & _). unfold foregroundColorState.
    now rewrite Ht, Hh, Hp, Hc, Hr, Hs, Hpar. }
  assert (Hfont : fontColor d1 = fontColor d2) by apply Hd.
  rewrite Hst, Hfont.
  rewrite (foregroundPalette_sameColorSettings b1 b2 d1 d2 _ Ht Hd).
  destruct Ha as [(_ & Ho & Hf & _) | (R1 & R2)].
  - now rewrite Ho, Hf.
  - assert (Hn : foregroundColorState b2 d2 <> animatedHover).
    { unfold foregroundColorState. rewrite R2. cbn [andb].
      repeat match goal with |- context [if ?c then _ else _] => destruct c end;
        discriminate. }
    destruct (foregroundColorState b2 d2); try reflexivity. now elim Hn.
Qed.

Lemma outlineColor_sameResolverInputs (b1 b2 : Button) (g1 g2 : bool) :
  sameResolverInputs b1 b2 ->
  (sameAnimationInputs b1 b2 /\ g1 = g2) \/ (isRunning b1 = false /\ isRunning b2 = false) ->
  m_lowContrastBetweenTitleBarAndBackground b1
  = m_lowContrastBetweenTitleBarAndBackground b2 ->
  outlineColor b1 g1 = outlineColor b2 g2.
Proof.
  intros (Ht & Hh & Hp & Hc & Hd) Ha Hlow. unfold outlineColor.
  destruct (decoration b1) as [d1|], (decoration b2) as [d2|]; try contradiction;
    [ | reflexivity ].
  rewrite (outlinePalette_sameColorSettings b1 b2 d1 d2 Ht Hd Hlow).
  destruct Hd as (Hs & _). unfold outlineForState. rewrite Hs, Ht, Hh, Hp, Hc.
  destruct Ha as [((Hr & Ho & _ & _ & Hl) & ->) | (R1 & R2)].
  - now rewrite Hr, Ho, Hl.
  - now rewrite R1, R2.
Qed.

Lemma resolved_sameResolverInputs (d1 d2 : Decoration) (b1 b2 : Button) :
  sameResolverInputs b1 b2 -> sameColorSettings d1 d2 ->
  sameAnimationInputs b1 b2 \/ (isRunning b1 = false /\ isRunning b2 = false) ->
  resolved (resolveColors d1 b1) = resolved (resolveColors d2 b2).
Proof.
  intros Hs Hd Ha. unfold resolved.
  destruct (resolveColors_fields d1 b1) as (B1 & F1 & _ & O1).
  destruct (resolveColors_fields d2 b2) as (B2 & F2 & _ & O2).
  rewrite B1, B2, F1, F2, O1, O2.
  assert (Ha' : (sameAnimationInputs b1 b2 /\ false = false)
                \/ (isRunning b1 = false /\ isRunning b2 = false))
    by (destruct Ha; [ left; split | right ]; auto).
  rewrite (backgroundColor_sameResolverInputs b1 b2 false false Hs Ha').
  rewrite (foregroundColor_sameResolverInputs b1 b2 _ Hs Ha).
  f_equal. destruct Hd as (Hset & _ & Htb & _). rewrite Hset, Htb.
  set (low := negb _ && _).
  apply outlineColor_sameResolverInputs.
  - destruct Hs as (Ht & Hh & Hp & Hc & Hdec). repeat split; assumption.
  - destruct Ha' as [((Hr & Ho & Hf & Hb & Hl) & _) | (R1 & R2)];
      [ left; repeat split; assumption | right; split; assumption ].
  - reflexivity.
Qed.

(** Claim C1, as amended. With the environment (colour library and global
    palette) fixed, the three resolvers are functions of the button type,
    the interaction state, the settings, the behavioural parameters, the
    title-bar colour and the font colour of the decoration and, besides, of
    the animation: of whether it runs, of its value [m_opacity] and of the
    cached pre-animation colours ([outlineColor] also reads the low-contrast
    flag that [paint] sets, [foregroundColor] its argument). They read
    nothing else: the two decorations may differ in their client, title bar,
    window path, maximized state, animation duration and sizes, and the
    buttons in every other member. When the animation does not run in either
    state, equal button type, interaction state and those four parts of the
    decoration give equal colours, whatever the animation value and the
    cached colours are. *)
Theorem resolver_deterministic_up_to_animation :
  forall (b1 b2 : Button),
    sameResolverInputs b1 b2 ->
    (sameAnimationInputs b1 b2 ->
     (forall d1 d2, sameColorSettings d1 d2 ->
                    resolved (resolveColors d1 b1) = resolved (resolveColors d2 b2))
     /\ (forall g, backgroundColor b1 g = backgroundColor b2 g)
     /\ (forall c, foregroundColor b1 c = foregroundColor b2 c)
     /\ (m_lowContrastBetweenTitleBarAndBackground b1
         = m_lowContrastBetweenTitleBarAndBackground b2 ->
         forall g, outlineColor b1 g = outlineColor b2 g))
    /\ (isRunning b1 = false -> isRunning b2 = false ->
        (forall d1 d2, sameColorSettings d1 d2 ->
                       resolved (resolveColors d1 b1) = resolved (resolveColors d2 b2))
        /\ (forall g1 g2, backgroundColor b1 g1 = backgroundColor b2 g2)
        /\ (forall c, foregroundColor b1 c = foregroundColor b2 c)
        /\ (m_lowContrastBetweenTitleBarAndBackground b1
            = m_lowContrastBetweenTitleBarAndBackground b2 ->
            forall g1 g2, outlineColor b1 g1 = outlineColor b2 g2)).
Proof.
  intros b1 b2 Hs. split.
  - intros Ha. split; [ | split; [ | split ] ].
    + intros d1 d2 Hd. apply resolved_sameResolverInputs; auto.
    + intros g. apply backgroundColor_sameResolverInputs; auto.
    + intros c. apply foregroundColor_sameResolverInputs; auto.
    + intros Hlow g. apply outlineColor_sameResolverInputs; auto.
  - intros R1 R2. split; [ | split; [ | split ] ].
    + intros d1 d2 Hd. apply resolved_sameResolverInputs; auto.
    + intros g1 g2. apply backgroundColor_sameResolverInputs; auto.
    + intros c. apply foregroundColor_sameResolverInputs; auto.
    + intros Hlow g1 g2. apply outlineColor_sameResolverInputs; auto.
Qed.

(** Claim C10. Without a decoration each resolver returns the invalid
    colour; with one, [foregroundColor] returns the invalid colour when the
    button is not pressed with [drawIconOnFocus], is not a checked toggle
    button, is neither hovered nor animating with [drawIconOnHover], and
    [drawIconAlways] is off; and [Button::create] returns [nullptr] exactly
    when the decoration it is given is not a [Breeze::Decoration] (it
    returns a button when it is one and its client is alive). *)
Theorem invalid_colors_and_null_button :
  (forall (b : Button) (c : QColor) (g : bool),
      decoration b = None ->
      foregroundColor b c = invalidColor
      /\ fst (backgroundColor b g) = invalidColor
      /\ backgroundColor1 b g = invalidColor
      /\ outlineColor b g = invalidColor)
  /\ (forall (b : Button) (d : Decoration) (c : QColor),
         decoration b = Some d ->
         isPressed b && drawIconOnFocus (m_buttonBehaviouralParameters d) = false ->
         isCheckedToggleButton b = false ->
         (isHovered b || isRunning b) && drawIconOnHover (m_buttonBehaviouralParameters d)
         = false ->
         drawIconAlways (m_buttonBehaviouralParameters d) = false ->
         foregroundColor b c = invalidColor)
  /\ (forall (type : DecorationButtonType) (p : KDecoration) (kded5 : bool)
             (members : Button),
         (create type p kded5 members = returned None <-> qobject_cast p = None)
         /\ (forall d c, qobject_cast p = Some d -> client d = Some c ->
                         exists b, create type p kded5 members = returned (Some b)
                                   /\ btype b = type /\ decoration b = Some d)).
Proof.
  split; [ | split ].
  - intros b c g Hd. unfold backgroundColor1, foregroundColor, backgroundColor, outlineColor.
    rewrite Hd. auto.
  - intros b d c Hd Hp Ht Hh Ha. unfold foregroundColor. rewrite Hd.
    assert (Hs : foregroundColorState b d = none).
    { unfold foregroundColorState. unfold isCheckedToggleButton in Ht.
      rewrite Hp, Ha.
      destruct (isChecked b), (btype b), (isHovered b), (isRunning b),
        (drawIconOnHover (m_buttonBehaviouralParameters d));
        cbn in *; try discriminate; reflexivity. }
    now rewrite Hs.
  - intros type p kded5 members. split.
    + unfold create. destruct p as [ | | d]; cbn; try tauto.
      unfold Button_new. destruct (client d); split; discriminate.
    + intros d c Hq Hc. unfold create, Button_new. rewrite Hq, Hc.
      eexists. split; [ reflexivity | ]. destruct type; split; reflexivity.
Qed.

End ResolverDeterminism.

(** ** The hover animation *)

Lemma Qltb_lt (x y : Q) : Qltb x y = true <-> (x < y)%Q.
Proof.
  unfold Qltb. rewrite negb_true_iff. split; intros H.
  - apply Qnot_le_lt. intros Hle. apply Qle_bool_iff in Hle. congruence.
  - destruct (Qle_bool y x) eqn:E; [ | reflexivity ].
    apply Qle_bool_iff in E. exfalso. apply (Qlt_not_le _ _ H E).
Qed.


Lemma setDuration_configured (n : Z) (a : QVariantAnimation) :
  configured a -> configured (setDuration n a).
Proof. unfold setDuration. destruct (n <? 0); auto. Qed.

Lemma start_configured (a : QVariantAnimation) : configured a -> configured (start a).
Proof. unfold start. destruct (state a); auto. Qed.

Lemma advance_configured (dt : Z) (a : QVariantAnimation) :
  configured a -> configured (advance dt a).
Proof. unfold advance. destruct (state a); auto. Qed.

Lemma reconfigure_configured (b : Button) :
  configured (m_animation b) -> configured (m_animation (reconfigure b)).
Proof.
  unfold reconfigure. destruct (decoration b); auto. cbn. apply setDuration_configured.
Qed.

Lemma updateAnimationState_configured (h : bool) (b : Button) :
  configured (m_animation b) -> configured (m_animation (updateAnimationState h b)).
Proof.
  unfold updateAnimationState. destruct (decoration b) as [d|]; auto.
  destruct (0 <? animationsDuration d); auto.
  destruct (negb _); cbn; intros H; [ apply start_configured | ]; exact H.
Qed.

Lemma tick_configured (dt : Z) (b : Button) :
  configured (m_animation b) -> configured (m_animation (tick dt b)).
Proof.
  unfold tick. destruct (isRunning b); auto. cbn. apply advance_configured.
Qed.

Lemma Button_new_configured (type : DecorationButtonType) (d : Decoration) (kded5 : bool)
      (members b : Button) :
  Button_new type d kded5 members = Some b -> configured (m_animation b).
Proof.
  unfold Button_new. destruct (client d); [ | discriminate ].
  intros [= <-]. apply reconfigure_configured. cbn. repeat split.
Qed.


Section AnimationFacts.

(** Claim C8. [reconfigure] gives the animation the decoration's
    [animationsDuration]; [updateAnimationState] does nothing when that
    duration is zero or negative; otherwise the direction becomes forward on
    hover and backward on unhover and the animation runs; an animation that
    already runs keeps its current time and value (it is not restarted); an
    animation started from rest starts at the end its direction leaves from,
    and right after [reconfigure] it runs over [animationsDuration]
    milliseconds: it is over exactly when that time has passed. *)
Theorem animation_duration_and_start :
  forall (b : Button) (d : Decoration) (hovered : bool),
    decoration b = Some d ->
    (0 <= animationsDuration d ->
     duration (m_animation (reconfigure b)) = animationsDuration d)
    /\ (animationsDuration d <= 0 -> updateAnimationState hovered b = b)
    /\ (0 < animationsDuration d ->
        direction (m_animation (updateAnimationState hovered b))
        = (if hovered then Forward else Backward)
        /\ state (m_animation (updateAnimationState hovered b)) = Running
        /\ duration (m_animation (updateAnimationState hovered b))
           = duration (m_animation b))
    /\ (state (m_animation b) = Running ->
        currentTime (m_animation (updateAnimationState hovered b))
        = currentTime (m_animation b)
        /\ m_opacity (updateAnimationState hovered b) = m_opacity b)
    /\ (0 < animationsDuration d -> state (m_animation b) = Stopped ->
        currentTime (m_animation (updateAnimationState hovered b))
        = (if hovered then 0 else duration (m_animation b)))
    /\ (0 < animationsDuration d -> state (m_animation b) = Stopped ->
        let started := updateAnimationState hovered (reconfigure b) in
        duration (m_animation started) = animationsDuration d
        /\ forall dt, 0 <= dt ->
                      isRunning (tick dt started) = (dt <? animationsDuration d)).
Proof.
  intros b d hovered Hd. repeat apply conj.
  - intros H. unfold reconfigure. rewrite Hd. cbn. unfold setDuration.
    destruct (animationsDuration d <? 0) eqn:E; [ lia | reflexivity ].
  - intros H. unfold updateAnimationState. rewrite Hd.
    destruct (0 <? animationsDuration d) eqn:E; [ lia | reflexivity ].
  - intros H. unfold updateAnimationState. rewrite Hd.
    destruct (0 <? animationsDuration d) eqn:E; [ | lia ].
    cbn. destruct (state (m_animation b)) eqn:S; cbn; unfold start; cbn; rewrite ?S; cbn;
      auto.
  - intros S. unfold updateAnimationState. rewrite Hd.
    destruct (0 <? animationsDuration d); [ | auto ].
    cbn. rewrite S. cbn. auto.
  - intros H S. unfold updateAnimationState. rewrite Hd.
    destruct (0 <? animationsDuration d) eqn:E; [ | lia ].
    cbn. rewrite S. cbn. unfold start. cbn. rewrite S. cbn. now destruct hovered.
  - intros H S started.
    assert (Hdur : duration (m_animation (reconfigure b)) = animationsDuration d).
    { unfold reconfigure. rewrite Hd. cbn. unfold setDuration.
      destruct (animationsDuration d <? 0) eqn:E; [ lia | reflexivity ]. }
    assert (Hst : state (m_animation (reconfigure b)) = Stopped).
    { unfold reconfigure. rewrite Hd. cbn. unfold setDuration.
      destruct (animationsDuration d <? 0); exact S. }
    assert (Hdec : decoration (reconfigure b) = Some d).
    { unfold reconfigure. rewrite Hd. exact Hd. }
    subst started. unfold updateAnimationState. rewrite Hdec.
    destruct (0 <? animationsDuration d) eqn:E; [ | lia ].
    cbn. rewrite Hst. cbn. unfold start. cbn. rewrite Hst. cbn. split; [ exact Hdur | ].
    intros dt Hdt. unfold tick, isRunning. cbn. unfold advance. cbn. rewrite Hdur.
    destruct hovered; cbn.
    + destruct (animationsDuration d <=? Z.min (animationsDuration d) dt) eqn:F;
        cbn; symmetry; [ apply Z.ltb_ge | apply Z.ltb_lt ]; lia.
    + destruct (Z.max 0 (animationsDuration d - dt) <=? 0) eqn:F;
        cbn; symmetry; [ apply Z.ltb_ge | apply Z.ltb_lt ]; lia.
Qed.

End AnimationFacts.

Section AnimatedColors.

Context {env : Environment}.





End AnimatedColors.

(** ** What the painting code draws *)

Lemma rendered_app (l1 l2 : list PaintCommand) :
  rendered (l1 ++ l2) = rendered l1 ++ rendered l2.
Proof. apply flat_map_app. Qed.

Lemma shapesDrawn_app (l1 l2 : list PaintCommand) :
  shapesDrawn (l1 ++ l2) = shapesDrawn l1 ++ shapesDrawn l2.
Proof. apply flat_map_app. Qed.


Lemma iconsPainted_app (l1 l2 : list PaintCommand) :
  iconsPainted (l1 ++ l2) = iconsPainted l1 ++ iconsPainted l2.
Proof. apply flat_map_app. Qed.

(** Rewrites [emitted] of a sequence into the commands of its parts. *)
Ltac emitted_norm :=
  repeat first
    [ rewrite emitted_bind by (intros; appends_tac)
    | rewrite emitted_call
    | rewrite emitted_translateBy
    | rewrite emitted_ret
    | rewrite emitted_getDeviceTransform
    | rewrite emitted_getDevicePixelRatioF
    | rewrite emitted_customPalette
    | rewrite emitted_setCustomPalette
    | rewrite emitted_resetPalette
    | rewrite emitted_whenP ].

Ltac split_ifs :=
  repeat match goal with
         | |- context [if ?c then _ else _] => destruct c
         end.

Section Drawing.

Context {env : Environment}.

Lemma smallShape_shapeBySetting (s : InternalSettings) :
  smallShape s = shapeBySetting (buttonShape s) (cornerRadius s).
Proof.
  unfold smallShape, shapeBySetting.
  destruct (buttonShape s), (Qltb (cornerRadius s) 0.2%Q); reflexivity.
Qed.

(** Claim C6. The shapes [paintSmallSizedButtonBackground] draws: none
    without a decoration or when neither the background nor the outline
    colour is valid; otherwise exactly one, which the button shape setting
    and the corner radius alone select: a plain square for
    [ShapeSmallSquare], [ShapeFullHeightRectangle] and, below a radius of
    0.2, for [ShapeFullHeightRoundedRectangle] and
    [ShapeIntegratedRoundedRectangle]; a rounded square for
    [ShapeSmallRoundedSquare] and, from 0.2 on, for the latter two; a circle
    in every other case. *)
Theorem small_background_shape :
  forall (b : Button) (w : World),
    shapesDrawn (emitted (paintSmallSizedButtonBackground b) w)
    = match decoration b with
      | Some d =>
          if isValid (m_backgroundColor b) || isValid (m_outlineColor b)
          then [shapeBySetting (buttonShape (internalSettings d))
                               (cornerRadius (internalSettings d))]
          else []
      | None => []
      end.
Proof.
  intros b w. unfold paintSmallSizedButtonBackground.
  destruct (isValid (m_backgroundColor b)) eqn:Hb, (isValid (m_outlineColor b)) eqn:Ho;
    cbn [negb andb orb];
    (destruct (decoration b) as [d|]; [ | now rewrite emitted_ret ]);
    try (now rewrite emitted_ret);
    rewrite <- smallShape_shapeBySetting;
    destruct (smallShape (internalSettings d));
    emitted_norm; rewrite ?shapesDrawn_app; reflexivity.
Qed.

End Drawing.

Section IconDrawing.

Context {env : Environment}.

Lemma rendered_paintSmallSizedButtonBackground (b : Button) (w : World) :
  rendered (emitted (paintSmallSizedButtonBackground b) w) = [].
Proof.
  unfold paintSmallSizedButtonBackground.
  destruct (negb (isValid (m_backgroundColor b)) && negb (isValid (m_outlineColor b)));
    [ now rewrite emitted_ret | ].
  destruct (decoration b) as [d|]; [ | now rewrite emitted_ret ].
  destruct (isValid (m_outlineColor b)), (isValid (m_backgroundColor b)),
    (smallShape (internalSettings d));
    emitted_norm; rewrite ?rendered_app; reflexivity.
Qed.

Lemma rendered_paintFullHeightButtonBackground (b : Button) (w : World) :
  rendered (emitted (paintFullHeightButtonBackground b) w) = [].
Proof.
  unfold paintFullHeightButtonBackground.
  destruct (negb (isValid (m_backgroundColor b)) && negb (isValid (m_outlineColor b)));
    [ now rewrite emitted_ret | ].
  destruct (decoration b) as [d|]; [ | now rewrite emitted_ret ].
  destruct (fullHeightPaths b d) as [[background outline] usingPath].
  destruct (isValid (m_backgroundColor b));
    emitted_norm; split_ifs; rewrite ?rendered_app; reflexivity.
Qed.

Lemma rendered_renderIconFor (b : Button) (w : World) :
  rendered (emitted (renderIconFor b) w) = iconFor (btype b) (isChecked b).
Proof.
  unfold renderIconFor, iconFor.
  destruct (btype b), (isChecked b); emitted_norm; reflexivity.
Qed.

Lemma rendered_drawIcon (b : Button) (w : World) :
  rendered (emitted (drawIcon b) w)
  = match decoration b with
    | Some _ =>
        if isValid (m_foregroundColor b) then iconFor (btype b) (isChecked b) else []
    | None => []
    end.
Proof.
  unfold drawIcon. destruct (decoration b) as [d|]; [ | now rewrite emitted_ret ].
  emitted_norm. rewrite ?rendered_app.
  rewrite ?rendered_renderIconFor.
  repeat match goal with
         | |- context [rendered (if ?c then ?x else ?y)] =>
             replace (rendered (if c then x else y))
               with (if c then rendered x else rendered y) by (now destruct c)
         end.
  rewrite ?rendered_paintFullHeightButtonBackground,
    ?rendered_paintSmallSizedButtonBackground.
  emitted_norm. rewrite ?rendered_app, ?rendered_renderIconFor.
  split_ifs; reflexivity.
Qed.

End IconDrawing.


Section PaintFacts.

Context {env : Environment}.








End PaintFacts.

Section PaintTheorems.

Context {env : Environment}.

Lemma prepare_measured (r : qreal) (d : Decoration) (b : Button) :
  prepare r d b = fitToGeometry (cacheColors (resolveColors d (measured r d b))).
Proof. reflexivity. Qed.

Lemma measured_same (r : qreal) (d : Decoration) (b : Button) :
  sameInputs (measured r d b) b /\ sameAnimationInputs (measured r d b) b
  /\ m_lowContrastBetweenTitleBarAndBackground (measured r d b)
     = m_lowContrastBetweenTitleBarAndBackground b
  /\ m_isGtkCsdButton (measured r d b) = m_isGtkCsdButton b
  /\ m_standardScaledPenWidth (measured r d b)
     = (PenWidth_Symbol * m_devicePixelRatio (measured r d b))%Q.
Proof.
  unfold measured, setStandardScaledPenWidth, setShouldDrawBoldButtonIcons,
    setDevicePixelRatio, sameInputs, sameAnimationInputs, isRunning.
  destruct (decoration b) eqn:Hd; cbn; rewrite ?Hd; cbn;
    destruct (isSystemIconTheme (buttonIconStyle (internalSettings d))); cbn;
    rewrite ?Hd; repeat split; reflexivity.
Qed.

Lemma after_resolve_fields (b : Button) :
  let b' := fitToGeometry (cacheColors b) in
  resolved b' = resolved b
  /\ m_lowContrastBetweenTitleBarAndBackground b'
     = m_lowContrastBetweenTitleBarAndBackground b
  /\ btype b' = btype b /\ isChecked b' = isChecked b
  /\ m_isGtkCsdButton b' = m_isGtkCsdButton b
  /\ m_devicePixelRatio b' = m_devicePixelRatio b
  /\ m_standardScaledPenWidth b' = m_standardScaledPenWidth b.
Proof.
  unfold fitToGeometry, cacheColors, resolved.
  destruct (negb (isRunning b) && negb (isHovered b)); cbn;
    match goal with |- context [if ?c then _ else _] => destruct c end;
    cbn; repeat split; reflexivity.
Qed.

Lemma resolveColors_keeps (d : Decoration) (b : Button) :
  btype (resolveColors d b) = btype b /\ isChecked (resolveColors d b) = isChecked b
  /\ m_isGtkCsdButton (resolveColors d b) = m_isGtkCsdButton b
  /\ m_devicePixelRatio (resolveColors d b) = m_devicePixelRatio b
  /\ m_standardScaledPenWidth (resolveColors d b) = m_standardScaledPenWidth b.
Proof.
  unfold resolveColors. destruct (backgroundColor b false). cbn. repeat split; reflexivity.
Qed.

Lemma prepare_colors (r : qreal) (d : Decoration) (b : Button) :
  let b' := prepare r d b in
  m_backgroundColor b' = fst (backgroundColor b false)
  /\ m_foregroundColor b' = foregroundColor b (snd (backgroundColor b false))
  /\ m_lowContrastBetweenTitleBarAndBackground b' = lowContrast d b
  /\ m_outlineColor b'
     = outlineColor (with_m_lowContrastBetweenTitleBarAndBackground (lowContrast d b) b)
                    false.
Proof.
  intros b'. subst b'. rewrite prepare_measured.
  destruct (after_resolve_fields (resolveColors d (measured r d b)))
    as (Hres & Hlow & _).
  destruct (resolveColors_fields d (measured r d b)) as (B & F & L & O).
  destruct (measured_same r d b) as (Hs & Ha & Hl & _).
  unfold resolved in Hres. injection Hres as Hb Hf Ho.
  assert (Ebg : backgroundColor (measured r d b) false = backgroundColor b false)
    by (now apply backgroundColor_sameInputs).
  rewrite Hb, Hf, Ho, Hlow, B, F, L, O, Ebg. unfold lowContrast.
  repeat split.
  - now apply foregroundColor_sameInputs.
  - now apply outlineColor_sameInputs.
Qed.


Lemma emitted_paintBody (b : Button) (d : Decoration) (c : DecoratedClient) (w : World) :
  emitted (paintBody b d c) w
  = [save]
    ++ emitted (drawing (prepare (devicePixelRatioF (painter w)) d b) d c)
               (exec (call save) w)
    ++ [restore].
Proof.
  unfold paintBody. rewrite emitted_bind by (intros; appends_tac).
  rewrite emitted_getDevicePixelRatioF. cbn [app fst snd getDevicePixelRatioF].
  rewrite emitted_bind by (intros; appends_tac). rewrite emitted_call.
  rewrite emitted_bind by (intros; appends_tac).
  rewrite emitted_bind by (intros; appends_tac).
  rewrite emitted_call, emitted_ret, app_nil_r. reflexivity.
Qed.


End PaintTheorems.

Lemma suffix_app {A : Type} (l1 l2 s : list A) :
  (exists p, l2 = p ++ s) -> exists p, l1 ++ l2 = p ++ s.
Proof. intros [p ->]. exists (l1 ++ p). apply app_assoc. Qed.

Section IconTheorems.

Context {env : Environment}.

Lemma iconsPainted_paintSmallSizedButtonBackground (b : Button) (w : World) :
  iconsPainted (emitted (paintSmallSizedButtonBackground b) w) = [].
Proof.
  unfold paintSmallSizedButtonBackground.
  destruct (negb (isValid (m_backgroundColor b)) && negb (isValid (m_outlineColor b)));
    [ now rewrite emitted_ret | ].
  destruct (decoration b) as [d|]; [ | now rewrite emitted_ret ].
  destruct (isValid (m_outlineColor b)), (isValid (m_backgroundColor b)),
    (smallShape (internalSettings d));
    emitted_norm; rewrite ?iconsPainted_app; reflexivity.
Qed.

Lemma iconsPainted_paintFullHeightButtonBackground (b : Button) (w : World) :
  iconsPainted (emitted (paintFullHeightButtonBackground b) w) = [].
Proof.
  unfold paintFullHeightButtonBackground.
  destruct (negb (isValid (m_backgroundColor b)) && negb (isValid (m_outlineColor b)));
    [ now rewrite emitted_ret | ].
  destruct (decoration b) as [d|]; [ | now rewrite emitted_ret ].
  destruct (fullHeightPaths b d) as [[background outline] usingPath].
  destruct (isValid (m_backgroundColor b));
    emitted_norm; split_ifs; rewrite ?iconsPainted_app; reflexivity.
Qed.

Lemma emitted_renderIconFor (b : Button) (w : World) :
  emitted (renderIconFor b) w = map render (iconFor (btype b) (isChecked b)).
Proof.
  unfold renderIconFor, iconFor.
  destruct (btype b), (isChecked b); emitted_norm; reflexivity.
Qed.

Lemma iconsPainted_drawIcon (b : Button) (w : World) :
  iconsPainted (emitted (drawIcon b) w) = [].
Proof.
  unfold drawIcon. destruct (decoration b) as [d|]; [ | now rewrite emitted_ret ].
  emitted_norm. rewrite ?iconsPainted_app.
  repeat match goal with
         | |- context [iconsPainted (if ?c then ?x else ?y)] =>
             replace (iconsPainted (if c then x else y))
               with (if c then iconsPainted x else iconsPainted y) by (now destruct c)
         end.
  rewrite ?iconsPainted_paintFullHeightButtonBackground,
    ?iconsPainted_paintSmallSizedButtonBackground.
  emitted_norm. rewrite ?iconsPainted_app, ?emitted_renderIconFor.
  destruct (btype b), (isChecked b); split_ifs; reflexivity.
Qed.

Lemma paintMenuIcon_icons (b : Button) (d : Decoration) (c : DecoratedClient) (w : World) :
  rendered (emitted (paintMenuIcon b d c) w) = []
  /\ iconsPainted (emitted (paintMenuIcon b d c) w) = [icon c].
Proof.
  unfold paintMenuIcon. emitted_norm.
  rewrite ?rendered_app, ?iconsPainted_app.
  repeat match goal with
         | |- context [emitted (if ?c then ?x else ?y) ?w] =>
             replace (emitted (if c then x else y) w) with (@nil PaintCommand)
               by (destruct c; now emitted_norm)
         end.
  destruct (ButtonBackgroundType_eqb (buttonBackgroundType d) FullHeight
            && negb (isStandAlone b || m_isGtkCsdButton b));
    rewrite ?rendered_paintFullHeightButtonBackground,
      ?iconsPainted_paintFullHeightButtonBackground; split; reflexivity.
Qed.

(** Claim C5, as amended. When the button has a decoration and its
    foreground colour is valid, [drawIcon] renders exactly the icon of the
    button type: close; restore when checked and maximize otherwise;
    minimize; pinned when checked and pin otherwise; unshade when checked and
    shade otherwise; keep-behind; keep-in-front; application menu; context
    help. When the foreground colour is invalid it renders no icon. In
    [paint], the menu button has the client's window icon painted and no
    icon rendered; every other button has no window icon painted. *)
Theorem icon_rendered_for_type :
  forall (b : Button) (d : Decoration) (c : DecoratedClient) (w : World),
    decoration b = Some d ->
    (isValid (m_foregroundColor b) = true ->
     rendered (emitted (drawIcon b) w) = iconFor (btype b) (isChecked b))
    /\ (isValid (m_foregroundColor b) = false -> rendered (emitted (drawIcon b) w) = [])
    /\ (let b' := prepare (devicePixelRatioF (painter w)) d b in
        rendered (emitted (paintBody b d c) w)
        = (if isValid (m_foregroundColor b') then iconFor (btype b) (isChecked b) else [])
        /\ iconsPainted (emitted (paintBody b d c) w)
           = match btype b with Menu => [icon c] | _ => [] end).
Proof.
  intros b d c w Hd. repeat apply conj.
  - intros Hf. rewrite rendered_drawIcon, Hd, Hf. reflexivity.
  - intros Hf. rewrite rendered_drawIcon, Hd, Hf. reflexivity.
  - rewrite emitted_paintBody, !rendered_app. cbn [rendered flat_map app].
    rewrite app_nil_r. set (b' := prepare _ d b).
    assert (Hk : btype b' = btype b /\ isChecked b' = isChecked b
                 /\ decoration b' = decoration b).
    { subst b'. rewrite prepare_measured.
      destruct (after_resolve_fields (resolveColors d (measured (devicePixelRatioF (painter w)) d b)))
        as (_ & _ & T & C & _).
      destruct (resolveColors_keeps d (measured (devicePixelRatioF (painter w)) d b))
        as (T' & C' & _).
      destruct (measured_same (devicePixelRatioF (painter w)) d b)
        as ((T'' & _ & _ & C'' & D'') & _).
      rewrite T, T', T'', C, C', C''. repeat split.
      unfold fitToGeometry, cacheColors, resolveColors.
      destruct (backgroundColor _ false). split_ifs; cbn; exact D''. }
    destruct Hk as (T & C & D). unfold drawing. rewrite T.
    destruct (btype b) eqn:E;
      try (rewrite rendered_drawIcon, D, Hd, ?T, ?C, ?E; reflexivity).
    destruct (paintMenuIcon_icons b' d c (exec (call save) w)) as [R _].
    rewrite R. now destruct (isValid (m_foregroundColor b')).
  - rewrite emitted_paintBody, !iconsPainted_app. cbn [iconsPainted flat_map app].
    rewrite app_nil_r. set (b' := prepare _ d b).
    assert (T : btype b' = btype b).
    { subst b'. rewrite prepare_measured.
      destruct (after_resolve_fields (resolveColors d (measured (devicePixelRatioF (painter w)) d b)))
        as (_ & _ & T & _).
      destruct (resolveColors_keeps d (measured (devicePixelRatioF (painter w)) d b))
        as (T' & _).
      destruct (measured_same (devicePixelRatioF (painter w)) d b) as ((T'' & _) & _).
      now rewrite T, T', T''. }
    unfold drawing. rewrite T.
    destruct (btype b); try apply iconsPainted_drawIcon.
    apply (paintMenuIcon_icons b' d c).
Qed.

(** Claim C7, as amended. [paint] sets the standard scaled pen width to
    [PenWidth::Symbol] times the device pixel ratio for every button. When
    the foreground colour is valid, [drawIcon] sets the icon pen right
    before it creates the renderer and renders the icon. For a button that
    is not a GTK CSD button that pen is cosmetic and has the standard scaled
    width; for a GTK CSD button it is not cosmetic and its width is the
    unscaled [PenWidth::Symbol]. *)
Theorem icon_pen_width :
  forall (b : Button) (d : Decoration) (r : qreal) (w : World),
    decoration b = Some d ->
    let b' := prepare r d b in
    m_standardScaledPenWidth b' = (PenWidth_Symbol * m_devicePixelRatio b')%Q
    /\ (isValid (m_foregroundColor b') = true ->
        exists args before,
          emitted (drawIcon b') w
          = before ++ setPen (Some (iconPen b')) :: createIconRenderer args
                   :: map render (iconFor (btype b') (isChecked b')))
    /\ (m_isGtkCsdButton b = false ->
        m_isGtkCsdButton b' = false
        /\ penCosmetic (iconPen b') = true
        /\ penWidthF (iconPen b') = (PenWidth_Symbol * m_devicePixelRatio b')%Q)
    /\ (m_isGtkCsdButton b = true ->
        m_isGtkCsdButton b' = true
        /\ penCosmetic (iconPen b') = false
        /\ penWidthF (iconPen b') = PenWidth_Symbol).
Proof.
  intros b d r w Hd b'.
  assert (Hk : m_isGtkCsdButton b' = m_isGtkCsdButton b
               /\ m_standardScaledPenWidth b'
                  = (PenWidth_Symbol * m_devicePixelRatio b')%Q
               /\ decoration b' = Some d).
  { subst b'. rewrite prepare_measured.
    destruct (after_resolve_fields (resolveColors d (measured r d b)))
      as (_ & _ & _ & _ & G & R & P).
    destruct (resolveColors_keeps d (measured r d b)) as (_ & _ & G' & R' & P').
    destruct (measured_same r d b) as ((_ & _ & _ & _ & D'') & _ & _ & G'' & P'').
    rewrite G, G', G'', P, P', P'', R, R'. repeat split.
    unfold fitToGeometry, cacheColors, resolveColors.
    destruct (backgroundColor _ false). rewrite <- Hd. split_ifs; cbn; exact D''. }
  destruct Hk as (G & P & D). repeat apply conj.
  - exact P.
  - intros Hf. unfold drawIcon. rewrite D. emitted_norm. rewrite Hf.
    rewrite emitted_renderIconFor. cbv iota. eexists.
    repeat first [ solve [ exists []; reflexivity ] | apply suffix_app ].
  - intros Hg. unfold iconPen. rewrite G, Hg. cbn. rewrite <- P. repeat split.
  - intros Hg. unfold iconPen. rewrite G, Hg. cbn. repeat split.
Qed.

End IconTheorems.

(** ** Outlines under low contrast *)

Lemma when_valid (c : bool) (v : QColor) : isValid (when c v) = true -> c = true.
Proof. destruct c; [ reflexivity | discriminate ]. Qed.

Section LowContrast.

Context {env : Environment}.

Ltac split_settings b d :=
  destruct (btype b), (backgroundColors (internalSettings d)); try discriminate;
  cbn;
  repeat match goal with
         | |- context [if ?c then _ else _] => destruct c eqn:?
         end;
  cbn.

Lemma backgroundPalette_flags (b : Button) (d : Decoration) :
  isAccent (internalSettings d) = true ->
  let pal := backgroundPalette b d in
  let p := m_buttonBehaviouralParameters d in
  (isValid (normalColor pal) = true -> appliesAlways b p = true)
  /\ (isValid (hoverColor pal) = true -> appliesOnHover b p = true)
  /\ (isValid (focusColor pal) = true -> appliesOnFocus b p = true).
Proof.
  unfold backgroundPalette, appliesAlways, appliesOnHover, appliesOnFocus, isAccent.
  intros Ha. cbn zeta. unfold isAccent.
  split_settings b d; repeat split; intros H; try discriminate H; try reflexivity;
    try (apply when_valid in H; congruence).
Qed.

Lemma outlinePalette_valid (b : Button) (d : Decoration) :
  isAccent (internalSettings d) = true ->
  outlineColorsValid g_decorationColors ->
  let pal := outlinePalette b d (orFlags (m_buttonBehaviouralParameters d)) in
  let p := m_buttonBehaviouralParameters d in
  (appliesAlways b p = true -> isValid (normalColor pal) = true)
  /\ (appliesOnHover b p = true -> isValid (hoverColor pal) = true)
  /\ (appliesOnFocus b p = true -> isValid (focusColor pal) = true).
Proof.
  unfold outlinePalette, appliesAlways, appliesOnHover, appliesOnFocus, isAccent, orFlags.
  intros Ha (V1 & V2 & V3 & V4 & V5 & V6 & V7 & V8). cbn zeta.
  cbn [local_drawOutlineAlways local_drawOutlineOnHover local_drawOutlineOnFocus
       local_drawCloseOutlineAlways local_drawCloseOutlineOnHover
       local_drawCloseOutlineOnFocus].
  destruct (btype b), (backgroundColors (internalSettings d)); try discriminate; cbn;
    repeat split; intros H; rewrite ?H, ?orb_true_r in *; cbn;
    repeat match goal with
           | |- context [if ?c then _ else _] => destruct c eqn:?
           end; cbn; try assumption; try discriminate.
Qed.

Lemma correctOutline_valid (d : Decoration) (c : QColor) :
  libraryKeepsValid -> isValid (fontColor d) = true ->
  isValid c = true -> isValid (correctOutline d c) = true.
Proof.
  intros [Hmix _] Hf Hc. unfold correctOutline. rewrite Hc. cbn.
  destruct (Qltb _ _); auto.
Qed.

(** Claim C9. In [paint], when the background colours setting is not
    [ColorsTitlebarText] and the contrast ratio of the resolved background
    colour to the title bar colour is below 1.3, the low-contrast flag is
    set, each of the six flags [outlineColor] works with is the OR of the
    outline flag with the corresponding background flag, and the outline
    colour is resolved from those. So, where the palette's outline colours
    and the font colour are valid and the colour library keeps colours
    valid, an outline colour is resolved whenever a background colour is. *)
Theorem low_contrast_outline_follows_background :
  forall (b : Button) (d : Decoration) (r : qreal),
    decoration b = Some d ->
    backgroundColors (internalSettings d) <> ColorsTitlebarText ->
    (KColorUtils_contrastRatio (fst (backgroundColor b false)) (titleBarColor d) < 1.3)%Q ->
    let b' := prepare r d b in
    let flags := orFlags (m_buttonBehaviouralParameters d) in
    m_lowContrastBetweenTitleBarAndBackground b' = true
    /\ outlineFlags b' d = flags
    /\ m_outlineColor b' = outlineForState b d false (correctedOutlinePalette b d flags)
    /\ (outlineColorsValid g_decorationColors -> libraryKeepsValid ->
        isValid (fontColor d) = true ->
        isValid (m_backgroundColor b') = true -> isValid (m_outlineColor b') = true).
Proof.
  intros b d r Hd Hbg Hlt b' flags.
  destruct (prepare_colors r d b) as (B & F & L & O). fold b' in B, F, L, O.
  assert (Hacc : isAccent (internalSettings d) = true).
  { unfold isAccent.
    destruct (backgroundColors (internalSettings d)); first [ reflexivity | now elim Hbg ]. }
  assert (Hlow : lowContrast d b = true).
  { unfold lowContrast. apply andb_true_iff. split.
    - destruct (backgroundColors (internalSettings d));
        first [ reflexivity | now elim Hbg ].
    - now apply Qltb_lt. }
  assert (Hout : m_outlineColor b'
                 = outlineForState b d false (correctedOutlinePalette b d flags)).
  { rewrite O, Hlow. unfold outlineColor. cbn [decoration with_m_lowContrastBetweenTitleBarAndBackground].
    rewrite Hd. reflexivity. }
  repeat apply conj.
  - now rewrite L.
  - unfold outlineFlags. rewrite L, Hlow. reflexivity.
  - exact Hout.
  - intros Hpal Hlib Hfont Hvalid. rewrite Hout. rewrite B in Hvalid.
    destruct (backgroundPalette_flags b d Hacc) as (Bn & Bh & Bf).
    destruct (outlinePalette_valid b d Hacc Hpal) as (On & Oh & Of).
    fold flags in On, Oh, Of.
    assert (Cn : isValid (normalColor (backgroundPalette b d)) = true ->
                 isValid (normalColor (correctedOutlinePalette b d flags)) = true).
    { intros H. unfold correctedOutlinePalette. rewrite Hacc. cbn.
      apply correctOutline_valid; auto. }
    assert (Ch : isValid (hoverColor (backgroundPalette b d)) = true ->
                 isValid (hoverColor (correctedOutlinePalette b d flags)) = true).
    { intros H. unfold correctedOutlinePalette. rewrite Hacc. cbn.
      apply correctOutline_valid; auto. }
    assert (Cf : isValid (focusColor (backgroundPalette b d)) = true ->
                 isValid (focusColor (correctedOutlinePalette b d flags)) = true).
    { intros H. unfold correctedOutlinePalette. rewrite Hacc. cbn.
      apply correctOutline_valid; auto. }
    clear Bn Bh Bf On Oh Of B F L O Hout.
    destruct Hlib as [Hmix Halpha].
    unfold backgroundColor in Hvalid. rewrite Hd in Hvalid.
    unfold outlineForState. rewrite Hacc in *.
    set (pal := backgroundPalette b d) in *.
    set (opal := correctedOutlinePalette b d flags) in *.
    rewrite (andb_comm (isChecked b)).
    destruct (((btype b =T= KeepBelow) || (btype b =T= KeepAbove) || (btype b =T= Shade))
              && isChecked b); [ cbn in Hvalid; auto | ].
    destruct ((btype b =T= OnAllDesktops) && isChecked b); cbn [andb] in *;
      [ cbn in Hvalid; auto | ].
    destruct (isPressed b); [ cbn in Hvalid; auto | ].
    destruct (isRunning b && negb false).
    + destruct (isValid (hoverColor pal)) eqn:Hh.
      * rewrite (Ch eq_refl). rewrite andb_true_r.
        destruct (isValid (m_preAnimationOutlineColor b)) eqn:Hp; auto.
      * rewrite andb_false_r in Hvalid. discriminate Hvalid.
    + destruct (isHovered b); cbn in Hvalid; auto.
Qed.

End LowContrast.

(** * Further properties *)

(** ** The dialog: saving and tracking changes *)

Module DialogFacts.

Import TitleBarOpacity.

(** Property X1. Saving is idempotent: saving the dialog again over the
    settings it has just persisted persists the same settings. *)
Theorem save_twice_is_save_once :
  forall (dlg : t) (stored : InternalSettings),
    persisted (persisted stored dlg) dlg = persisted stored dlg.
Proof.
  intros [ui s ta ti ch] stored. unfold persisted, setterCalls, guarded.
  cbn [m_ui m_internalSettings m_translucentActiveSchemeColor
       m_translucentInactiveSchemeColor m_changed].
  destruct ta, ti, (Ui.overrideActiveTitleBarOpacity ui); reflexivity.
Qed.

(** Property X2. Saving the dialog never alters a button setting, and it
    leaves an override flag as stored when the scheme colour of its side is
    opaque; the three check boxes of the dialog are always persisted. *)
Theorem save_alters_opacity_settings_only :
  forall (dlg : t) (stored : InternalSettings),
    sameButtonSettings (persisted stored dlg) stored
    /\ overrideActiveTitleBarOpacity (persisted stored dlg)
       = (if m_translucentActiveSchemeColor dlg
          then Ui.overrideActiveTitleBarOpacity (m_ui dlg)
          else overrideActiveTitleBarOpacity stored)
    /\ overrideInactiveTitleBarOpacity (persisted stored dlg)
       = (if m_translucentInactiveSchemeColor dlg
          then Ui.overrideInactiveTitleBarOpacity (m_ui dlg)
          else overrideInactiveTitleBarOpacity stored)
    /\ opaqueMaximizedTitlebars (persisted stored dlg) = Ui.opaqueMaximizedTitlebars (m_ui dlg)
    /\ blurTransparentTitlebars (persisted stored dlg) = Ui.blurTransparentTitlebars (m_ui dlg)
    /\ applyOpacityToHeader (persisted stored dlg) = Ui.applyOpacityToHeader (m_ui dlg).
Proof.
  intros [ui s ta ti ch] stored. unfold persisted, setterCalls, guarded, sameButtonSettings.
  cbn [m_ui m_internalSettings m_translucentActiveSchemeColor
       m_translucentInactiveSchemeColor m_changed].
  destruct ta, ti, (Ui.overrideActiveTitleBarOpacity ui); cbn; repeat split.
Qed.

Lemma eqb_refl_false (x : bool) : negb (Bool.eqb x x) = false.
Proof. now destruct x. Qed.

Lemma Zeqb_refl_false (x : Z) : negb (x =? x) = false.
Proof. now rewrite Z.eqb_refl. Qed.

(** Property X3. Right after [save] the dialog counts as unchanged and its
    Apply button is disabled. A following [updateChanged] keeps it so, except
    in one case, where it reports a change again: the inactive scheme colour is
    translucent, the inactive override box is checked, the active side does
    not have both a translucent colour and a checked override box, and the
    inactive opacity in the dialog differs from the stored one (which [save]
    has then not overwritten). While the dialog is loading, [updateChanged]
    changes nothing. *)
Theorem save_then_updateChanged :
  forall (dlg : TitleBarOpacityDialog.t) (stored : InternalSettings) (reload : bool),
    let saved := fst (TitleBarOpacityDialog.save reload stored dlg) in
    let ui := m_ui (TitleBarOpacityDialog.base dlg) in
    m_changed (TitleBarOpacityDialog.base saved) = false
    /\ Ui.applyButtonEnabled (m_ui (TitleBarOpacityDialog.base saved)) = false
    /\ m_changed (TitleBarOpacityDialog.base (fst (TitleBarOpacityDialog.updateChanged saved)))
       = negb (TitleBarOpacityDialog.m_loading dlg)
         && m_translucentInactiveSchemeColor (TitleBarOpacityDialog.base dlg)
         && Ui.overrideInactiveTitleBarOpacity ui
         && negb (m_translucentActiveSchemeColor (TitleBarOpacityDialog.base dlg)
                  && Ui.overrideActiveTitleBarOpacity ui)
         && negb (Ui.inactiveTitlebarOpacity ui =? inactiveTitlebarOpacity stored).
Proof.
  intros [[ui s ta ti ch] loading] stored reload.
  unfold TitleBarOpacityDialog.save, TitleBarOpacityDialog.updateChanged, save, setChanged,
    TitleBarOpacityDialog.modified, setterCalls, guarded.
  cbn [TitleBarOpacityDialog.base TitleBarOpacityDialog.m_loading m_ui m_internalSettings
       m_translucentActiveSchemeColor m_translucentInactiveSchemeColor m_changed fst snd].
  destruct loading, ta, ti, (Ui.overrideActiveTitleBarOpacity ui) eqn:Eoa,
    (Ui.overrideInactiveTitleBarOpacity ui) eqn:Eoi;
    cbn; rewrite ?Eoa, ?Eoi, ?eqb_refl_false, ?Zeqb_refl_false; cbn;
    repeat split;
    try (destruct (Ui.inactiveTitlebarOpacity ui =? inactiveTitlebarOpacity stored);
         cbn; reflexivity).
Qed.

End DialogFacts.

(** ** The resolvers without animation, and the contrast colour *)

Section ResolverFurther.

Context {env : Environment}.

Lemma backgroundColor_nonAnimated (b1 b2 : Button) :
  sameInputs b1 b2 ->
  backgroundColor b1 true = backgroundColor b2 true
  /\ (isRunning b2 = false -> forall g, backgroundColor b1 true = backgroundColor b2 g).
Proof.
  intros (Ht & Hh & Hp & Hc & Hd).
  unfold backgroundColor, backgroundPalette. rewrite Hd.
  destruct (decoration b2) as [d|]; [ | split; reflexivity ].
  rewrite Ht, Hh, Hp, Hc. cbn [negb]. rewrite !andb_false_r. split; [ reflexivity | ].
  intros R g. now rewrite R.
Qed.

Lemma outlineColor_nonAnimated (b1 b2 : Button) :
  sameInputs b1 b2 ->
  m_lowContrastBetweenTitleBarAndBackground b1
  = m_lowContrastBetweenTitleBarAndBackground b2 ->
  outlineColor b1 true = outlineColor b2 true
  /\ (isRunning b2 = false -> forall g, outlineColor b1 true = outlineColor b2 g).
Proof.
  intros (Ht & Hh & Hp & Hc & Hd) Hlow.
  unfold outlineColor, outlineForState, correctedOutlinePalette, outlinePalette, outlineFlags.
  rewrite Hd. destruct (decoration b2) as [d|]; [ | split; reflexivity ].
  rewrite Ht, Hh, Hp, Hc, Hlow. cbn [negb]. rewrite !andb_false_r.
  split; [ reflexivity | ]. intros R g. now rewrite R.
Qed.

(** Property X4. Asked for the non-animated colour, [backgroundColor] and
    [outlineColor] ignore the animation altogether: two states of a button
    with the same button type, interaction state and decoration (and, for the
    outline, the same low-contrast flag) get the same colours, whether the
    animation runs or not and whatever its value and the cached colours are;
    and these are the colours the button gets at rest. *)
Theorem nonAnimated_colors_ignore_animation :
  forall (b1 b2 : Button),
    sameInputs b1 b2 ->
    backgroundColor b1 true = backgroundColor b2 true
    /\ (isRunning b2 = false -> forall g, backgroundColor b1 true = backgroundColor b2 g)
    /\ (m_lowContrastBetweenTitleBarAndBackground b1
        = m_lowContrastBetweenTitleBarAndBackground b2 ->
        outlineColor b1 true = outlineColor b2 true
        /\ (isRunning b2 = false -> forall g, outlineColor b1 true = outlineColor b2 g)).
Proof.
  intros b1 b2 Hs.
  destruct (backgroundColor_nonAnimated b1 b2 Hs) as [B1 B2].
  split; [ exact B1 | split; [ exact B2 | ] ].
  intros Hlow. now apply outlineColor_nonAnimated.
Qed.

(** Property X5. The colour the foreground is contrasted with: with
    translucent button backgrounds or the title-bar text colours there is
    none, and the foreground colour [paint] resolves is the one for no
    contrast colour; with opaque accent colours it is the background colour
    itself, except while the hover animation is shown, when it is the hover
    colour the animation heads for, not the blended colour. *)
Theorem contrast_color_of_background :
  forall (b : Button) (d : Decoration) (g : bool),
    decoration b = Some d ->
    let s := internalSettings d in
    (translucentButtonBackgrounds s = true \/ backgroundColors s = ColorsTitlebarText ->
     snd (backgroundColor b g) = invalidColor
     /\ m_foregroundColor (resolveColors d b) = foregroundColor b invalidColor)
    /\ (translucentButtonBackgrounds s = false -> backgroundColors s <> ColorsTitlebarText ->
        (isRunning b && negb g = false -> snd (backgroundColor b g) = fst (backgroundColor b g))
        /\ (isRunning b && negb g = true -> isPressed b = false ->
            isCheckedToggleButton b = false ->
            isValid (hoverColor (backgroundPalette b d)) = true ->
            snd (backgroundColor b g) = hoverColor (backgroundPalette b d))).
Proof.
  intros b d g Hd s. subst s. split.
  - intros H.
    assert (Hn : negb (translucentButtonBackgrounds (internalSettings d))
                 && isAccent (internalSettings d) = false).
    { destruct H as [H | H]; [ now rewrite H | ].
      unfold isAccent. rewrite H. apply andb_false_r. }
    assert (Hs : forall g', snd (backgroundColor b g') = invalidColor).
    { intros g'. unfold backgroundColor. rewrite Hd, Hn. split_ifs; reflexivity. }
    split; [ apply Hs | ].
    destruct (resolveColors_fields d b) as (_ & F & _). rewrite F. now rewrite Hs.
  - intros Ht Hc.
    assert (Hn : negb (translucentButtonBackgrounds (internalSettings d))
                 && isAccent (internalSettings d) = true).
    { rewrite Ht. unfold isAccent.
      destruct (backgroundColors (internalSettings d)); first [ reflexivity | now elim Hc ]. }
    split.
    + intros Hr. unfold backgroundColor. rewrite Hd, Hn, Hr. split_ifs; reflexivity.
    + intros Hr Hp Hck Hv. unfold backgroundColor. rewrite Hd, Hn, Hr, Hp, Hv.
      unfold isCheckedToggleButton in Hck.
      destruct (isChecked b), (btype b); cbn in Hck; try discriminate Hck; cbn;
        split_ifs; reflexivity.
Qed.

(** Property X6. The override colour of the thin window outline does not
    depend on the animation: two states of a button with the same button
    type, interaction state, decoration, flag and low-contrast flag make the
    same call. A call that switches the override on passes the non-animated
    outline colour when it is valid and the non-animated background colour
    otherwise. A call that switches it off passes no colour and is made only
    when no other button is hovered or pressed and this button is hovered or
    not pressed. Without the setting, for a standalone button or without a
    decoration no call is made. *)
Theorem thin_window_outline_override :
  forall (on : bool) (b : Button) (others : list Button),
    (forall b2,
        sameInputs b b2 -> m_flag b = m_flag b2 ->
        m_lowContrastBetweenTitleBarAndBackground b
        = m_lowContrastBetweenTitleBarAndBackground b2 ->
        updateThinWindowOutlineWithButtonColor on b others
        = updateThinWindowOutlineWithButtonColor on b2 others)
    /\ (forall c, updateThinWindowOutlineWithButtonColor true b others = Some c ->
                  c = (true, if isValid (outlineColor b true)
                             then outlineColor b true
                             else fst (backgroundColor b true)))
    /\ (forall c, updateThinWindowOutlineWithButtonColor false b others = Some c ->
                  c = (false, invalidColor)
                  /\ (isHovered b = true \/ isPressed b = false)
                  /\ forall o, In o others -> isHovered o = false /\ isPressed o = false)
    /\ (forall c, updateThinWindowOutlineWithButtonColor on b others = Some c ->
                  isStandAlone b = false
                  /\ exists d, decoration b = Some d
                               /\ colorizeThinWindowOutlineWithButton (internalSettings d)
                                  = true).
Proof.
  intros on b others. repeat apply conj.
  - intros b2 Hs Hf Hlow. unfold updateThinWindowOutlineWithButtonColor, backgroundColor1,
      isStandAlone.
    destruct (backgroundColor_nonAnimated b b2 Hs) as [B _].
    destruct (outlineColor_nonAnimated b b2 Hs Hlow) as [O _].
    destruct Hs as (Ht & Hh & Hp & Hc & Hd). now rewrite Hd, Hf, B, O, Hh, Hp.
  - intros c. unfold updateThinWindowOutlineWithButtonColor, backgroundColor1.
    destruct (decoration b) as [d|]; [ | discriminate ].
    destruct (negb _ || isStandAlone b); [ discriminate | ].
    intros [= <-]. now destruct (isValid (outlineColor b true)).
  - intros c. unfold updateThinWindowOutlineWithButtonColor.
    destruct (decoration b) as [d|]; [ | discriminate ].
    destruct (negb _ || isStandAlone b); [ discriminate | ].
    destruct (negb (isHovered b) && isPressed b) eqn:E1; [ discriminate | ].
    destruct (existsb _ others) eqn:E2; [ discriminate | ].
    intros [= <-]. split; [ reflexivity | split ].
    + destruct (isHovered b), (isPressed b); cbn in E1; auto; discriminate.
    + intros o Ho.
      destruct (isHovered o || isPressed o) eqn:E3.
      * assert (existsb (fun button => isHovered button || isPressed button) others = true)
          by (apply existsb_exists; exists o; auto).
        congruence.
      * now apply orb_false_iff in E3.
  - intros c. unfold updateThinWindowOutlineWithButtonColor.
    destruct (decoration b) as [d|]; [ | discriminate ].
    destruct (colorizeThinWindowOutlineWithButton (internalSettings d)) eqn:E1;
      [ | discriminate ].
    destruct (isStandAlone b) eqn:E2; [ discriminate | ].
    intros _. split; [ reflexivity | ]. exists d. auto.
Qed.

End ResolverFurther.

(** ** Creating a button *)

(** Property X7. A button that [Button::create] returns is visible exactly
    when the client can do what the button is for, for the close, maximize,
    minimize, context help and shade buttons; a button of any other type keeps
    the visibility it is constructed with. The button has the device's
    default geometry: a square of the small padded button height. *)
Theorem created_button_visibility :
  forall (type : DecorationButtonType) (d : Decoration) (c : DecoratedClient) (kded5 : bool)
         (members : Button),
    client d = Some c ->
    exists b,
      create type (breezeDecoration d) kded5 members = returned (Some b)
      /\ isVisible b = match capabilityFor type c with
                       | Some capable => capable
                       | None => isVisible members
                       end
      /\ m_isGtkCsdButton b = kded5
      /\ m_smallButtonPaddedSize b
         = mkSize (smallButtonPaddedHeight d) (smallButtonPaddedHeight d)
      /\ m_iconSize b = mkSize (iconHeight d) (iconHeight d).
Proof.
  intros type d c kded5 members Hc. unfold create, Button_new. cbn [qobject_cast].
  rewrite Hc. eexists. split; [ reflexivity | ].
  destruct type; cbn; repeat split.
Qed.

(** ** What paint leaves in the button *)


Section AfterPaint.

Context {env : Environment}.

(** Property X8. The colours cached for future animations: a paint at rest
    (no animation running, pointer not over the button) caches the three
    colours it has just resolved; a paint while the animation runs or the
    pointer is over the button leaves the cache as it was. *)
Theorem paint_caches_colors_at_rest :
  forall (b : Button) (d : Decoration) (r : qreal),
    decoration b = Some d ->
    let b' := prepare r d b in
    (isRunning b = false -> isHovered b = false ->
     (m_preAnimationBackgroundColor b', m_preAnimationForegroundColor b',
      m_preAnimationOutlineColor b') = resolved b')
    /\ (isRunning b = true \/ isHovered b = true ->
        m_preAnimationBackgroundColor b' = m_preAnimationBackgroundColor b
        /\ m_preAnimationForegroundColor b' = m_preAnimationForegroundColor b
        /\ m_preAnimationOutlineColor b' = m_preAnimationOutlineColor b).
Proof.
  intros b d r Hd b'. subst b'. rewrite prepare_measured.
  destruct (measured_same r d b) as ((_ & Hh & _) & (Hr & _ & Pf & Pb & Po) & _).
  set (m := measured r d b) in *.
  assert (Hk : isRunning (resolveColors d m) = isRunning m
               /\ isHovered (resolveColors d m) = isHovered m
               /\ m_preAnimationBackgroundColor (resolveColors d m)
                  = m_preAnimationBackgroundColor m
               /\ m_preAnimationForegroundColor (resolveColors d m)
                  = m_preAnimationForegroundColor m
               /\ m_preAnimationOutlineColor (resolveColors d m)
                  = m_preAnimationOutlineColor m).
  { unfold resolveColors. destruct (backgroundColor m false). repeat split. }
  destruct Hk as (Kr & Kh & Kb & Kf & Ko).
  set (c := resolveColors d m) in *.
  unfold fitToGeometry, cacheColors, resolved. rewrite Kr, Kh, Hr, Hh. split.
  - intros R H. rewrite R, H. cbn [negb andb]. split_ifs; reflexivity.
  - intros H.
    assert (E : negb (isRunning b) && negb (isHovered b) = false)
      by (destruct H as [-> | ->]; [ reflexivity | apply andb_false_r ]).
    rewrite E. rewrite <- Pb, <- Pf, <- Po, <- Kb, <- Kf, <- Ko.
    split_ifs; repeat split.
Qed.




End AfterPaint.

(** ** The painter's transform and its stack of saved states *)

Lemma keepsPainter_keepsStack {A : Type} (m : Paint A) : keepsPainter m -> keepsStack m.
Proof. intros H w. destruct (H w) as (S & R & _). now split. Qed.

Lemma keepsStack_ret {A : Type} (a : A) : keepsStack (ret a).
Proof. intros w. now split. Qed.

Lemma keepsStack_call (c : PaintCommand) : isPlain c = true -> keepsStack (call c).
Proof. intros H w. destruct c; try discriminate H; now split. Qed.

Lemma keepsStack_translateBy (p : QPointF) : keepsStack (translateBy p).
Proof. now apply keepsStack_call. Qed.

Lemma keepsStack_bind {A B : Type} (m : Paint A) (k : A -> Paint B) :
  keepsStack m -> (forall a, keepsStack (k a)) -> keepsStack (bind m k).
Proof.
  intros Hm Hk w. unfold bind. destruct (Hm w) as [H1 H2]. destruct (m w) as [a w'].
  destruct (Hk a w') as [H3 H4]. simpl in *. split; congruence.
Qed.

Lemma keepsStack_whenP (c : bool) (m : Paint unit) : keepsStack m -> keepsStack (whenP c m).
Proof. destruct c; simpl; auto using keepsStack_ret. Qed.

Lemma keepsPainter_ret {A : Type} (a : A) : keepsPainter (ret a).
Proof. intros w. now repeat split. Qed.

Lemma keepsPainter_call (c : PaintCommand) :
  match c with save | restore | translate _ _ | scale _ _ => False | _ => True end ->
  keepsPainter (call c).
Proof. intros H w. destruct c; try contradiction; now repeat split. Qed.

Lemma keepsPainter_bind {A B : Type} (m : Paint A) (k : A -> Paint B) :
  keepsPainter m -> (forall a, keepsPainter (k a)) -> keepsPainter (bind m k).
Proof.
  intros Hm Hk w. unfold bind. destruct (Hm w) as (H1 & H2 & H3). destruct (m w) as [a w'].
  destruct (Hk a w') as (H4 & H5 & H6). simpl in *. repeat split; congruence.
Qed.

Lemma keepsPainter_whenP (c : bool) (m : Paint unit) :
  keepsPainter m -> keepsPainter (whenP c m).
Proof. destruct c; simpl; auto using keepsPainter_ret. Qed.

Lemma keepsPainter_getDeviceTransform : keepsPainter getDeviceTransform.
Proof. intros w. now repeat split. Qed.

Lemma keepsPainter_getDevicePixelRatioF : keepsPainter getDevicePixelRatioF.
Proof. intros w. now repeat split. Qed.

Lemma keepsPainter_customPalette : keepsPainter customPalette.
Proof. intros w. now repeat split. Qed.

Lemma keepsPainter_setCustomPalette (p : QPalette) : keepsPainter (setCustomPalette p).
Proof. intros w. now repeat split. Qed.

Lemma keepsPainter_resetPalette : keepsPainter resetPalette.
Proof. intros w. now repeat split. Qed.

Lemma endsRestoring_restore : endsRestoring (call restore).
Proof. intros w T S H. simpl. rewrite H. now repeat split. Qed.

Lemma endsRestoring_bind {A B : Type} (m : Paint A) (k : A -> Paint B) :
  keepsStack m -> (forall a, endsRestoring (k a)) -> endsRestoring (bind m k).
Proof.
  intros Hm Hk w T S H. unfold bind. destruct (Hm w) as [H1 H2]. destruct (m w) as [a w'].
  simpl in *. rewrite <- H1 in H. destruct (Hk a w' T S H) as (H3 & H4 & H5).
  repeat split; congruence.
Qed.

Lemma endsRestoring_then {A B : Type} (m : Paint A) (k : A -> Paint B) :
  endsRestoring m -> (forall a, keepsPainter (k a)) -> endsRestoring (bind m k).
Proof.
  intros Hm Hk w T S H. unfold bind. destruct (Hm w T S H) as (H1 & H2 & H3).
  destruct (m w) as [a w']. destruct (Hk a w') as (H4 & H5 & H6). simpl in *.
  repeat split; congruence.
Qed.

(** What [save] opens and a final [restore] closes leaves the painter as it
    was. *)
Lemma keepsPainter_scope {A : Type} (m : Paint A) :
  endsRestoring m -> keepsPainter (call save ;; m).
Proof.
  intros Hm w. unfold bind. cbn [call].
  set (w1 := mkWorld (QPainter_do save (painter w)) (iconLoader w)).
  destruct (Hm w1 (deviceTransform (painter w)) (savedTransforms (painter w)) eq_refl)
    as (H1 & H2 & H3).
  repeat split; assumption.
Qed.

Lemma keepsLoader_ret {A : Type} (a : A) : keepsLoader (ret a).
Proof. intros w. reflexivity. Qed.

Lemma keepsLoader_call (c : PaintCommand) : keepsLoader (call c).
Proof. intros w. reflexivity. Qed.

Lemma keepsLoader_translateBy (p : QPointF) : keepsLoader (translateBy p).
Proof. intros w. reflexivity. Qed.

Lemma keepsLoader_bind {A B : Type} (m : Paint A) (k : A -> Paint B) :
  keepsLoader m -> (forall a, keepsLoader (k a)) -> keepsLoader (bind m k).
Proof.
  intros Hm Hk w. unfold bind. pose proof (Hm w) as H1. destruct (m w) as [a w'].
  pose proof (Hk a w') as H2. simpl in *. congruence.
Qed.

Lemma keepsLoader_whenP (c : bool) (m : Paint unit) : keepsLoader m -> keepsLoader (whenP c m).
Proof. destruct c; simpl; auto using keepsLoader_ret. Qed.

Lemma keepsLoader_getDeviceTransform : keepsLoader getDeviceTransform.
Proof. intros w. reflexivity. Qed.

Lemma keepsLoader_getDevicePixelRatioF : keepsLoader getDevicePixelRatioF.
Proof. intros w. reflexivity. Qed.

Create HintDb painter discriminated.
#[export] Hint Resolve keepsStack_ret keepsStack_translateBy keepsStack_whenP
  keepsPainter_keepsStack keepsPainter_ret keepsPainter_whenP
  keepsPainter_getDeviceTransform keepsPainter_getDevicePixelRatioF
  keepsPainter_customPalette keepsPainter_setCustomPalette keepsPainter_resetPalette
  endsRestoring_restore keepsLoader_ret keepsLoader_call keepsLoader_translateBy
  keepsLoader_whenP keepsLoader_getDeviceTransform keepsLoader_getDevicePixelRatioF : painter.

(** Splits a goal on what a piece of painting code leaves of the painter
    along the structure of the code. *)
Ltac painter_step :=
  match goal with
  | |- keepsPainter (bind (call save) _) => apply keepsPainter_scope
  | |- keepsPainter (bind _ _) => apply keepsPainter_bind; [ | intros ? ]
  | |- keepsPainter (whenP _ _) => apply keepsPainter_whenP
  | |- keepsPainter (call _) => apply keepsPainter_call; exact I
  | |- keepsPainter (if ?c then _ else _) => destruct c
  | |- keepsPainter (match ?x with _ => _ end) => destruct x
  | |- endsRestoring (bind (call restore) _) => apply endsRestoring_then; [ | intros ? ]
  | |- endsRestoring (bind _ _) => apply endsRestoring_bind; [ | intros ? ]
  | |- keepsStack (bind _ _) => apply keepsStack_bind; [ | intros ? ]
  | |- keepsStack (whenP _ _) => apply keepsStack_whenP
  | |- keepsStack (call _) => apply keepsStack_call; reflexivity
  | |- keepsStack (if ?c then _ else _) => destruct c
  | |- keepsStack (match ?x with _ => _ end) => destruct x
  | |- keepsLoader (bind _ _) => apply keepsLoader_bind; [ | intros ? ]
  | |- keepsLoader (whenP _ _) => apply keepsLoader_whenP
  | |- keepsLoader (if ?c then _ else _) => destruct c
  | |- keepsLoader (match ?x with _ => _ end) => destruct x
  | |- _ => solve [ auto with painter ]
  end.

Ltac painter_tac := repeat painter_step.

Section PainterState.

Context {env : Environment}.

Lemma keepsPainter_paintFullHeightButtonBackground (b : Button) :
  keepsPainter (paintFullHeightButtonBackground b).
Proof. unfold paintFullHeightButtonBackground. painter_tac. Qed.

Lemma keepsPainter_paintSmallSizedButtonBackground (b : Button) :
  keepsPainter (paintSmallSizedButtonBackground b).
Proof. unfold paintSmallSizedButtonBackground. painter_tac. Qed.

Lemma keepsLoader_paintFullHeightButtonBackground (b : Button) :
  keepsLoader (paintFullHeightButtonBackground b).
Proof. unfold paintFullHeightButtonBackground. painter_tac. Qed.

Lemma keepsLoader_paintSmallSizedButtonBackground (b : Button) :
  keepsLoader (paintSmallSizedButtonBackground b).
Proof. unfold paintSmallSizedButtonBackground. painter_tac. Qed.

Lemma keepsLoader_renderIconFor (b : Button) : keepsLoader (renderIconFor b).
Proof. unfold renderIconFor. painter_tac. Qed.

Lemma keepsStack_renderIconFor (b : Button) : keepsStack (renderIconFor b).
Proof. unfold renderIconFor. painter_tac. Qed.

Hint Resolve keepsPainter_paintFullHeightButtonBackground
  keepsPainter_paintSmallSizedButtonBackground keepsLoader_paintFullHeightButtonBackground
  keepsLoader_paintSmallSizedButtonBackground keepsLoader_renderIconFor
  keepsStack_renderIconFor : painter.

Lemma keepsStack_drawIcon (b : Button) : keepsStack (drawIcon b).
Proof. unfold drawIcon. painter_tac. Qed.

Lemma keepsLoader_drawIcon (b : Button) : keepsLoader (drawIcon b).
Proof. unfold drawIcon. painter_tac. Qed.

Lemma keepsStack_paintMenuIcon (b : Button) (d : Decoration) (c : DecoratedClient) :
  keepsStack (paintMenuIcon b d c).
Proof. unfold paintMenuIcon. painter_tac. Qed.

Hint Resolve keepsStack_drawIcon keepsLoader_drawIcon keepsStack_paintMenuIcon : painter.

Lemma keepsPainter_paintBody (b : Button) (d : Decoration) (c : DecoratedClient) :
  keepsPainter (paintBody b d c).
Proof. unfold paintBody. painter_tac. Qed.

Lemma prepare_btype (r : qreal) (d : Decoration) (b : Button) :
  btype (prepare r d b) = btype b.
Proof.
  rewrite prepare_measured.
  destruct (after_resolve_fields (resolveColors d (measured r d b))) as (_ & _ & T & _).
  destruct (resolveColors_keeps d (measured r d b)) as (T' & _).
  destruct (measured_same r d b) as ((T'' & _) & _).
  congruence.
Qed.

(** Property X10. [Button::paint] hands the painter back as it found it:
    whatever the button, its settings and the state of the painter, the
    device transform, the stack of saved states and the device pixel ratio of
    the painter are after the call what they were before it, so that the
    translations and the scaling of one button never reach the next one; and
    only the menu button touches the palette of the global icon loader. *)
Theorem paint_leaves_painter_as_found :
  forall (b b' : Button) (w w' : World),
    paint b w = Some (b', w') ->
    deviceTransform (painter w') = deviceTransform (painter w)
    /\ savedTransforms (painter w') = savedTransforms (painter w)
    /\ devicePixelRatioF (painter w') = devicePixelRatioF (painter w)
    /\ (btype b <> Menu -> iconLoader w' = iconLoader w).
Proof.
  intros b b' w w' H. unfold paint in H.
  destruct (decoration b) as [d|] eqn:Hd; [ | injection H as <- <-; auto ].
  destruct (client d) as [c|]; [ | discriminate H ].
  injection H as H.
  destruct (keepsPainter_paintBody b d c w) as (S & R & T). rewrite H in S, R, T.
  cbn [snd] in S, R, T. repeat split; auto.
  intros Hm.
  assert (K : keepsLoader (paintBody b d c)).
  { unfold paintBody. apply keepsLoader_bind; [ auto with painter | intros r ].
    pose proof (prepare_btype r d b) as Ht.
    destruct (btype (prepare r d b)) eqn:E; try (now elim Hm); painter_tac. }
  specialize (K w). now rewrite H in K.
Qed.

End PainterState.

#[export] Hint Resolve keepsPainter_paintFullHeightButtonBackground
  keepsPainter_paintSmallSizedButtonBackground keepsLoader_paintFullHeightButtonBackground
  keepsLoader_paintSmallSizedButtonBackground keepsLoader_renderIconFor
  keepsStack_renderIconFor keepsStack_drawIcon keepsLoader_drawIcon
  keepsStack_paintMenuIcon : painter.

(** ** Where the icon is rendered *)

Lemma renderersCreated_app (l1 l2 : list PaintCommand) :
  renderersCreated (l1 ++ l2) = renderersCreated l1 ++ renderersCreated l2.
Proof. apply flat_map_app. Qed.

Lemma scalings_app (l1 l2 : list PaintCommand) :
  scalings (l1 ++ l2) = scalings l1 ++ scalings l2.
Proof. apply flat_map_app. Qed.

Lemma pathsDrawn_app (l1 l2 : list PaintCommand) :
  pathsDrawn (l1 ++ l2) = pathsDrawn l1 ++ pathsDrawn l2.
Proof. apply flat_map_app. Qed.


Lemma snd_bind {A B : Type} (m : Paint A) (k : A -> Paint B) (w : World) :
  snd (bind m k w) = snd (k (fst (m w)) (snd (m w))).
Proof. unfold bind. now destruct (m w). Qed.

Lemma transform_kept {A : Type} (m : Paint A) (w : World) :
  keepsPainter m -> deviceTransform (painter (snd (m w))) = deviceTransform (painter w).
Proof. intros K. now destruct (K w) as (_ & _ & T). Qed.

Lemma ratio_kept {A : Type} (m : Paint A) (w : World) :
  keepsStack m -> devicePixelRatioF (painter (snd (m w))) = devicePixelRatioF (painter w).
Proof. intros K. now destruct (K w) as (_ & R). Qed.

Section IconPlacement.

Context {env : Environment}.

Lemma quiet_paintSmallSizedButtonBackground (b : Button) (w : World) :
  renderersCreated (emitted (paintSmallSizedButtonBackground b) w) = []
  /\ scalings (emitted (paintSmallSizedButtonBackground b) w) = [].
Proof.
  unfold paintSmallSizedButtonBackground.
  destruct (negb (isValid (m_backgroundColor b)) && negb (isValid (m_outlineColor b)));
    [ now rewrite emitted_ret | ].
  destruct (decoration b) as [d|]; [ | now rewrite emitted_ret ].
  destruct (isValid (m_outlineColor b)), (isValid (m_backgroundColor b)),
    (smallShape (internalSettings d));
    emitted_norm; rewrite ?renderersCreated_app, ?scalings_app; split; reflexivity.
Qed.

Lemma quiet_paintFullHeightButtonBackground (b : Button) (w : World) :
  renderersCreated (emitted (paintFullHeightButtonBackground b) w) = []
  /\ scalings (emitted (paintFullHeightButtonBackground b) w) = [].
Proof.
  unfold paintFullHeightButtonBackground.
  destruct (negb (isValid (m_backgroundColor b)) && negb (isValid (m_outlineColor b)));
    [ now rewrite emitted_ret | ].
  destruct (decoration b) as [d|]; [ | now rewrite emitted_ret ].
  destruct (fullHeightPaths b d) as [[background outline] usingPath].
  destruct (isValid (m_backgroundColor b));
    emitted_norm; split_ifs; rewrite ?renderersCreated_app, ?scalings_app; split; reflexivity.
Qed.

Lemma quiet_renderIconFor (b : Button) (w : World) :
  renderersCreated (emitted (renderIconFor b) w) = []
  /\ scalings (emitted (renderIconFor b) w) = [].
Proof.
  unfold renderIconFor. destruct (btype b), (isChecked b); emitted_norm; split; reflexivity.
Qed.

Lemma keepsPainter_renderIconFor (b : Button) : keepsPainter (renderIconFor b).
Proof. unfold renderIconFor. painter_tac. Qed.

(** The offset [drawIcon] computes from the device transform [T] and the
    device pixel ratio [dpr] it reads from the painter. *)
Lemma renderersCreated_drawIcon (b : Button) (d : Decoration) (w : World) :
  decoration b = Some d ->
  let T := deviceTransform (painter w) in
  let dpr := devicePixelRatioF (painter w) in
  let iconWidth := inject_Z (width (m_iconSize b)) in
  let i := ((inject_Z (width (m_smallButtonPaddedSize b)) - iconWidth) / 2)%Q in
  let offset :=
    QPointF_add
      (QPointF_add
         (QPointF_sub (QTransform_map T (QRectF_topLeft (geometry b)))
                      (QTransform_map T (QRectF_topLeft (QRect_toF (titleBar d)))))
         (QPointF_scale (m_iconOffset b) dpr))
      (QPointF_scale (mkPointF i i) dpr) in
  renderersCreated (emitted (drawIcon b) w)
  = if isValid (m_foregroundColor b)
    then [if isSystemIconTheme (buttonIconStyle (internalSettings d))
          then mkIconRendererArgs (internalSettings d) false (m_boldButtonIcons b) iconWidth
                                  (m_devicePixelRatio b) None
          else mkIconRendererArgs (internalSettings d) false (m_boldButtonIcons b) 18%Q
                                  (m_devicePixelRatio b) (Some offset)]
    else [].
Proof.
  intros Hd T dpr iconWidth i offset.
  assert (Kfull : forall c1 c2,
             keepsPainter (whenP c1 (whenP c2 (paintFullHeightButtonBackground b))))
    by (intros; painter_tac).
  unfold drawIcon. rewrite Hd. fold iconWidth i.
  emitted_norm. rewrite ?renderersCreated_app.
  repeat match goal with
         | |- context [renderersCreated (if ?c then ?x else ?y)] =>
             replace (renderersCreated (if c then x else y))
               with (if c then renderersCreated x else renderersCreated y)
               by (now destruct c)
         end.
  rewrite ?(proj1 (quiet_paintFullHeightButtonBackground _ _)),
    ?(proj1 (quiet_paintSmallSizedButtonBackground _ _)).
  emitted_norm. rewrite ?renderersCreated_app, ?(proj1 (quiet_renderIconFor _ _)).
  cbn [fst snd getDeviceTransform getDevicePixelRatioF call translateBy painter
       QPainter_do devicePixelRatioF].
  rewrite (transform_kept _ _ (Kfull _ _)).
  cbn [fst snd call painter QPainter_do deviceTransform].
  rewrite (ratio_kept _ _ (keepsPainter_keepsStack _ (Kfull _ _))).
  cbn [fst snd call painter QPainter_do devicePixelRatioF].
  fold T dpr offset.
  split_ifs; reflexivity.
Qed.

Lemma scalings_drawIcon (b : Button) (d : Decoration) (w : World) :
  decoration b = Some d ->
  scalings (emitted (drawIcon b) w)
  = if m_systemIconIsAvailable b then []
    else [((inject_Z (width (m_iconSize b)) / 18)%Q, (inject_Z (width (m_iconSize b)) / 18)%Q)].
Proof.
  intros Hd. unfold drawIcon. rewrite Hd.
  emitted_norm. rewrite ?scalings_app.
  repeat match goal with
         | |- context [scalings (if ?c then ?x else ?y)] =>
             replace (scalings (if c then x else y))
               with (if c then scalings x else scalings y)
               by (now destruct c)
         end.
  rewrite ?(proj2 (quiet_paintFullHeightButtonBackground _ _)),
    ?(proj2 (quiet_paintSmallSizedButtonBackground _ _)).
  emitted_norm. rewrite ?scalings_app, ?(proj2 (quiet_renderIconFor _ _)).
  destruct (m_systemIconIsAvailable b); cbn [negb]; split_ifs; reflexivity.
Qed.

Lemma transform_drawIcon (b : Button) (d : Decoration) (w : World) :
  decoration b = Some d ->
  let i := ((inject_Z (width (m_smallButtonPaddedSize b)) - inject_Z (width (m_iconSize b)))
            / 2)%Q in
  let translated :=
    QTransform_translate
      (QTransform_translate
         (QTransform_translate (deviceTransform (painter w))
                               (px (QRectF_topLeft (geometry b)))
                               (py (QRectF_topLeft (geometry b))))
         (px (m_iconOffset b)) (py (m_iconOffset b)))
      i i in
  deviceTransform (painter (exec (drawIcon b) w))
  = if m_systemIconIsAvailable b then translated
    else QTransform_scale translated (inject_Z (width (m_iconSize b)) / 18)%Q
                          (inject_Z (width (m_iconSize b)) / 18)%Q.
Proof.
  intros Hd i translated. subst translated.
  assert (Kfull : forall c1 c2,
             keepsPainter (whenP c1 (whenP c2 (paintFullHeightButtonBackground b))))
    by (intros; painter_tac).
  assert (Ksmall : forall c, keepsPainter (whenP c (paintSmallSizedButtonBackground b)))
    by (intros; painter_tac).
  assert (Kicon : forall c args,
             keepsPainter (whenP c (call (setPen (Some (iconPen b))) ;;
                                    call (createIconRenderer args) ;;
                                    renderIconFor b))).
  { intros c args. pose proof (keepsPainter_renderIconFor b). painter_tac. }
  unfold drawIcon, exec. rewrite Hd. fold i.
  rewrite !snd_bind.
  cbn [fst snd getDeviceTransform getDevicePixelRatioF call translateBy painter].
  rewrite (transform_kept _ _ (Kicon _ _)).
  destruct (m_systemIconIsAvailable b); cbn [negb];
    cbn [fst snd whenP ret call painter QPainter_do deviceTransform];
    rewrite (transform_kept _ _ (Ksmall _));
    cbn [fst snd call painter QPainter_do deviceTransform];
    rewrite (transform_kept _ _ (Kfull _ _));
    cbn [fst snd call painter QPainter_do deviceTransform];
    reflexivity.
Qed.

(** Property X11. Where and how the icon is rendered does not depend on the
    background. Whatever background and outline colours a button holds, and
    so whichever background [drawIcon] paints before the icon or none at all,
    the icon renderer is created with the same arguments, the device offset
    for its pixel snapping among them, the same icon is rendered, the painter
    is scaled the same, and the painter is left with the same device
    transform: both background painters hand the painter back as they found
    it. *)
Theorem icon_placement_ignores_background :
  forall (b : Button) (d : Decoration) (w : World) (background outline : QColor),
    decoration b = Some d ->
    let b' := with_m_outlineColor outline (with_m_backgroundColor background b) in
    renderersCreated (emitted (drawIcon b') w) = renderersCreated (emitted (drawIcon b) w)
    /\ rendered (emitted (drawIcon b') w) = rendered (emitted (drawIcon b) w)
    /\ scalings (emitted (drawIcon b') w) = scalings (emitted (drawIcon b) w)
    /\ deviceTransform (painter (exec (drawIcon b') w))
       = deviceTransform (painter (exec (drawIcon b) w)).
Proof.
  intros b d w background outline Hd b'.
  assert (Hd' : decoration b' = Some d) by exact Hd.
  rewrite (renderersCreated_drawIcon b' d w Hd'), (renderersCreated_drawIcon b d w Hd).
  rewrite (rendered_drawIcon b' w), (rendered_drawIcon b w), Hd', Hd.
  rewrite (scalings_drawIcon b' d w Hd'), (scalings_drawIcon b d w Hd).
  rewrite (transform_drawIcon b' d w Hd'), (transform_drawIcon b d w Hd).
  repeat split.
Qed.

End IconPlacement.

(** ** What the icon renderer is given *)

Section RendererArguments.

Context {env : Environment}.

Lemma isSystemIconAvailable_hasSystemIcon (b : Button) :
  isSystemIconAvailable b = hasSystemIcon (btype b).
Proof. unfold isSystemIconAvailable, hasSystemIcon. now destruct (btype b). Qed.

Lemma prepare_measurements (r : qreal) (d : Decoration) (b : Button) :
  decoration b = Some d ->
  let b' := prepare r d b in
  let ratio := if isPlatformX11 || m_isGtkCsdButton b then systemScaleFactor d else r in
  decoration b' = Some d
  /\ m_devicePixelRatio b' = ratio
  /\ m_boldButtonIcons b'
     = negb (m_isGtkCsdButton b)
       && match boldButtonIcons (internalSettings d) with
          | BoldIconsHiDpiOnly => Qgtb ratio 1.2%Q
          | BoldIconsBold => true
          | BoldIconsFine => false
          end
  /\ m_systemIconIsAvailable b'
     = isSystemIconTheme (buttonIconStyle (internalSettings d)) && hasSystemIcon (btype b).
Proof.
  intros Hd b' ratio. subst b'. rewrite prepare_measured.
  assert (K : forall x,
             let y := fitToGeometry (cacheColors (resolveColors d x)) in
             decoration y = decoration x /\ m_devicePixelRatio y = m_devicePixelRatio x
             /\ m_boldButtonIcons y = m_boldButtonIcons x
             /\ m_systemIconIsAvailable y = m_systemIconIsAvailable x).
  { intros x. unfold fitToGeometry, cacheColors, resolveColors.
    destruct (backgroundColor x false). split_ifs; repeat split. }
  destruct (K (measured r d b)) as (K1 & K2 & K3 & K4). rewrite K1, K2, K3, K4.
  unfold measured, setStandardScaledPenWidth, setShouldDrawBoldButtonIcons,
    setDevicePixelRatio. rewrite Hd. cbn. rewrite Hd. cbn.
  rewrite <- isSystemIconAvailable_hasSystemIcon. subst ratio.
  unfold isSystemIconAvailable.
  destruct (isSystemIconTheme (buttonIconStyle (internalSettings d))), isPlatformX11,
    (m_isGtkCsdButton b); cbn; repeat split; exact Hd.
Qed.

(** Property X12. The icon renderer of a painted button. For a button other
    than the menu button, [paint] scales the painter by a factor of icon
    width over 18 unless the system icon theme is selected and has an icon for
    the button type (close, maximize, minimize, keep above, keep below); when
    the foreground colour is valid it creates one renderer, which is told an
    icon width of 18 unless the system icon theme is selected, the settings of
    the decoration, the system scale factor as device pixel ratio on X11 and
    for a GTK CSD button and the ratio of the painter's device otherwise, and
    bold icons never for a GTK CSD button, else by the setting: always, never
    or above a ratio of 1.2. *)
Theorem painted_icon_renderer :
  forall (b : Button) (d : Decoration) (c : DecoratedClient) (w : World),
    decoration b = Some d ->
    btype b <> Menu ->
    let b' := prepare (devicePixelRatioF (painter w)) d b in
    let l := emitted (paintBody b d c) w in
    let system := isSystemIconTheme (buttonIconStyle (internalSettings d)) in
    let iconWidth := inject_Z (width (m_iconSize b')) in
    let ratio := if isPlatformX11 || m_isGtkCsdButton b
                 then systemScaleFactor d else devicePixelRatioF (painter w) in
    scalings l = (if system && hasSystemIcon (btype b) then []
                  else [((iconWidth / 18)%Q, (iconWidth / 18)%Q)])
    /\ (isValid (m_foregroundColor b') = false -> renderersCreated l = [])
    /\ (isValid (m_foregroundColor b') = true ->
        exists args,
          renderersCreated l = [args]
          /\ rendererSettings args = internalSettings d
          /\ rendererIconWidth args = (if system then iconWidth else 18%Q)
          /\ rendererDevicePixelRatio args = ratio
          /\ rendererBoldButtonIcons args
             = negb (m_isGtkCsdButton b)
               && match boldButtonIcons (internalSettings d) with
                  | BoldIconsHiDpiOnly => Qgtb ratio 1.2%Q
                  | BoldIconsBold => true
                  | BoldIconsFine => false
                  end).
Proof.
  intros b d c w Hd Hm b' l system iconWidth ratio.
  destruct (prepare_measurements (devicePixelRatioF (painter w)) d b Hd)
    as (Pd & Pr & Pb & Ps).
  fold b' ratio system in Pd, Pr, Pb, Ps.
  assert (Hl : l = [save] ++ emitted (drawIcon b') (exec (call save) w) ++ [restore]).
  { subst l. rewrite emitted_paintBody. fold b'. unfold drawing.
    pose proof (prepare_btype (devicePixelRatioF (painter w)) d b) as Ht. fold b' in Ht.
    destruct (btype b') eqn:E; try reflexivity. now elim Hm. }
  rewrite Hl, !scalings_app, !renderersCreated_app.
  rewrite (scalings_drawIcon b' d _ Pd), (renderersCreated_drawIcon b' d _ Pd), Ps.
  cbn [scalings renderersCreated flat_map app]. rewrite !app_nil_r.
  fold iconWidth system.
  split; [ destruct (system && hasSystemIcon (btype b)); reflexivity | ].
  split; intros Hv; rewrite Hv; [ reflexivity | ].
  eexists. split; [ reflexivity | ].
  destruct system; cbn; repeat split; assumption.
Qed.

End RendererArguments.

(** ** The backgrounds *)

Section Backgrounds.

Context {env : Environment}.

Lemma fullHeightPaths_usingPath (b : Button) (d : Decoration) :
  snd (fullHeightPaths b d)
  = isValid (m_outlineColor b)
    && (buttonShape (internalSettings d) =S= ShapeIntegratedRoundedRectangle).
Proof.
  unfold fullHeightPaths.
  destruct (isValid (m_outlineColor b)), (buttonShape (internalSettings d));
    cbn [EnumButtonShape_eqb andb snd]; try reflexivity.
  now destruct (integratedRects _ _ _ _ _) as [[outer inner] background].
Qed.


Lemma pathsDrawn_paintFullHeightButtonBackground (b : Button) (d : Decoration) (w : World) :
  decoration b = Some d ->
  let hasBackground := isValid (m_backgroundColor b) in
  let hasOutline := isValid (m_outlineColor b) in
  let usingPath := snd (fullHeightPaths b d) in
  let clip (p : QPainterPath) :=
    if isMaximized d then p else intersected p (windowPath d) in
  pathsDrawn (emitted (paintFullHeightButtonBackground b) w)
  = (if hasBackground || (hasOutline && negb usingPath)
     then [clip (fst (fst (fullHeightPaths b d)))] else [])
    ++ (if hasOutline && usingPath then [clip (snd (fst (fullHeightPaths b d)))] else []).
Proof.
  intros Hd hasBackground hasOutline usingPath clip. subst hasBackground hasOutline usingPath clip.
  unfold paintFullHeightButtonBackground. rewrite Hd.
  destruct (fullHeightPaths b d) as [[background outline] usingPath]. cbn [fst snd].
  destruct (isValid (m_backgroundColor b)), (isValid (m_outlineColor b)), usingPath,
    (isMaximized d); cbn [negb andb orb];
    emitted_norm; cbn [negb andb orb]; rewrite ?pathsDrawn_app; reflexivity.
Qed.



Lemma shapesDrawn_paintFullHeightButtonBackground (b : Button) (w : World) :
  shapesDrawn (emitted (paintFullHeightButtonBackground b) w) = [].
Proof.
  unfold paintFullHeightButtonBackground.
  destruct (negb (isValid (m_backgroundColor b)) && negb (isValid (m_outlineColor b)));
    [ now rewrite emitted_ret | ].
  destruct (decoration b) as [d|]; [ | now rewrite emitted_ret ].
  destruct (fullHeightPaths b d) as [[background outline] usingPath].
  destruct (isValid (m_backgroundColor b));
    emitted_norm; split_ifs; rewrite ?shapesDrawn_app; reflexivity.
Qed.

Lemma drawn_paintSmallSizedButtonBackground (b : Button) (d : Decoration) (w : World) :
  decoration b = Some d ->
  pathsDrawn (emitted (paintSmallSizedButtonBackground b) w) = []
  /\ shapesDrawn (emitted (paintSmallSizedButtonBackground b) w)
     = if isValid (m_backgroundColor b) || isValid (m_outlineColor b)
       then [smallShape (internalSettings d)] else [].
Proof.
  intros Hd. unfold paintSmallSizedButtonBackground. rewrite Hd.
  destruct (isValid (m_backgroundColor b)), (isValid (m_outlineColor b));
    cbn [negb andb orb]; try (now rewrite emitted_ret);
    destruct (smallShape (internalSettings d));
    emitted_norm; rewrite ?pathsDrawn_app, ?shapesDrawn_app; split; reflexivity.
Qed.

Lemma drawn_renderIconFor (b : Button) (w : World) :
  pathsDrawn (emitted (renderIconFor b) w) = []
  /\ shapesDrawn (emitted (renderIconFor b) w) = [].
Proof.
  unfold renderIconFor. destruct (btype b), (isChecked b); emitted_norm; split; reflexivity.
Qed.

(** Property X14. One background for a button, never two. With a valid
    background or outline colour, [drawIcon] draws the full-height background
    (its path or paths, and no small shape) when the decoration uses
    full-height backgrounds and the button is neither standalone nor a GTK CSD
    button, and otherwise the one small shape the settings choose (and no
    path); without such a colour it draws neither. *)
Theorem one_background_per_button :
  forall (b : Button) (d : Decoration) (w : World),
    decoration b = Some d ->
    let l := emitted (drawIcon b) w in
    let fullHeight :=
      ButtonBackgroundType_eqb (buttonBackgroundType d) FullHeight
      && negb (isStandAlone b || m_isGtkCsdButton b) in
    let colored := isValid (m_backgroundColor b) || isValid (m_outlineColor b) in
    (colored = false -> shapesDrawn l = [] /\ pathsDrawn l = [])
    /\ (colored = true -> fullHeight = true -> shapesDrawn l = [] /\ pathsDrawn l <> [])
    /\ (colored = true -> fullHeight = false ->
        shapesDrawn l = [smallShape (internalSettings d)] /\ pathsDrawn l = []).
Proof.
  intros b d w Hd l fullHeight colored.
  assert (Hs : shapesDrawn l
               = if negb fullHeight && colored then [smallShape (internalSettings d)] else []).
  { subst l. unfold drawIcon. rewrite Hd. emitted_norm. rewrite ?shapesDrawn_app.
    repeat match goal with
           | |- context [shapesDrawn (if ?c then ?x else ?y)] =>
               replace (shapesDrawn (if c then x else y))
                 with (if c then shapesDrawn x else shapesDrawn y) by (now destruct c)
           end.
    rewrite ?shapesDrawn_paintFullHeightButtonBackground,
      ?(proj2 (drawn_paintSmallSizedButtonBackground _ d _ Hd)).
    emitted_norm. rewrite ?shapesDrawn_app, ?(proj2 (drawn_renderIconFor _ _)).
    subst fullHeight colored.
    destruct (buttonBackgroundType d), (isStandAlone b), (m_isGtkCsdButton b),
      (isValid (m_backgroundColor b) || isValid (m_outlineColor b));
      cbn [ButtonBackgroundType_eqb negb andb orb]; split_ifs; reflexivity. }
  assert (Hp : pathsDrawn l
               = if fullHeight
                 then pathsDrawn (emitted (paintFullHeightButtonBackground b)
                                          (snd (call setRenderHints_Antialiasing w)))
                 else []).
  { subst l. unfold drawIcon. rewrite Hd. emitted_norm. rewrite ?pathsDrawn_app.
    repeat match goal with
           | |- context [pathsDrawn (if ?c then ?x else ?y)] =>
               replace (pathsDrawn (if c then x else y))
                 with (if c then pathsDrawn x else pathsDrawn y) by (now destruct c)
           end.
    rewrite ?(proj1 (drawn_paintSmallSizedButtonBackground _ d _ Hd)).
    emitted_norm. rewrite ?pathsDrawn_app, ?(proj1 (drawn_renderIconFor _ _)).
    subst fullHeight.
    destruct (buttonBackgroundType d), (isStandAlone b), (m_isGtkCsdButton b);
      cbn [ButtonBackgroundType_eqb negb andb orb app pathsDrawn flat_map];
      split_ifs; rewrite ?app_nil_r; reflexivity. }
  rewrite Hs, Hp, (pathsDrawn_paintFullHeightButtonBackground b d _ Hd).
  rewrite fullHeightPaths_usingPath. fold colored. split; [ | split ].
  - intros Hc. rewrite Hc, andb_false_r. subst colored.
    apply orb_false_iff in Hc. destruct Hc as [-> ->]. now destruct fullHeight.
  - intros Hc Hf. rewrite Hc, Hf. split; [ reflexivity | ]. subst colored.
    destruct (isValid (m_backgroundColor b)), (isValid (m_outlineColor b)),
      (buttonShape (internalSettings d) =S= ShapeIntegratedRoundedRectangle);
      cbn in Hc |- *; try discriminate.
  - intros Hc Hf. rewrite Hc, Hf. now split.
Qed.

End Backgrounds.

(** ** The menu button and the global icon loader *)

Section MenuButton.

Context {env : Environment}.

Lemma loader_kept {A : Type} (m : Paint A) (w : World) :
  keepsLoader m -> iconLoader (snd (m w)) = iconLoader w.
Proof. intros K. apply K. Qed.

(** Property X15. Painting the menu button leaves the global icon loader
    with the palette of the window, its [WindowText] colour replaced by the
    font colour of the decoration, whatever palette the loader had: the
    palette is installed as custom palette before the window icon is painted,
    and afterwards either the custom flag is reset, when the loader had the
    default palette, or the same palette is installed again; the palette that
    was active before is not put back. *)
Theorem menu_button_leaves_window_palette :
  forall (b : Button) (d : Decoration) (c : DecoratedClient) (w : World),
    btype b = Menu -> decoration b = Some d -> client d = Some c ->
    exists b' w',
      paint b w = Some (b', w')
      /\ mPalette (iconLoader w') = QPalette_setWindowText (palette c) (fontColor d)
      /\ mCustomPalette (iconLoader w')
         = negb (QPalette_eqb (mPalette (iconLoader w)) defaultPalette).
Proof.
  intros b d c w Hm Hd Hc.
  exists (fst (paintBody b d c w)), (snd (paintBody b d c w)).
  split; [ unfold paint; rewrite Hd, Hc; now destruct (paintBody b d c w) | ].
  unfold paintBody. rewrite !snd_bind.
  cbn [fst snd getDevicePixelRatioF call ret iconLoader].
  rewrite prepare_btype, Hm.
  set (b' := prepare (devicePixelRatioF (painter w)) d b).
  unfold paintMenuIcon. rewrite !snd_bind.
  cbn [fst snd customPalette setCustomPalette call translateBy iconLoader mPalette].
  rewrite !(loader_kept (whenP _ (paintFullHeightButtonBackground b'))) by painter_tac.
  cbn [iconLoader].
  destruct (QPalette_eqb (mPalette (iconLoader w)) defaultPalette); split; reflexivity.
Qed.

End MenuButton.

(** ** The opacity stays between 0 and 1 *)




Section OpacityRange.

Context {env : Environment}.



End OpacityRange.

(** ** A pressed button *)

Section PressedButton.

Context {env : Environment}.

(** Property X17. A pressed button is not animated and does not react to
    the pointer: two states of a button with the same button type, checked
    state and decoration, both pressed, get the same background colour and
    contrast colour, whether hovered or not, whether the animation runs and
    whatever its value and the cached colours are; the same outline colour
    under the same low-contrast flag; and, when icons are drawn on press, the
    same foreground colour against the same contrast colour. *)
Theorem pressed_button_ignores_hover_and_animation :
  forall (b1 b2 : Button) (g1 g2 : bool),
    btype b1 = btype b2 -> isChecked b1 = isChecked b2 -> decoration b1 = decoration b2 ->
    isPressed b1 = true -> isPressed b2 = true ->
    backgroundColor b1 g1 = backgroundColor b2 g2
    /\ (m_lowContrastBetweenTitleBarAndBackground b1
        = m_lowContrastBetweenTitleBarAndBackground b2 ->
        outlineColor b1 g1 = outlineColor b2 g2)
    /\ (forall d, decoration b1 = Some d ->
                  drawIconOnFocus (m_buttonBehaviouralParameters d) = true ->
                  forall c, foregroundColor b1 c = foregroundColor b2 c).
Proof.
  intros b1 b2 g1 g2 Ht Hc Hd P1 P2. split; [ | split ].
  - unfold backgroundColor, backgroundPalette. rewrite Hd, Ht, Hc, P1, P2.
    destruct (decoration b2) as [d|]; [ | reflexivity ].
    cbn [andb orb]. rewrite ?andb_true_r. split_ifs; reflexivity.
  - intros Hlow.
    unfold outlineColor, outlineForState, correctedOutlinePalette, outlinePalette, outlineFlags.
    rewrite Hd, Ht, Hc, P1, P2, Hlow.
    destruct (decoration b2) as [d|]; [ | reflexivity ].
    destruct (isChecked b2
              && ((btype b2 =T= KeepBelow) || (btype b2 =T= KeepAbove) || (btype b2 =T= Shade)));
      [ reflexivity | ].
    destruct ((btype b2 =T= OnAllDesktops) && isChecked b2 && isAccent (internalSettings d));
      reflexivity.
  - intros d Hd1 Hf c. unfold foregroundColor, foregroundColorState, foregroundPalette.
    rewrite <- Hd, Hd1, Ht, P1, P2, Hf. reflexivity.
Qed.

End PressedButton.



(** ** No background that the settings turn off *)

Section BackgroundFlags.

Context {env : Environment}.

(** Property X20. Under the accent colours a button never gets a background
    that its behavioural flags turn off. Whenever [backgroundColor] returns a
    valid colour, the flag for the state the button is in is set, the flags
    being those of the close button for a close button and the general ones
    otherwise: the flag for the pressed state when the button is pressed or
    is a checked keep-above, keep-below, shade or on-all-desktops button;
    else the flag for hovering when the animation is shown or the pointer is
    over the button; else the flag for backgrounds that are always drawn. *)
Theorem background_needs_its_flag :
  forall (b : Button) (d : Decoration) (g : bool),
    decoration b = Some d ->
    isAccent (internalSettings d) = true ->
    isValid (fst (backgroundColor b g)) = true ->
    let p := m_buttonBehaviouralParameters d in
    if isCheckedToggleButton b || isPressed b then appliesOnFocus b p = true
    else if (isRunning b && negb g) || isHovered b then appliesOnHover b p = true
    else appliesAlways b p = true.
Proof.
  intros b d g Hd Ha Hv p.
  destruct (backgroundPalette_flags b d Ha) as (Hn & Hh & Hf). fold p in Hn, Hh, Hf.
  unfold backgroundColor in Hv. rewrite Hd, Ha in Hv. cbn zeta in Hv.
  unfold isCheckedToggleButton.
  destruct (isChecked b), (btype b), (isPressed b);
    cbn [DecorationButtonType_eqb andb orb fst] in Hv |- *;
    try (apply Hf; exact Hv);
    destruct (isRunning b), g; cbn [negb andb orb] in Hv |- *;
    try (destruct (isHovered b); [ apply Hh | apply Hn ]; exact Hv);
    apply Hh;
    destruct (isValid (m_preAnimationBackgroundColor b)),
      (isValid (hoverColor (backgroundPalette b d))) eqn:E;
      cbn [andb fst] in Hv; first [ reflexivity | discriminate Hv | exact E ].
Qed.

End BackgroundFlags.

(** * The theorems at concrete inputs *)

#[local] Existing Instance Sample.env.

Lemma Sample_libraryKeepsValid : libraryKeepsValid.
Proof.
  split.
  - intros a b t Ha Hb. cbn. unfold Sample.mix.
    destruct (Qle_bool t 0); [ exact Ha | ]. destruct (Qle_bool 1 t); [ exact Hb | reflexivity ].
  - intros c t Hc. cbn. destruct c; [ reflexivity | discriminate ].
Defined.

(** Claim C1: the theorem at a close button at rest, against a close button
    of another window (maximized, without client, with other geometry) under
    the same settings and colours, with another animation value and another
    cached colour. *)
Lemma resolver_deterministic_at_rest :
  let b1 := Sample.button Close Sample.deco false in
  let b2 := with_m_opacity 0.5
              (with_m_preAnimationBackgroundColor white
                 (mkButton Close (Some Sample.otherWindowDeco) false false false true
                           (mkRectF 700 0 30 30) newAnimation FlagLastInList false 0 1 false
                           false 1 None None None true None None None
                           (mkSize 30 30) (mkSize 20 20) (mkSizeF 30 30) (mkPointF 3 3)
                           (mkPointF 0 0) true false)) in
  sameResolverInputs b1 b2 /\ decoration b1 <> decoration b2
  /\ isRunning b1 = false /\ isRunning b2 = false
  /\ resolved (resolveColors Sample.deco b1)
     = resolved (resolveColors Sample.otherWindowDeco b2)
  /\ backgroundColor b1 false = backgroundColor b2 true.
Proof.
  intros b1 b2.
  assert (Hs : sameResolverInputs b1 b2) by (repeat split).
  assert (Hd : sameColorSettings Sample.deco Sample.otherWindowDeco) by (repeat split).
  destruct (proj2 (resolver_deterministic_up_to_animation b1 b2 Hs) eq_refl eq_refl)
    as (Hres & Hbg & _).
  split; [ exact Hs | split; [ discriminate | split; [ reflexivity | split;
    [ reflexivity | split ] ] ] ].
  - exact (Hres Sample.deco Sample.otherWindowDeco Hd).
  - exact (Hbg false true).
Defined.

(** Claim C1 fails as stated: a close button whose pointer has just left it
    has the same button type, interaction state and settings as the button
    at rest, but its animation runs, and the colours resolved for it differ
    (no background colour instead of the red one). *)
Lemma resolver_depends_on_animation :
  let b1 := Sample.button Close Sample.deco false in
  let b2 := updateAnimationState false b1 in
  sameInputs b1 b2 /\ sameResolverInputs b1 b2
  /\ fst (backgroundColor b1 false) = Sample.rgb 218 68 83
  /\ fst (backgroundColor b2 false) = invalidColor
  /\ resolved (resolveColors Sample.deco b1) <> resolved (resolveColors Sample.deco b2).
Proof.
  intros b1 b2. repeat split. vm_compute. discriminate.
Qed.



(** The dialog with a translucent inactive scheme colour, an opaque active
    one and the inactive override box checked: the inactive opacity 80 of the
    spin box is not written, the stored 55 stays. *)
Example inactive_override_alone_does_not_write :
  let ui := Ui.mk 100 80 false true true true true true in
  let dlg := TitleBarOpacity.mk ui None false true true in
  let stored := TitleBarOpacity.setInactiveTitlebarOpacity 55 Sample.settings in
  inactiveTitlebarOpacity (TitleBarOpacity.persisted stored dlg) = 55
  /\ activeTitlebarOpacity (TitleBarOpacity.persisted stored dlg) = 100
  /\ overrideInactiveTitleBarOpacity (TitleBarOpacity.persisted stored dlg) = true.
Proof. repeat split. Qed.

(** Every button the constructor builds has its animation configured, and
    the methods keep it so. *)
Example sample_button_configured :
  configured (m_animation (tick 50 (updateAnimationState true
                                      (Sample.button Close Sample.deco false)))).
Proof.
  apply tick_configured, updateAnimationState_configured.
  apply (Button_new_configured Close Sample.deco false Sample.members). reflexivity.
Qed.


(** Claim C5: the theorem at a maximize button with a white foreground. *)
Lemma maximize_icon_rendered :
  let b := with_m_foregroundColor white (Sample.button Maximize Sample.deco false) in
  isValid (m_foregroundColor b) = true
  /\ rendered (emitted (drawIcon b) Sample.world) = [MaximizeIcon].
Proof.
  intros b. split; [ reflexivity | ].
  apply (proj1 (icon_rendered_for_type b Sample.deco Sample.window Sample.world eq_refl)).
  reflexivity.
Defined.

(** Claim C5 fails as stated: where icons are drawn on hover and press only,
    painting a close button at rest resolves no foreground colour and renders
    no icon at all. *)
Lemma close_icon_not_rendered_at_rest :
  let b := Sample.button Close (Sample.decorationWith Sample.settings Sample.iconsOnHover)
                         false in
  btype b = Close
  /\ exists b' w',
      paint b Sample.world = Some (b', w')
      /\ m_foregroundColor b' = invalidColor
      /\ rendered (commands (painter w')) = []
      /\ rendered (emitted (drawIcon b') Sample.world) = [].
Proof.
  intros b. split; [ reflexivity | ].
  destruct (paint b Sample.world) as [[b' w']|] eqn:E; [ | discriminate E ].
  exists b', w'. vm_compute in E. injection E as <- <-.
  split; [ reflexivity | ]. repeat split.
Qed.

(** Claim C7: the theorem at a close button that is not a GTK CSD button. *)
Lemma icon_pen_of_close_button :
  let b := Sample.button Close Sample.deco false in
  let b' := prepare 2 Sample.deco b in
  m_isGtkCsdButton b = false
  /\ penCosmetic (iconPen b') = true
  /\ penWidthF (iconPen b') = (PenWidth_Symbol * m_devicePixelRatio b')%Q.
Proof.
  intros b b'. split; [ reflexivity | ].
  destruct (icon_pen_width b Sample.deco 2 Sample.world eq_refl) as (_ & _ & H & _).
  destruct (H eq_refl) as (_ & Hc & Hw). split; [ exact Hc | exact Hw ].
Defined.

(** Claim C7 fails as stated: for a GTK CSD close button on a display scaled
    by 2 the scaled pen width is 2.02, but the one pen [paint] sets is not
    cosmetic and has the unscaled width 1.01. *)
Lemma gtk_icon_pen_is_not_cosmetic :
  let b := Sample.button Close Sample.deco true in
  m_isGtkCsdButton b = true
  /\ exists b' w',
      paint b Sample.world = Some (b', w')
      /\ (m_standardScaledPenWidth b' == 2.02)%Q
      /\ pensSet (commands (painter w')) = [mkPen white 1.01 false]
      /\ ~ (1.01 == PenWidth_Symbol * m_devicePixelRatio b')%Q.
Proof.
  intros b. split; [ reflexivity | ].
  destruct (paint b Sample.world) as [[b' w']|] eqn:E; [ | discriminate E ].
  exists b', w'. vm_compute in E. injection E as <- <-.
  split; [ reflexivity | ]. repeat split. intros H. vm_compute in H. discriminate H.
Qed.

(** Claim C8: the theorem at a close button that the pointer enters. *)
Lemma hover_starts_forward_animation :
  let b := Sample.button Close Sample.deco false in
  0 < animationsDuration Sample.deco
  /\ state (m_animation b) = Stopped
  /\ direction (m_animation (updateAnimationState true b)) = Forward
  /\ state (m_animation (updateAnimationState true b)) = Running
  /\ duration (m_animation (updateAnimationState true (reconfigure b))) = 200.
Proof.
  intros b.
  destruct (animation_duration_and_start b Sample.deco true eq_refl)
    as (_ & _ & H3 & _ & _ & H6).
  assert (Hpos : 0 < animationsDuration Sample.deco) by reflexivity.
  destruct (H3 Hpos) as (Hdir & Hst & _).
  destruct (H6 Hpos eq_refl) as (Hdur & _).
  split; [ exact Hpos | split; [ reflexivity | split; [ exact Hdir | split ] ] ].
  - exact Hst.
  - exact Hdur.
Defined.

(** Claim C9: the theorem at a minimize button, whose always-drawn
    background is close to the title bar colour. *)
Lemma low_contrast_minimize_button_gets_outline :
  let b := Sample.button Minimize Sample.deco false in
  let b' := prepare 2 Sample.deco b in
  (KColorUtils_contrastRatio (fst (backgroundColor b false)) (titleBarColor Sample.deco)
   < 1.3)%Q
  /\ isValid (m_backgroundColor b') = true
  /\ m_lowContrastBetweenTitleBarAndBackground b' = true
  /\ isValid (m_outlineColor b') = true.
Proof.
  intros b b'.
  assert (Hlt : (KColorUtils_contrastRatio (fst (backgroundColor b false))
                                           (titleBarColor Sample.deco) < 1.3)%Q)
    by (vm_compute; reflexivity).
  assert (Hne : backgroundColors (internalSettings Sample.deco) <> ColorsTitlebarText)
    by discriminate.
  assert (Hpal : outlineColorsValid g_decorationColors) by (repeat split).
  assert (Hbg : isValid (m_backgroundColor b') = true) by reflexivity.
  destruct (low_contrast_outline_follows_background b Sample.deco 2 eq_refl Hne Hlt)
    as (Hlow & _ & _ & Hvalid).
  split; [ exact Hlt | split; [ exact Hbg | split; [ exact Hlow | ] ] ].
  apply Hvalid; [ exact Hpal | exact Sample_libraryKeepsValid | reflexivity | exact Hbg ].
Defined.

(** Claim C10: the theorem at a button without a decoration, at a button
    where no icon-drawing condition applies, and at a foreign decoration. *)
Lemma no_decoration_no_color :
  let b := Sample.button Close (Sample.decorationWith Sample.settings Sample.iconsOnHover)
                         false in
  decoration Sample.members = None
  /\ foregroundColor Sample.members white = invalidColor
  /\ outlineColor Sample.members false = invalidColor
  /\ foregroundColor b white = invalidColor
  /\ create Close foreignDecoration false Sample.members = returned None.
Proof.
  intros b.
  destruct invalid_colors_and_null_button as (H1 & H2 & H3).
  destruct (H1 Sample.members white false eq_refl) as (Hf & _ & _ & Ho).
  split; [ reflexivity | split; [ exact Hf | split; [ exact Ho | split ] ] ].
  - apply (H2 b (Sample.decorationWith Sample.settings Sample.iconsOnHover));
      reflexivity.
  - apply (proj1 (H3 Close foreignDecoration false Sample.members)). reflexivity.
Defined.


(** Property X4: a close button the pointer has just left, whose animation
    runs, against the button at rest. *)
Lemma nonAnimated_colors_of_leaving_button :
  let b1 := Sample.button Close Sample.deco false in
  let b2 := updateAnimationState false b1 in
  sameInputs b1 b2 /\ isRunning b1 = false /\ isRunning b2 = true
  /\ backgroundColor b1 true = backgroundColor b2 true
  /\ backgroundColor b2 true = backgroundColor b1 false.
Proof.
  intros b1 b2.
  assert (Hs : sameInputs b1 b2) by (repeat split).
  assert (Hs' : sameInputs b2 b1) by (repeat split).
  split; [ exact Hs | split; [ reflexivity | split; [ reflexivity | split ] ] ].
  - exact (proj1 (nonAnimated_colors_ignore_animation b1 b2 Hs)).
  - exact (proj1 (proj2 (nonAnimated_colors_ignore_animation b2 b1 Hs')) eq_refl false).
Defined.

(** Property X5: the close button at rest under opaque accent colours. *)
Lemma contrast_color_of_close_button :
  let b := Sample.button Close Sample.deco false in
  decoration b = Some Sample.deco
  /\ snd (backgroundColor b false) = fst (backgroundColor b false).
Proof.
  intros b. split; [ reflexivity | ].
  destruct (contrast_color_of_background b Sample.deco false eq_refl) as [_ H].
  assert (Hne : backgroundColors (internalSettings Sample.deco) <> ColorsTitlebarText)
    by discriminate.
  exact (proj1 (H eq_refl Hne) eq_refl).
Defined.

(** Property X6: the close button of a decoration that colours the thin
    window outline; it has no outline colour, and a red background. *)
Lemma thin_window_outline_of_close_button :
  let d := Sample.decorationWith Sample.outlineSettings Sample.parameters in
  let b := Sample.button Close d false in
  exists c,
    updateThinWindowOutlineWithButtonColor true b [] = Some c
    /\ c = (true, if isValid (outlineColor b true) then outlineColor b true
                  else fst (backgroundColor b true))
    /\ isValid (snd c) = true.
Proof.
  intros d b.
  destruct (updateThinWindowOutlineWithButtonColor true b []) as [c|] eqn:E;
    [ | vm_compute in E; discriminate E ].
  exists c. split; [ reflexivity | ].
  pose proof (proj1 (proj2 (thin_window_outline_override true b [])) c E) as Hc.
  split; [ exact Hc | ].
  rewrite Hc. vm_compute. reflexivity.
Defined.

(** Property X7: a shade button for a window that cannot be shaded. *)
Lemma created_shade_button_is_hidden :
  client Sample.deco = Some Sample.window
  /\ exists b,
       create Shade (breezeDecoration Sample.deco) false Sample.members = returned (Some b)
       /\ isVisible b = false.
Proof.
  split; [ reflexivity | ].
  destruct (created_button_visibility Shade Sample.deco Sample.window false Sample.members
                                      eq_refl) as (b & Hb & Hv & _).
  exists b. split; [ exact Hb | exact Hv ].
Defined.

(** Property X8: the close button at rest. *)
Lemma close_button_caches_colors_at_rest :
  let b := Sample.button Close Sample.deco false in
  let b' := prepare 2 Sample.deco b in
  decoration b = Some Sample.deco /\ isRunning b = false /\ isHovered b = false
  /\ (m_preAnimationBackgroundColor b', m_preAnimationForegroundColor b',
      m_preAnimationOutlineColor b') = resolved b'.
Proof.
  intros b b'.
  split; [ reflexivity | split; [ reflexivity | split; [ reflexivity | ] ] ].
  exact (proj1 (paint_caches_colors_at_rest b Sample.deco 2 eq_refl) eq_refl eq_refl).
Defined.


(** Property X10: painting the close button. *)
Lemma painter_as_found_after_close_button :
  let b := Sample.button Close Sample.deco false in
  exists b' w',
    paint b Sample.world = Some (b', w')
    /\ deviceTransform (painter w') = deviceTransform (painter Sample.world)
    /\ savedTransforms (painter w') = savedTransforms (painter Sample.world)
    /\ iconLoader w' = iconLoader Sample.world.
Proof.
  intros b.
  assert (Hp : paint b Sample.world
               = Some (paintBody b Sample.deco Sample.window Sample.world))
    by reflexivity.
  destruct (paintBody b Sample.deco Sample.window Sample.world) as [b' w'].
  exists b', w'.
  destruct (paint_leaves_painter_as_found b b' Sample.world w' Hp) as (T & S & _ & L).
  split; [ exact Hp | split; [ exact T | split; [ exact S | ] ] ].
  apply L. discriminate.
Defined.

(** Property X11: a maximize button with a white foreground colour, with a
    red background and a white outline against none. *)
Lemma icon_placement_of_maximize_button :
  let b := with_m_foregroundColor white (Sample.button Maximize Sample.deco false) in
  let b' := with_m_outlineColor white (with_m_backgroundColor (Sample.rgb 218 68 83) b) in
  decoration b = Some Sample.deco
  /\ shapesDrawn (emitted (drawIcon b) Sample.world) = []
  /\ shapesDrawn (emitted (drawIcon b') Sample.world) = [square]
  /\ renderersCreated (emitted (drawIcon b') Sample.world)
     = renderersCreated (emitted (drawIcon b) Sample.world)
  /\ deviceTransform (painter (exec (drawIcon b') Sample.world))
     = deviceTransform (painter (exec (drawIcon b) Sample.world)).
Proof.
  intros b b'.
  destruct (icon_placement_ignores_background b Sample.deco Sample.world
              (Sample.rgb 218 68 83) white eq_refl) as (Hr & _ & _ & Ht).
  split; [ reflexivity | split; [ vm_compute; reflexivity | split;
    [ vm_compute; reflexivity | split; [ exact Hr | exact Ht ] ] ] ].
Defined.

(** Property X12: painting the close button with the icons of the decoration
    on a device of pixel ratio 2. *)
Lemma painted_icon_renderer_of_close_button :
  let b := Sample.button Close Sample.deco false in
  let b' := prepare 2 Sample.deco b in
  let l := emitted (paintBody b Sample.deco Sample.window) Sample.world in
  decoration b = Some Sample.deco /\ btype b <> Menu
  /\ isValid (m_foregroundColor b') = true
  /\ exists args,
       renderersCreated l = [args]
       /\ rendererIconWidth args = 18%Q
       /\ rendererDevicePixelRatio args = 2%Q
       /\ rendererBoldButtonIcons args = true.
Proof.
  intros b b' l.
  assert (Hm : btype b <> Menu) by discriminate.
  assert (Hv : isValid (m_foregroundColor b') = true) by reflexivity.
  split; [ reflexivity | split; [ exact Hm | split; [ exact Hv | ] ] ].
  destruct (proj2 (proj2 (painted_icon_renderer b Sample.deco Sample.window Sample.world
                                                eq_refl Hm)) Hv)
    as (args & Hr & _ & Hw & Hd & Hb).
  exists args. split; [ exact Hr | split; [ exact Hw | split; [ exact Hd | exact Hb ] ] ].
Defined.


(** Property X14: the same button, in a decoration with small backgrounds. *)
Lemma small_background_of_close_button :
  let b := with_m_backgroundColor white (Sample.button Close Sample.deco false) in
  let l := emitted (drawIcon b) Sample.world in
  decoration b = Some Sample.deco
  /\ shapesDrawn l = [smallShape Sample.settings] /\ pathsDrawn l = [].
Proof.
  intros b l. split; [ reflexivity | ].
  exact (proj2 (proj2 (one_background_per_button b Sample.deco Sample.world eq_refl))
               eq_refl eq_refl).
Defined.

(** Property X15: painting the menu button while the icon loader has the
    default palette. *)
Lemma menu_button_palette_after_paint :
  let b := Sample.button Menu Sample.deco false in
  btype b = Menu
  /\ exists b' w',
       paint b Sample.world = Some (b', w')
       /\ mPalette (iconLoader w') = mkPalette 1 (Some (Sample.rgb 35 38 41))
       /\ mCustomPalette (iconLoader w') = false.
Proof.
  intros b. split; [ reflexivity | ].
  destruct (menu_button_leaves_window_palette b Sample.deco Sample.window Sample.world
                                              eq_refl eq_refl eq_refl)
    as (b' & w' & Hp & Hm & Hc).
  exists b', w'. split; [ exact Hp | split; [ exact Hm | exact Hc ] ].
Defined.



(** Property X17: a close button pressed while its hover animation runs,
    against the same button pressed at rest. *)
Lemma pressed_close_button_is_not_animated :
  let b := Sample.button Close Sample.deco false in
  let b1 := Sample.pressed (Sample.hovered (tick 50 (updateAnimationState true b))) in
  let b2 := Sample.pressed b in
  isRunning b1 = true /\ isHovered b1 = true /\ isRunning b2 = false /\ isHovered b2 = false
  /\ backgroundColor b1 false = backgroundColor b2 false
  /\ foregroundColor b1 white = foregroundColor b2 white.
Proof.
  intros b b1 b2.
  destruct (pressed_button_ignores_hover_and_animation b1 b2 false false
              eq_refl eq_refl eq_refl eq_refl eq_refl) as (Hb & _ & Hf).
  split; [ reflexivity | split; [ reflexivity | split; [ reflexivity | ] ] ].
  split; [ reflexivity | ].
  split; [ exact Hb | exact (Hf Sample.deco eq_refl eq_refl white) ].
Defined.

(** Property X20: the close button at rest, with its red background. *)
Lemma close_button_background_is_switched_on :
  let b := Sample.button Close Sample.deco false in
  decoration b = Some Sample.deco
  /\ isAccent (internalSettings Sample.deco) = true
  /\ isValid (fst (backgroundColor b false)) = true
  /\ appliesAlways b (m_buttonBehaviouralParameters Sample.deco) = true.
Proof.
  intros b.
  split; [ reflexivity | split; [ reflexivity | split; [ reflexivity | ] ] ].
  exact (background_needs_its_flag b Sample.deco false eq_refl eq_refl eq_refl).
Defined.
